(** * CopyBloomFX: the account ledger, the deposit reaper, promotions,
      simulated trades and the wallet pool

    A shallow embedding of [models.py], [utils.py] and the ledger
    functions of [views.py].

    Conventions of the embedding.
    - A [Decimal] is a rational number ([Q]): the arithmetic of the source
      is exact on the values it meets. The columns of money are
      [DecimalField(decimal_places=2)]: [quantize] is the value such a
      column holds for a value written to it. A value computed with a
      product or a random draw (a referral bonus, a promo bonus, a daily
      profit, the lot of a trade) is stored quantised, while the object
      in memory keeps the value computed. A sum or a difference of column
      values and of amounts of a form, which have two decimals, is
      stored as it is, and so is the profit of a pending trade, which
      each tick computes anew.
    - A [datetime] is a number of microseconds ([Z]); a [timedelta]
      likewise. A view or a pass reads the clock once: the successive
      calls of [timezone.now()] within one call are one argument [now].
    - A result of [random.random()] is an argument, a rational of
      [[0, 1)]; a Python float is the rational it denotes.
    - Primary keys are [positive]: an [AutoField] starts at 1, so the
      truth test the source applies to an id ([if d.referrer_id and ...])
      is the test that the id is set.
    - The tables of the database are the fields of [DB]; [Profile] rows
      are keyed by their user, the rows of the other tables are listed in
      the order of the table. Every view runs in autocommit mode, so a
      row written before an exception stays written. Calls do not
      interleave.
    - An [order_by] keeps rows of equal keys in the order of the table. *)

From Stdlib Require Import ZArith QArith Qround Lia Lqa.
From stdpp Require Import gmap strings list fin_maps sorting.

Close Scope Q_scope.
Open Scope Z_scope.

(** * Part I: the embedding *)

(** ** Decimal comparisons *)

Definition Decimal := Q.

Definition Qleb (x y : Q) : bool := Qle_bool x y.
Definition Qltb (x y : Q) : bool := negb (Qle_bool y x).
Definition Qgeb (x y : Q) : bool := Qleb y x.
Definition Qgtb (x y : Q) : bool := Qltb y x.
(** A [Decimal] is true when it is not zero. *)
Definition Qtruthy (x : Q) : bool := negb (Qeq_bool x 0).

(** ** Decimal columns

    The nearest integer, a tie going to the even one ([ROUND_HALF_EVEN],
    the rounding of the default context of [decimal]). *)
Definition round_half_even (x : Q) : Z :=
  let f := Qfloor x in
  match (x - inject_Z f ?= 1 # 2)%Q with
  | Lt => f
  | Gt => f + 1
  | Eq => if Z.even f then f else f + 1
  end.

(** [value.quantize(Decimal('0.01'))]: what a column of two decimal
    places holds for [x], within the digits of the column. *)
Definition quantize (x : Decimal) : Decimal :=
  (inject_Z (round_half_even (x * 100)) / 100)%Q.

(** ** Query sets

    [order_by leb rows] is a stable insertion sort: rows with equal keys
    keep the order of the table. *)

Fixpoint insert_row {A : Type} (leb : A -> A -> bool) (x : A) (l : list A) : list A :=
  match l with
  | [] => [x]
  | y :: l' => if leb x y then x :: y :: l' else y :: insert_row leb x l'
  end.

Definition order_by {A : Type} (leb : A -> A -> bool) (l : list A) : list A :=
  foldr (insert_row leb) [] l.

(** The next value of an [AutoField]: 1 on an empty table, else one more
    than the greatest id (no row is ever deleted by the views). *)
Definition next_id {A : Type} (pk : A -> positive) (rows : list A) : positive :=
  foldr (fun r m => Pos.max (Pos.succ (pk r)) m) 1%positive rows.

(** ** models.py *)

Module Rank.
Record t := {
  id : positive;
  name : string;
  min_balance : Decimal;
  max_balance : option Decimal;     (* None for unlimited *)
  daily_profit_pct : Decimal;
  copy_trades_limit : Z;
}.
End Rank.

(** A [Profile] row; the rows are keyed by their [user]
    ([OneToOneField]), [rank] is the nullable foreign key. *)
Module Profile.
Record t := {
  rank : option positive;
  locked_balance : Decimal;
  withdrawable_balance : Decimal;
  total_referrals : Z;
  valid_referrals : Z;
  referral_earnings : Decimal;
  last_withdrawal_at : option Z;
}.

Definition set_rank (v : option positive) (p : t) : t :=
  {| rank := v; locked_balance := locked_balance p;
     withdrawable_balance := withdrawable_balance p;
     total_referrals := total_referrals p; valid_referrals := valid_referrals p;
     referral_earnings := referral_earnings p;
     last_withdrawal_at := last_withdrawal_at p |}.
Definition set_locked_balance (v : Decimal) (p : t) : t :=
  {| rank := rank p; locked_balance := v;
     withdrawable_balance := withdrawable_balance p;
     total_referrals := total_referrals p; valid_referrals := valid_referrals p;
     referral_earnings := referral_earnings p;
     last_withdrawal_at := last_withdrawal_at p |}.
Definition set_withdrawable_balance (v : Decimal) (p : t) : t :=
  {| rank := rank p; locked_balance := locked_balance p;
     withdrawable_balance := v;
     total_referrals := total_referrals p; valid_referrals := valid_referrals p;
     referral_earnings := referral_earnings p;
     last_withdrawal_at := last_withdrawal_at p |}.
Definition set_total_referrals (v : Z) (p : t) : t :=
  {| rank := rank p; locked_balance := locked_balance p;
     withdrawable_balance := withdrawable_balance p;
     total_referrals := v; valid_referrals := valid_referrals p;
     referral_earnings := referral_earnings p;
     last_withdrawal_at := last_withdrawal_at p |}.
Definition set_valid_referrals (v : Z) (p : t) : t :=
  {| rank := rank p; locked_balance := locked_balance p;
     withdrawable_balance := withdrawable_balance p;
     total_referrals := total_referrals p; valid_referrals := v;
     referral_earnings := referral_earnings p;
     last_withdrawal_at := last_withdrawal_at p |}.
Definition set_referral_earnings (v : Decimal) (p : t) : t :=
  {| rank := rank p; locked_balance := locked_balance p;
     withdrawable_balance := withdrawable_balance p;
     total_referrals := total_referrals p; valid_referrals := valid_referrals p;
     referral_earnings := v;
     last_withdrawal_at := last_withdrawal_at p |}.
Definition set_last_withdrawal_at (v : option Z) (p : t) : t :=
  {| rank := rank p; locked_balance := locked_balance p;
     withdrawable_balance := withdrawable_balance p;
     total_referrals := total_referrals p; valid_referrals := valid_referrals p;
     referral_earnings := referral_earnings p;
     last_withdrawal_at := v |}.

(** [Profile.principal_balance] *)
Definition principal_balance (p : t) : Decimal :=
  (locked_balance p + withdrawable_balance p)%Q.
End Profile.

Module Deposit.
Inductive status_t := pending | approved | rejected | expired.

Record t := {
  id : positive;
  user : positive;
  amount : Decimal;
  network : string;
  wallet_address : string;
  status : status_t;
  expires_at : option Z;
  approved_at : option Z;
  referrer : option positive;
  created_at : Z;
}.

Definition status_eqb (a b : status_t) : bool :=
  match a, b with
  | pending, pending | approved, approved
  | rejected, rejected | expired, expired => true
  | _, _ => false
  end.

Definition set_status (v : status_t) (d : t) : t :=
  {| id := id d; user := user d; amount := amount d; network := network d;
     wallet_address := wallet_address d; status := v;
     expires_at := expires_at d; approved_at := approved_at d;
     referrer := referrer d; created_at := created_at d |}.
Definition set_approved_at (v : option Z) (d : t) : t :=
  {| id := id d; user := user d; amount := amount d; network := network d;
     wallet_address := wallet_address d; status := status d;
     expires_at := expires_at d; approved_at := v;
     referrer := referrer d; created_at := created_at d |}.
Definition set_expires_at (v : option Z) (d : t) : t :=
  {| id := id d; user := user d; amount := amount d; network := network d;
     wallet_address := wallet_address d; status := status d;
     expires_at := v; approved_at := approved_at d;
     referrer := referrer d; created_at := created_at d |}.
End Deposit.

Module LocalDeposit.
Inductive status_t := pending | paid | confirmed | failed | cancelled.

Record t := {
  id : positive;
  user : positive;
  amount_usdt : Decimal;
  status : status_t;
  paid_at : option Z;
}.

Definition status_eqb (a b : status_t) : bool :=
  match a, b with
  | pending, pending | paid, paid | confirmed, confirmed
  | failed, failed | cancelled, cancelled => true
  | _, _ => false
  end.

Definition set_status (v : status_t) (d : t) : t :=
  {| id := id d; user := user d; amount_usdt := amount_usdt d;
     status := v; paid_at := paid_at d |}.
Definition set_paid_at (v : option Z) (d : t) : t :=
  {| id := id d; user := user d; amount_usdt := amount_usdt d;
     status := status d; paid_at := v |}.
End LocalDeposit.

Module Withdrawal.
Record t := {
  id : positive;
  user : positive;
  amount : Decimal;
  network : string;
  wallet_address : string;
  status : string;
}.
End Withdrawal.

Module CopyTrade.
Inductive status_t := pending | completed | cancelled.

Record t := {
  id : positive;
  user : positive;
  pair : string;
  action : string;
  amount : Decimal;
  profit : Decimal;
  status : status_t;
  created_at : Z;
}.

Definition status_eqb (a b : status_t) : bool :=
  match a, b with
  | pending, pending | completed, completed | cancelled, cancelled => true
  | _, _ => false
  end.

Definition set_status (v : status_t) (c : t) : t :=
  {| id := id c; user := user c; pair := pair c; action := action c;
     amount := amount c; profit := profit c; status := v;
     created_at := created_at c |}.
Definition set_profit (v : Decimal) (c : t) : t :=
  {| id := id c; user := user c; pair := pair c; action := action c;
     amount := amount c; profit := v; status := status c;
     created_at := created_at c |}.
End CopyTrade.

Module Referral.
Record t := {
  referrer : positive;
  referee : positive;
  bonus_amount : Decimal;
  deposit : option positive;
}.
End Referral.

Module DailyReward.
Record t := {
  user : positive;
  amount : Decimal;
  claimed_at : Z;
}.
End DailyReward.

Module PromoCode.
Inductive status_t := active | disabled.

Record t := {
  id : positive;
  code : string;
  bonus_min : Decimal;
  bonus_max : Decimal;
  expiration : option Z;
  usage_limit : option Z;
  usage_count : Z;
  status : status_t;
}.

Definition status_eqb (a b : status_t) : bool :=
  match a, b with
  | active, active | disabled, disabled => true
  | _, _ => false
  end.

Definition set_usage_count (v : Z) (c : t) : t :=
  {| id := id c; code := code c; bonus_min := bonus_min c;
     bonus_max := bonus_max c; expiration := expiration c;
     usage_limit := usage_limit c; usage_count := v; status := status c |}.
End PromoCode.

Module PromoRedemption.
Record t := {
  user : positive;
  promo_code : positive;
  bonus_amount : Decimal;
}.
End PromoRedemption.

Module Notification.
Record t := {
  user : positive;
  message : string;
}.
End Notification.

(** ** The database *)

Record DB := {
  Rank_objects : list Rank.t;
  Profile_objects : gmap positive Profile.t;
  Deposit_objects : list Deposit.t;
  LocalDeposit_objects : list LocalDeposit.t;
  Withdrawal_objects : list Withdrawal.t;
  CopyTrade_objects : list CopyTrade.t;
  Referral_objects : list Referral.t;
  DailyReward_objects : list DailyReward.t;
  PromoCode_objects : list PromoCode.t;
  PromoRedemption_objects : list PromoRedemption.t;
  Notification_objects : list Notification.t;
}.

Definition upd_Profile_objects (f : gmap positive Profile.t -> gmap positive Profile.t)
    (db : DB) : DB :=
  {| Rank_objects := Rank_objects db;
     Profile_objects := f (Profile_objects db);
     Deposit_objects := Deposit_objects db;
     LocalDeposit_objects := LocalDeposit_objects db;
     Withdrawal_objects := Withdrawal_objects db;
     CopyTrade_objects := CopyTrade_objects db;
     Referral_objects := Referral_objects db;
     DailyReward_objects := DailyReward_objects db;
     PromoCode_objects := PromoCode_objects db;
     PromoRedemption_objects := PromoRedemption_objects db;
     Notification_objects := Notification_objects db |}.

Definition upd_Deposit_objects (f : list Deposit.t -> list Deposit.t) (db : DB) : DB :=
  {| Rank_objects := Rank_objects db;
     Profile_objects := Profile_objects db;
     Deposit_objects := f (Deposit_objects db);
     LocalDeposit_objects := LocalDeposit_objects db;
     Withdrawal_objects := Withdrawal_objects db;
     CopyTrade_objects := CopyTrade_objects db;
     Referral_objects := Referral_objects db;
     DailyReward_objects := DailyReward_objects db;
     PromoCode_objects := PromoCode_objects db;
     PromoRedemption_objects := PromoRedemption_objects db;
     Notification_objects := Notification_objects db |}.

Definition upd_LocalDeposit_objects (f : list LocalDeposit.t -> list LocalDeposit.t)
    (db : DB) : DB :=
  {| Rank_objects := Rank_objects db;
     Profile_objects := Profile_objects db;
     Deposit_objects := Deposit_objects db;
     LocalDeposit_objects := f (LocalDeposit_objects db);
     Withdrawal_objects := Withdrawal_objects db;
     CopyTrade_objects := CopyTrade_objects db;
     Referral_objects := Referral_objects db;
     DailyReward_objects := DailyReward_objects db;
     PromoCode_objects := PromoCode_objects db;
     PromoRedemption_objects := PromoRedemption_objects db;
     Notification_objects := Notification_objects db |}.

Definition upd_Withdrawal_objects (f : list Withdrawal.t -> list Withdrawal.t)
    (db : DB) : DB :=
  {| Rank_objects := Rank_objects db;
     Profile_objects := Profile_objects db;
     Deposit_objects := Deposit_objects db;
     LocalDeposit_objects := LocalDeposit_objects db;
     Withdrawal_objects := f (Withdrawal_objects db);
     CopyTrade_objects := CopyTrade_objects db;
     Referral_objects := Referral_objects db;
     DailyReward_objects := DailyReward_objects db;
     PromoCode_objects := PromoCode_objects db;
     PromoRedemption_objects := PromoRedemption_objects db;
     Notification_objects := Notification_objects db |}.

Definition upd_CopyTrade_objects (f : list CopyTrade.t -> list CopyTrade.t)
    (db : DB) : DB :=
  {| Rank_objects := Rank_objects db;
     Profile_objects := Profile_objects db;
     Deposit_objects := Deposit_objects db;
     LocalDeposit_objects := LocalDeposit_objects db;
     Withdrawal_objects := Withdrawal_objects db;
     CopyTrade_objects := f (CopyTrade_objects db);
     Referral_objects := Referral_objects db;
     DailyReward_objects := DailyReward_objects db;
     PromoCode_objects := PromoCode_objects db;
     PromoRedemption_objects := PromoRedemption_objects db;
     Notification_objects := Notification_objects db |}.

Definition upd_Referral_objects (f : list Referral.t -> list Referral.t) (db : DB) : DB :=
  {| Rank_objects := Rank_objects db;
     Profile_objects := Profile_objects db;
     Deposit_objects := Deposit_objects db;
     LocalDeposit_objects := LocalDeposit_objects db;
     Withdrawal_objects := Withdrawal_objects db;
     CopyTrade_objects := CopyTrade_objects db;
     Referral_objects := f (Referral_objects db);
     DailyReward_objects := DailyReward_objects db;
     PromoCode_objects := PromoCode_objects db;
     PromoRedemption_objects := PromoRedemption_objects db;
     Notification_objects := Notification_objects db |}.

Definition upd_DailyReward_objects (f : list DailyReward.t -> list DailyReward.t)
    (db : DB) : DB :=
  {| Rank_objects := Rank_objects db;
     Profile_objects := Profile_objects db;
     Deposit_objects := Deposit_objects db;
     LocalDeposit_objects := LocalDeposit_objects db;
     Withdrawal_objects := Withdrawal_objects db;
     CopyTrade_objects := CopyTrade_objects db;
     Referral_objects := Referral_objects db;
     DailyReward_objects := f (DailyReward_objects db);
     PromoCode_objects := PromoCode_objects db;
     PromoRedemption_objects := PromoRedemption_objects db;
     Notification_objects := Notification_objects db |}.

Definition upd_PromoCode_objects (f : list PromoCode.t -> list PromoCode.t)
    (db : DB) : DB :=
  {| Rank_objects := Rank_objects db;
     Profile_objects := Profile_objects db;
     Deposit_objects := Deposit_objects db;
     LocalDeposit_objects := LocalDeposit_objects db;
     Withdrawal_objects := Withdrawal_objects db;
     CopyTrade_objects := CopyTrade_objects db;
     Referral_objects := Referral_objects db;
     DailyReward_objects := DailyReward_objects db;
     PromoCode_objects := f (PromoCode_objects db);
     PromoRedemption_objects := PromoRedemption_objects db;
     Notification_objects := Notification_objects db |}.

Definition upd_PromoRedemption_objects
    (f : list PromoRedemption.t -> list PromoRedemption.t) (db : DB) : DB :=
  {| Rank_objects := Rank_objects db;
     Profile_objects := Profile_objects db;
     Deposit_objects := Deposit_objects db;
     LocalDeposit_objects := LocalDeposit_objects db;
     Withdrawal_objects := Withdrawal_objects db;
     CopyTrade_objects := CopyTrade_objects db;
     Referral_objects := Referral_objects db;
     DailyReward_objects := DailyReward_objects db;
     PromoCode_objects := PromoCode_objects db;
     PromoRedemption_objects := f (PromoRedemption_objects db);
     Notification_objects := Notification_objects db |}.

Definition upd_Notification_objects (f : list Notification.t -> list Notification.t)
    (db : DB) : DB :=
  {| Rank_objects := Rank_objects db;
     Profile_objects := Profile_objects db;
     Deposit_objects := Deposit_objects db;
     LocalDeposit_objects := LocalDeposit_objects db;
     Withdrawal_objects := Withdrawal_objects db;
     CopyTrade_objects := CopyTrade_objects db;
     Referral_objects := Referral_objects db;
     DailyReward_objects := DailyReward_objects db;
     PromoCode_objects := PromoCode_objects db;
     PromoRedemption_objects := PromoRedemption_objects db;
     Notification_objects := f (Notification_objects db) |}.

(** ** Effects: a state and exception monad

    A computation takes the store and either returns a value or raises;
    in both cases it hands back the store as it then is. *)

Inductive exn := Http404 | DoesNotExist | AttributeError | IndexError | ValueError.

Inductive outcome (S A : Type) :=
  | Ok (a : A) (s : S)
  | Raise (e : exn) (s : S).
Arguments Ok {S A} a s.
Arguments Raise {S A} e s.

Definition M (S A : Type) : Type := S -> outcome S A.

Global Instance M_ret {S} : MRet (M S) := fun A a s => Ok a s.
Global Instance M_bind {S} : MBind (M S) := fun A B f m s =>
  match m s with
  | Ok a s' => f a s'
  | Raise e s' => Raise e s'
  end.

Definition gets {S A} (f : S -> A) : M S A := fun s => Ok (f s) s.
Definition modify {S} (f : S -> S) : M S unit := fun s => Ok () (f s).
Definition raise {S A} (e : exn) : M S A := fun s => Raise e s.

(** [for x in l: body x] *)
Fixpoint for_each {S A} (l : list A) (body : A -> M S unit) : M S unit :=
  match l with
  | [] => mret ()
  | x :: l' => body x;; for_each l' body
  end.

(** The store an outcome hands back. *)
Definition store {S A} (o : outcome S A) : S :=
  match o with Ok _ s => s | Raise _ s => s end.

(** ** The object-relational layer, as the source uses it *)

(** [UPDATE ... WHERE id = i] *)
Definition update_row {A : Type} (pk : A -> positive) (i : positive) (f : A -> A)
    (rows : list A) : list A :=
  map (fun r => if Pos.eqb (pk r) i then f r else r) rows.

(** [Model.objects.filter(pk=i).first()] *)
Definition get_row {A : Type} (pk : A -> positive) (i : positive) (rows : list A)
    : option A :=
  List.find (fun r => Pos.eqb (pk r) i) rows.

(** [x.user.profile]: the reverse one-to-one accessor raises when the
    user has no profile. *)
Definition related_profile (uid : positive) : M DB Profile.t := fun db =>
  match Profile_objects db !! uid with
  | Some p => Ok p db
  | None => Raise DoesNotExist db
  end.

(** [get_object_or_404(Profile, user=u)] *)
Definition get_profile_or_404 (uid : positive) : M DB Profile.t := fun db =>
  match Profile_objects db !! uid with
  | Some p => Ok p db
  | None => Raise Http404 db
  end.

(** The object as its row holds it once written: the money columns
    quantised. *)
Definition Profile_stored (p : Profile.t) : Profile.t :=
  Profile.set_referral_earnings (quantize (Profile.referral_earnings p))
    (Profile.set_withdrawable_balance (quantize (Profile.withdrawable_balance p))
       (Profile.set_locked_balance (quantize (Profile.locked_balance p)) p)).

(** [profile.save(update_fields=[...])] writes the named column of the
    object given to its row, as that object holds it: where the value in
    memory can have more than two decimals, the caller gives
    [Profile_stored profile]. *)
Definition Profile_save_locked_balance (uid : positive) (p : Profile.t) : M DB unit :=
  modify (upd_Profile_objects
            (alter (Profile.set_locked_balance (Profile.locked_balance p)) uid)).
Definition Profile_save_withdrawable_balance (uid : positive) (p : Profile.t) : M DB unit :=
  modify (upd_Profile_objects
            (alter (Profile.set_withdrawable_balance (Profile.withdrawable_balance p)) uid)).
Definition Profile_save_rank (uid : positive) (p : Profile.t) : M DB unit :=
  modify (upd_Profile_objects (alter (Profile.set_rank (Profile.rank p)) uid)).
Definition Profile_save_last_withdrawal_at (uid : positive) (p : Profile.t) : M DB unit :=
  modify (upd_Profile_objects
            (alter (Profile.set_last_withdrawal_at (Profile.last_withdrawal_at p)) uid)).
(** [profile.save()] writes every column; the row holds the money
    columns quantised. *)
Definition Profile_save (uid : positive) (p : Profile.t) : M DB unit :=
  modify (upd_Profile_objects (insert uid (Profile_stored p))).

Definition Deposit_save_status (d : Deposit.t) : M DB unit :=
  modify (upd_Deposit_objects
            (update_row Deposit.id (Deposit.id d) (Deposit.set_status (Deposit.status d)))).

Definition Notification_create (uid : positive) (msg : string) : M DB unit :=
  modify (upd_Notification_objects
            (fun rows => rows ++ [ {| Notification.user := uid; Notification.message := msg |} ])).

(** [profile.rank]: the foreign key is followed to the [Rank] row. *)
Definition Profile_rank (p : Profile.t) : M DB (option Rank.t) := fun db =>
  match Profile.rank p with
  | None => Ok None db
  | Some i =>
      match get_row Rank.id i (Rank_objects db) with
      | Some r => Ok (Some r) db
      | None => Raise DoesNotExist db
      end
  end.

(** [a != b] on model instances (or [None]) compares primary keys. *)
Definition rank_neb (a b : option Rank.t) : bool :=
  match a, b with
  | None, None => false
  | Some x, Some y => negb (Pos.eqb (Rank.id x) (Rank.id y))
  | _, _ => true
  end.

(** ** [Profile.get_rank] and [Profile.update_rank] *)

(** The [for rank in ranks] loop of [get_rank]. *)
Fixpoint get_rank_loop (pb : Decimal) (ranks : list Rank.t) : option Rank.t :=
  match ranks with
  | [] => None
  | r :: ranks' =>
      if Qgeb pb (Rank.min_balance r) then
        match Rank.max_balance r with
        | None => Some r
        | Some m => if Qleb pb m then Some r else get_rank_loop pb ranks'
        end
      else get_rank_loop pb ranks'
  end.

Definition by_min_balance (r1 r2 : Rank.t) : bool :=
  Qleb (Rank.min_balance r1) (Rank.min_balance r2).

Definition get_rank (ranks : list Rank.t) (p : Profile.t) : option Rank.t :=
  if Qleb (Profile.principal_balance p) 0 then None
  else get_rank_loop (Profile.principal_balance p) (order_by by_min_balance ranks).

(** [update_rank] returns the in-memory profile as it leaves it, with the
    new rank. *)
Definition update_rank (uid : positive) (p : Profile.t)
    : M DB (Profile.t * option Rank.t) :=
  new_rank ← gets (fun db => get_rank (Rank_objects db) p);
  cur ← Profile_rank p;
  if rank_neb new_rank cur then
    let p := Profile.set_rank (Rank.id <$> new_rank) p in
    Profile_save_rank uid p;;
    mret (p, new_rank)
  else mret (p, new_rank).

(** ** views.py: [process_expired_deposits] *)

Definition expired_filter (now : Z) (d : Deposit.t) : bool :=
  Deposit.status_eqb (Deposit.status d) Deposit.approved &&
  match Deposit.expires_at d with
  | Some e => e <=? now
  | None => false
  end.

(** [order_by('approved_at')]; a missing date sorts first, as SQLite
    (the database of [settings.py]) orders it. *)
Definition by_approved_at (a b : Deposit.t) : bool :=
  match Deposit.approved_at a, Deposit.approved_at b with
  | None, _ => true
  | Some _, None => false
  | Some x, Some y => x <=? y
  end.

Definition name_or_None (r : option Rank.t) : string :=
  match r with Some r => Rank.name r | None => "None" end.

Definition demotion_message (old_rank new_rank : option Rank.t) : string :=
  "Your rank has been demoted from " +:+ name_or_None old_rank +:+ " to " +:+
  name_or_None new_rank +:+ " due to expired deposit.".

(** The body of the [for deposit in expired_deposits] loop. *)
Definition expire_deposit (deposit : Deposit.t) : M DB unit :=
  profile ← related_profile (Deposit.user deposit);
  if Qgeb (Profile.locked_balance profile) (Deposit.amount deposit) then
    let profile :=
      Profile.set_locked_balance
        (Profile.locked_balance profile - Deposit.amount deposit)%Q profile in
    Profile_save_locked_balance (Deposit.user deposit) profile;;
    let deposit := Deposit.set_status Deposit.expired deposit in
    Deposit_save_status deposit;;
    old_rank ← Profile_rank profile;
    new_rank ← gets (fun db => get_rank (Rank_objects db) profile);
    if rank_neb old_rank new_rank then
      let profile := Profile.set_rank (Rank.id <$> new_rank) profile in
      Profile_save_rank (Deposit.user deposit) profile;;
      Notification_create (Deposit.user deposit) (demotion_message old_rank new_rank)
    else mret ()
  else mret ().

Definition process_expired_deposits (now : Z) : M DB unit :=
  expired_deposits ←
    gets (fun db => order_by by_approved_at
                      (List.filter (expired_filter now) (Deposit_objects db)));
  for_each expired_deposits expire_deposit.

(** ** Time *)

Definition timedelta_seconds (n : Z) : Z := n * 1000000.
Definition timedelta_days (n : Z) : Z := n * 86400 * 1000000.
(** [timedelta.total_seconds()] *)
Definition total_seconds (td : Z) : Q := (td # 1000000)%Q.
(** [datetime.date()], as a day number. *)
Definition date (dt : Z) : Z := dt / timedelta_days 1.

(** [min(a, b)] and [max(a, b)] return the first argument on a tie. *)
Definition py_min (a b : Q) : Q := if Qltb b a then b else a.
Definition py_max (a b : Q) : Q := if Qgtb b a then b else a.

(** ** utils.py: constants *)

Definition MIN_DEPOSIT : Decimal := 7.5%Q.
Definition MIN_WITHDRAWAL : Decimal := 2.5%Q.
Definition DAILY_REWARD : Decimal := 0.10%Q.
Definition REFERRAL_PCT : Decimal := 0.08%Q.
Definition LOCK_DAYS : Z := 30.

Definition add_days (dt n : Z) : Z := dt + timedelta_days n.

Definition is_same_day (a : option Z) (b : Z) : bool :=
  match a with
  | None => false
  | Some a => date a =? date b
  end.

(** ** views.py: [complete_pending_trades] *)

(** The default ordering of [CopyTrade]: [-created_at]. *)
Definition by_created_at_desc (a b : CopyTrade.t) : bool :=
  CopyTrade.created_at b <=? CopyTrade.created_at a.

Definition is_pending (t : CopyTrade.t) : bool :=
  CopyTrade.status_eqb (CopyTrade.status t) CopyTrade.pending.

Definition CopyTrade_save_status (t : CopyTrade.t) : M DB unit :=
  modify (upd_CopyTrade_objects
            (update_row CopyTrade.id (CopyTrade.id t)
               (CopyTrade.set_status (CopyTrade.status t)))).

Definition CopyTrade_save_profit (t : CopyTrade.t) : M DB unit :=
  modify (upd_CopyTrade_objects
            (update_row CopyTrade.id (CopyTrade.id t)
               (CopyTrade.set_profit (CopyTrade.profit t)))).

(** The body of the [for trade in pending_trades] loop. *)
Definition complete_trade (trade : CopyTrade.t) : M DB unit :=
  let final_profit := CopyTrade.profit trade in
  let trade := CopyTrade.set_status CopyTrade.completed trade in
  CopyTrade_save_status trade;;
  profile ← related_profile (CopyTrade.user trade);
  let profile :=
    Profile.set_withdrawable_balance
      (Profile.withdrawable_balance profile + final_profit)%Q profile in
  Profile_save_withdrawable_balance (CopyTrade.user trade) profile.

Definition completion_filter (now : Z) (t : CopyTrade.t) : bool :=
  is_pending t && (CopyTrade.created_at t <=? now - timedelta_seconds 35).

Definition complete_pending_trades (now : Z) : M DB unit :=
  pending_trades ←
    gets (fun db => order_by by_created_at_desc
                      (List.filter (completion_filter now) (CopyTrade_objects db)));
  for_each pending_trades complete_trade.

(** ** views.py: [update_pending_trades_profit]

    The three calls of [random.random()] a tick makes are its arguments
    [r1], [r2], [r3], in the order of the calls. *)

Definition potential_daily_profit (rank : option Rank.t) (locked_balance : Decimal)
    : Decimal :=
  match rank with
  | Some r =>
      if Qgtb locked_balance 0 && Qtruthy (Rank.daily_profit_pct r)
      then (locked_balance * (Rank.daily_profit_pct r / 100))%Q
      else 0.50%Q
  | None => 0.50%Q
  end.

Definition max_trades_allowed (rank : option Rank.t) : Z :=
  match rank with
  | Some r => Rank.copy_trades_limit r
  | None => 1
  end.

Definition profit_per_trade (rank : option Rank.t) (locked_balance : Decimal) : Decimal :=
  if 0 <? max_trades_allowed rank
  then (potential_daily_profit rank locked_balance / inject_Z (max_trades_allowed rank))%Q
  else 0.50%Q.

Definition variance (ppt r1 : Decimal) : Decimal :=
  let variance_percentage := 0.05%Q in
  let variance_amount := (ppt * variance_percentage)%Q in
  ((0.5 + r1) * variance_amount)%Q.

Definition target_profit (ppt r1 r2 : Decimal) : Decimal :=
  let target :=
    if Qltb r2 0.6 then (ppt + variance ppt r1)%Q else (ppt - variance ppt r1)%Q in
  py_max target 0.01%Q.

Definition fluctuation (r3 : Decimal) : Decimal := (0.95 + 0.15 * r3)%Q.

Definition progress (seconds_elapsed : Q) : Q := py_min (seconds_elapsed / 30)%Q 1%Q.

Definition current_profit (rank : option Rank.t) (locked_balance : Decimal)
    (seconds_elapsed r1 r2 r3 : Q) : Decimal :=
  (target_profit (profit_per_trade rank locked_balance) r1 r2
   * progress seconds_elapsed * fluctuation r3)%Q.

(** The body of the loop; [n] counts the draws made so far from the
    sequence [rnd] of results of [random.random()]. *)
Definition tick_trade (rnd : nat -> Q) (now : Z) (n : nat) (trade : CopyTrade.t)
    : M DB nat :=
  let seconds_elapsed := total_seconds (now - CopyTrade.created_at trade) in
  if Qltb seconds_elapsed 10 then
    CopyTrade_save_profit (CopyTrade.set_profit 0%Q trade);;
    mret n
  else
    profile ← related_profile (CopyTrade.user trade);
    rank ← gets (fun db => get_rank (Rank_objects db) profile);
    let profit :=
      current_profit rank (Profile.locked_balance profile) seconds_elapsed
        (rnd n) (rnd (S n)) (rnd (S (S n))) in
    CopyTrade_save_profit (CopyTrade.set_profit profit trade);;
    mret (S (S (S n))).

Fixpoint tick_loop (rnd : nat -> Q) (now : Z) (n : nat) (trades : list CopyTrade.t)
    : M DB nat :=
  match trades with
  | [] => mret n
  | trade :: trades' =>
      n' ← tick_trade rnd now n trade;
      tick_loop rnd now n' trades'
  end.

Definition update_pending_trades_profit (rnd : nat -> Q) (now : Z) : M DB nat :=
  pending_trades ←
    gets (fun db => order_by by_created_at_desc
                      (List.filter is_pending (CopyTrade_objects db)));
  tick_loop rnd now 0%nat pending_trades.

(** ** Flash messages: level, text and the amount the text quotes *)

Inductive level := info | success | warning | error.

Record flash := Flash {
  flash_level : level;
  flash_text : string;
  flash_amount : option Decimal;
}.

(** ** views.py: [admin_deposit_approve_view] *)

Inductive any_deposit :=
  | crypto (d : Deposit.t)
  | paystack (d : LocalDeposit.t).

(** [get_object_or_404(Deposit, pk=pk)], then [LocalDeposit]. *)
Definition find_deposit (pk : positive) : M DB any_deposit := fun db =>
  match get_row Deposit.id pk (Deposit_objects db) with
  | Some d => Ok (crypto d) db
  | None =>
      match get_row LocalDeposit.id pk (LocalDeposit_objects db) with
      | Some d => Ok (paystack d) db
      | None => Raise Http404 db
      end
  end.

(** [d.save(update_fields=['status', 'approved_at', 'expires_at'])] *)
Definition Deposit_save_approval (d : Deposit.t) : M DB unit :=
  modify (upd_Deposit_objects
            (update_row Deposit.id (Deposit.id d)
               (fun row => Deposit.set_expires_at (Deposit.expires_at d)
                             (Deposit.set_approved_at (Deposit.approved_at d)
                                (Deposit.set_status (Deposit.status d) row))))).

(** [d.save(update_fields=['status', 'paid_at'])] *)
Definition LocalDeposit_save_paid (d : LocalDeposit.t) : M DB unit :=
  modify (upd_LocalDeposit_objects
            (update_row LocalDeposit.id (LocalDeposit.id d)
               (fun row => LocalDeposit.set_paid_at (LocalDeposit.paid_at d)
                             (LocalDeposit.set_status (LocalDeposit.status d) row)))).

(** The row created holds the bonus quantised. *)
Definition Referral_create (r : Referral.t) : M DB unit :=
  modify (upd_Referral_objects
            (fun rows =>
               rows ++ [ {| Referral.referrer := Referral.referrer r;
                            Referral.referee := Referral.referee r;
                            Referral.bonus_amount := quantize (Referral.bonus_amount r);
                            Referral.deposit := Referral.deposit r |} ])).

(** The referral block of the approval of a crypto deposit. *)
Definition referral_bonus (d : Deposit.t) : M DB unit :=
  match Deposit.referrer d with
  | Some referrer_id =>
      if negb (Pos.eqb referrer_id (Deposit.user d)) then
        let bonus := (Deposit.amount d * REFERRAL_PCT)%Q in
        ref_profile ← gets (fun db => Profile_objects db !! referrer_id);
        match ref_profile with
        | Some ref_profile =>
            let ref_profile :=
              Profile.set_locked_balance
                (Profile.locked_balance ref_profile + bonus)%Q ref_profile in
            let ref_profile :=
              Profile.set_total_referrals
                (Profile.total_referrals ref_profile + 1) ref_profile in
            let ref_profile :=
              Profile.set_valid_referrals
                (Profile.valid_referrals ref_profile + 1) ref_profile in
            let ref_profile :=
              Profile.set_referral_earnings
                (Profile.referral_earnings ref_profile + bonus)%Q ref_profile in
            Profile_save referrer_id ref_profile;;
            Referral_create
              {| Referral.referrer := referrer_id;
                 Referral.referee := Deposit.user d;
                 Referral.bonus_amount := bonus;
                 Referral.deposit := Some (Deposit.id d) |};;
            update_rank referrer_id ref_profile;;
            mret ()
        | None => mret ()
        end
      else mret ()
  | None => mret ()
  end.

Definition admin_deposit_approve_view (pk : positive) (now : Z) : M DB flash :=
  d ← find_deposit pk;
  match d with
  | crypto d =>
      if negb (Deposit.status_eqb (Deposit.status d) Deposit.pending) then
        mret (Flash warning "Crypto deposit is not pending." None)
      else
        profile ← get_profile_or_404 (Deposit.user d);
        let profile :=
          Profile.set_locked_balance
            (Profile.locked_balance profile + Deposit.amount d)%Q profile in
        let d := Deposit.set_status Deposit.approved d in
        let d := Deposit.set_approved_at (Some now) d in
        let d :=
          Deposit.set_expires_at
            (match Deposit.expires_at d with
             | Some e => Some e
             | None => Some (add_days now LOCK_DAYS)
             end) d in
        Deposit_save_approval d;;
        referral_bonus d;;
        Profile_save_locked_balance (Deposit.user d) profile;;
        update_rank (Deposit.user d) profile;;
        mret (Flash success "Crypto deposit {d.amount} approved." (Some (Deposit.amount d)))
  | paystack d =>
      if negb (LocalDeposit.status_eqb (LocalDeposit.status d) LocalDeposit.pending) then
        mret (Flash warning "Paystack deposit is not pending." None)
      else
        profile ← get_profile_or_404 (LocalDeposit.user d);
        let profile :=
          Profile.set_locked_balance
            (Profile.locked_balance profile + LocalDeposit.amount_usdt d)%Q profile in
        let d := LocalDeposit.set_status LocalDeposit.paid d in
        let d := LocalDeposit.set_paid_at (Some now) d in
        LocalDeposit_save_paid d;;
        Profile_save_locked_balance (LocalDeposit.user d) profile;;
        update_rank (LocalDeposit.user d) profile;;
        mret (Flash success "Paystack deposit {d.amount_usdt} approved."
                (Some (LocalDeposit.amount_usdt d)))
  end.

(** ** views.py: [referral_view], a posted and valid redemption form

    [code] is the cleaned code of the form, [r] the result of
    [random.random()]. *)

Definition by_promo_id (a b : PromoCode.t) : bool :=
  Pos.leb (PromoCode.id a) (PromoCode.id b).

(** [PromoCode.objects.filter(code=code, status='active').first()] *)
Definition find_promo (code : string) (db : DB) : option PromoCode.t :=
  head (order_by by_promo_id
          (List.filter
             (fun c => String.eqb (PromoCode.code c) code &&
                       PromoCode.status_eqb (PromoCode.status c) PromoCode.active)
             (PromoCode_objects db))).

(** [PromoRedemption.objects.filter(user=user, promo_code=promo).exists()] *)
Definition redemption_exists (uid : positive) (promo : PromoCode.t) (db : DB) : bool :=
  existsb
    (fun x => Pos.eqb (PromoRedemption.user x) uid &&
              Pos.eqb (PromoRedemption.promo_code x) (PromoCode.id promo))
    (PromoRedemption_objects db).

Definition promo_expired (promo : PromoCode.t) (now : Z) : bool :=
  match PromoCode.expiration promo with
  | Some e => e <? now
  | None => false
  end.

Definition promo_exhausted (promo : PromoCode.t) : bool :=
  match PromoCode.usage_limit promo with
  | Some limit => limit <=? PromoCode.usage_count promo
  | None => false
  end.

(** [Deposit.objects.create(...)]: the object returned keeps the amount
    given, the row created holds it quantised. *)
Definition Deposit_create (uid : positive) (amount : Decimal) (network wallet : string)
    (status : Deposit.status_t) (expires_at approved_at : option Z)
    (referrer : option positive) (now : Z) : M DB Deposit.t := fun db =>
  let d (amount : Decimal) :=
    {| Deposit.id := next_id Deposit.id (Deposit_objects db);
       Deposit.user := uid; Deposit.amount := amount;
       Deposit.network := network; Deposit.wallet_address := wallet;
       Deposit.status := status; Deposit.expires_at := expires_at;
       Deposit.approved_at := approved_at; Deposit.referrer := referrer;
       Deposit.created_at := now |} in
  Ok (d amount) (upd_Deposit_objects (fun rows => rows ++ [d (quantize amount)]) db).

(** The row created holds the bonus quantised. *)
Definition PromoRedemption_create (r : PromoRedemption.t) : M DB unit :=
  modify (upd_PromoRedemption_objects
            (fun rows =>
               rows ++ [ {| PromoRedemption.user := PromoRedemption.user r;
                            PromoRedemption.promo_code := PromoRedemption.promo_code r;
                            PromoRedemption.bonus_amount :=
                              quantize (PromoRedemption.bonus_amount r) |} ])).

Definition PromoCode_save_usage_count (c : PromoCode.t) : M DB unit :=
  modify (upd_PromoCode_objects
            (update_row PromoCode.id (PromoCode.id c)
               (PromoCode.set_usage_count (PromoCode.usage_count c)))).

Definition referral_view (uid : positive) (code : string) (now : Z) (r : Q)
    : M DB flash :=
  profile ← get_profile_or_404 uid;
  promo ← gets (find_promo code);
  match promo with
  | None => mret (Flash error "Invalid or expired promo code." None)
  | Some promo =>
      if promo_expired promo now then
        mret (Flash error "Promo code expired." None)
      else if promo_exhausted promo then
        mret (Flash error "Usage limit reached." None)
      else
        redeemed ← gets (redemption_exists uid promo);
        if (redeemed : bool) then mret (Flash error "Already redeemed." None)
        else
          let bonus :=
            (PromoCode.bonus_min promo
             + (PromoCode.bonus_max promo - PromoCode.bonus_min promo) * r)%Q in
          let expires_at := now + timedelta_days 30 in
          Deposit_create uid bonus "PROMO" "PROMO_BONUS" Deposit.approved
            (Some expires_at) (Some now) None now;;
          let profile :=
            Profile.set_locked_balance (Profile.locked_balance profile + bonus)%Q profile in
          Profile_save_locked_balance uid (Profile_stored profile);;
          PromoRedemption_create
            {| PromoRedemption.user := uid;
               PromoRedemption.promo_code := PromoCode.id promo;
               PromoRedemption.bonus_amount := bonus |};;
          let promo := PromoCode.set_usage_count (PromoCode.usage_count promo + 1) promo in
          PromoCode_save_usage_count promo;;
          update_rank uid profile;;
          mret (Flash success "Promo redeemed. Bonus ${bonus:.2f} credited (expires in 30 days)."
                  (Some bonus))
  end.

(** ** views.py: [finance_view], a posted and valid crypto withdrawal form *)

Definition Withdrawal_create (uid : positive) (amount : Decimal)
    (network wallet status : string) : M DB unit := fun db =>
  let w :=
    {| Withdrawal.id := next_id Withdrawal.id (Withdrawal_objects db);
       Withdrawal.user := uid; Withdrawal.amount := amount;
       Withdrawal.network := network; Withdrawal.wallet_address := wallet;
       Withdrawal.status := status |} in
  Ok () (upd_Withdrawal_objects (fun rows => rows ++ [w]) db).

Definition finance_view_withdrawal (uid : positive) (amt : Decimal)
    (net wallet : string) (now : Z) : M DB flash :=
  profile ← gets (fun db => Profile_objects db !! uid);
  match profile with
  | None => raise AttributeError
  | Some profile =>
      if Qgtb amt (Profile.withdrawable_balance profile) then
        mret (Flash error "Insufficient withdrawable balance." None)
      else
        let profile :=
          Profile.set_withdrawable_balance
            (Profile.withdrawable_balance profile - amt)%Q profile in
        Profile_save_withdrawable_balance uid profile;;
        Withdrawal_create uid amt net wallet "pending_admin_approval";;
        let profile := Profile.set_last_withdrawal_at (Some now) profile in
        Profile_save_last_withdrawal_at uid profile;;
        update_rank uid profile;;
        mret (Flash success "Withdrawal submitted. Admin approval required." None)
  end.

(** ** views.py: [_update_user_rank] and [daily_reward_view] *)

Definition _update_user_rank (uid : positive) : M DB (option positive) :=
  profile ← gets (fun db => Profile_objects db !! uid);
  match profile with
  | Some profile =>
      '(profile, _) ← update_rank uid profile;
      mret (Profile.rank profile)
  | None => mret None
  end.

Definition by_claimed_at_desc (a b : DailyReward.t) : bool :=
  DailyReward.claimed_at b <=? DailyReward.claimed_at a.

Definition DailyReward_create (r : DailyReward.t) : M DB unit :=
  modify (upd_DailyReward_objects (fun rows => rows ++ [r])).

Definition daily_reward_view (uid : positive) (now : Z) : M DB flash :=
  profile ← get_profile_or_404 uid;
  last ← gets (fun db =>
                 head (order_by by_claimed_at_desc
                         (List.filter (fun x => Pos.eqb (DailyReward.user x) uid)
                            (DailyReward_objects db))));
  if is_same_day (DailyReward.claimed_at <$> last) now then
    mret (Flash warning "Already claimed today." None)
  else
    let profile :=
      Profile.set_withdrawable_balance
        (Profile.withdrawable_balance profile + DAILY_REWARD)%Q profile in
    Profile_save_withdrawable_balance uid profile;;
    DailyReward_create
      {| DailyReward.user := uid; DailyReward.amount := DAILY_REWARD;
         DailyReward.claimed_at := now |};;
    _update_user_rank uid;;
    mret (Flash success "Daily reward ${DAILY_REWARD} claimed." (Some DAILY_REWARD)).

(** ** utils.py: the wallet tables *)

Definition WALLETS_USDT_BEP20 : list string := [
  "0x330901bc8ccf6476cb6a007306a5d2956c62332f";
  "0x4ec0c6d5b98f9fc47a2a99f57e7e4e8e92682c2f";
  "0x04f3a91776e43bb59c71bb2afaf0a0d858d7ffa0";
  "0xe5e310431c70a968b72b2824a71ec17224f7cd36";
  "0xd581d94e502ef97fc86b6d7bf1cba75a2c648b68";
  "0x7b578382aad4f75eeb9b08562f4949ef338c3ea9";
  "0x04c6e95e6401e1be9ab6e1c6dfaaebfeb9c9aaa6";
  "0xffd403586721ed290a44789dfc6cdb3fb97d4fd8";
  "0x2031fe72f90f288402d6cf314465e9b9dc9ed5f9";
  "0xdf86438b45043cac8322ab640c3b469d6e0cf957";
  "0x2c4065c01719234225320ca06c4601bc804eba0c";
  "0x305744150872cd3d6e4b1dae5a63d021d1ea4446";
  "0xed6599dbb67c3a19718a6d28d8790a31519d399b";
  "0x4748dd0ce03b06ee02e6a5df4367e4c9e4c4b862";
  "0xd480edb456756967705d2e26dbf184445d7c0938";
  "0xea58f94a7cc15c7889790a1a18c239ea72a6e547";
  "0xa610e35baaa56950fd0de26dd3d4b1b101a350af";
  "0x31514d9fc3dc02b53bdd093346fd2c4e7b36997c";
  "0x636ab4ec55961f8ca0ed418fa1481f3ddf0907040xabaa1040a2d07fa7a9996b71a9c8ba7362191cbc"
].

Definition WALLETS_USDT_ERC20 : list string := [
  "0x330901Bc8CCf6476CB6a007306a5d2956c62332F";
  "0x4ec0c6d5b98f9fc47a2a99f57e7e4e8e92682c2f";
  "0x04f3a91776e43bb59c71bb2afaf0a0d858d7ffa0";
  "0xe5e310431c70a968b72b2824a71ec17224f7cd36";
  "0xd581d94e502ef97fc86b6d7bf1cba75a2c648b68";
  "0x7b578382aad4f75eeb9b08562f4949ef338c3ea9";
  "0x04c6e95e6401e1be9ab6e1c6dfaaebfeb9c9aaa6";
  "0xffd403586721ed290a44789dfc6cdb3fb97d4fd8";
  "0x2031fe72f90f288402d6cf314465e9b9dc9ed5f9";
  "0xdf86438b45043cac8322ab640c3b469d6e0cf957";
  "0x2c4065c01719234225320ca06c4601bc804eba0c";
  "0x305744150872cd3d6e4b1dae5a63d021d1ea4446";
  "0xed6599dbb67c3a19718a6d28d8790a31519d399b";
  "0x4748dd0ce03b06ee02e6a5df4367e4c9e4c4b862";
  "0xd480edb456756967705d2e26dbf184445d7c0938";
  "0xea58f94a7cc15c7889790a1a18c239ea72a6e547";
  "0xa610e35baaa56950fd0de26dd3d4b1b101a350af";
  "0x31514d9fc3dc02b53bdd093346fd2c4e7b36997c";
  "0x636ab4ec55961f8ca0ed418fa1481f3ddf0907040xabaa1040a2d07fa7a9996b71a9c8ba7362191cbc"
].

Definition WALLETS_Solana : list string := [
  "2nGvFch9BGccSe3Xi8Pj7YuMti17dtWBaaeEJJrHoyhh";
  "8gB7aMRedkJ3qzT6vpdw4nUHCzP2dgMUrTf3dP7amrLR";
  "CuJNKvLXEKTeVXd9JxdWAovRRneVYuyFtdgXTvMps1nx";
  "8QpPjcp6AYuxx7t5B8Zc1vnCnux52r25KUkWsQzSunUA";
  "gb3BDYKUUekLjhJeVD9ymEjM1ioaDZtoofqpnQg9QQL";
  "Ex6TiDeoZ259uF9eL25gM1RaWWGpH1Y1r4pboacbbtve";
  "AZ2H2DJyFA6j9XkzGkxjxAWVieEhAuzf6pL4yhtJScbD";
  "G3Jz8CbE9faNFntV3axDcp8ysZzaGnabaJ8TwdDCJj2q";
  "E7p8BKAYHEae3gT1WDgJGEFowvMw2ct1TRQCJRNuNoS7";
  "4bYjmHk4d31MwuBP46WbnkKQ5A8v2qcs6mmLN3c6iaqM";
  "Gf7PaeEKzWKNBRavhT3Naq3g4vjt1xFRrpUYRrGo2ExR";
  "5Z8sZL7nAwzRGV6WVn4u92uWCmvowaEEtKpoQ6hpn7yE";
  "EJBWbYWmrpF82r5ecx2TAD1HYhdPBLXWDARhQEp67htk";
  "J6vE7JWrrwz5ohaaXKj7ip4LCje6bqXFLLk1oYsxEzVm";
  "BVyF6raJJ9ZqcSKZSTGcRxkYyxhZSALjas1DqX9tGktN";
  "915CCxqqGuByF9bm28WDCH3SnSHKAPgZAQ1743sxFWHi";
  "FCPVJPTkGp7r4MCtGS42ZjUSEHsUrcmwujBneAiVXAv9";
  "J5y2QkNGPi7r4YAxEwLR1CQzpak9DNAMhKzywQE2mbc1";
  "E415hckrRyzkHxCYBNbddLCT2hBhPYogEjnhZdhQ8ky";
  "4JVxpWHGQ3BZ9Qib2zrKGbdip5QEhYrMGZzR8U3tZq3x"
].

Definition WALLETS_Ethereum : list string := [
  "0x330901bc8ccf6476cb6a007306a5d2956c62332f";
  "0x4ec0c6d5b98f9fc47a2a99f57e7e4e8e92682c2f";
  "0x04f3a91776e43bb59c71bb2afaf0a0d858d7ffa0";
  "0xe5e310431c70a968b72b2824a71ec17224f7cd36";
  "0xd581d94e502ef97fc86b6d7bf1cba75a2c648b68";
  "0x7b578382aad4f75eeb9b08562f4949ef338c3ea9";
  "0x04c6e95e6401e1be9ab6e1c6dfaaebfeb9c9aaa6";
  "0xffd403586721ed290a44789dfc6cdb3fb97d4fd8";
  "0x2031fe72f90f288402d6cf314465e9b9dc9ed5f9";
  "0xdf86438b45043cac8322ab640c3b469d6e0cf957";
  "0x2c4065c01719234225320ca06c4601bc804eba0c";
  "0x305744150872cd3d6e4b1dae5a63d021d1ea4446";
  "0xed6599dbb67c3a19718a6d28d8790a31519d399b";
  "0x4748dd0ce03b06ee02e6a5df4367e4c9e4c4b862";
  "0xd480edb456756967705d2e26dbf184445d7c0938";
  "0xea58f94a7cc15c7889790a1a18c239ea72a6e547";
  "0xa610e35baaa56950fd0de26dd3d4b1b101a350af";
  "0x31514d9fc3dc02b53bdd093346fd2c4e7b36997c";
  "0x636ab4ec55961f8ca0ed418fa1481f3ddf090704";
  "0xabaa1040a2d07fa7a9996b71a9c8ba7362191cbc"
].

Definition WALLETS_BNB_SmartChain : list string := [
  "0x330901bc8ccf6476cb6a007306a5d2956c62332f";
  "0x4ec0c6d5b98f9fc47a2a99f57e7e4e8e92682c2f";
  "0x04f3a91776e43bb59c71bb2afaf0a0d858d7ffa0";
  "0xe5e310431c70a968b72b2824a71ec17224f7cd36";
  "0xd581d94e502ef97fc86b6d7bf1cba75a2c648b68";
  "0x7b578382aad4f75eeb9b08562f4949ef338c3ea9";
  "0x04c6e95e6401e1be9ab6e1c6dfaaebfeb9c9aaa6";
  "0xffd403586721ed290a44789dfc6cdb3fb97d4fd8";
  "0x2031fe72f90f288402d6cf314465e9b9dc9ed5f9";
  "0xdf86438b45043cac8322ab640c3b469d6e0cf957";
  "0x2c4065c01719234225320ca06c4601bc804eba0c";
  "0x305744150872cd3d6e4b1dae5a63d021d1ea4446";
  "0xed6599dbb67c3a19718a6d28d8790a31519d399b";
  "0x4748dd0ce03b06ee02e6a5df4367e4c9e4c4b862";
  "0xd480edb456756967705d2e26dbf184445d7c0938";
  "0xea58f94a7cc15c7889790a1a18c239ea72a6e547";
  "0xa610e35baaa56950fd0de26dd3d4b1b101a350af";
  "0x31514d9fc3dc02b53bdd093346fd2c4e7b36997c";
  "0x636ab4ec55961f8ca0ed418fa1481f3ddf090704";
  "0xabaa1040a2d07fa7a9996b71a9c8ba7362191cbc"
].

(** [WALLETS.get(network, WALLETS['USDT BEP20'])] *)
Definition WALLETS_get (network : string) : list string :=
  if String.eqb network "USDT BEP20" then WALLETS_USDT_BEP20
  else if String.eqb network "USDT ERC20" then WALLETS_USDT_ERC20
  else if String.eqb network "Solana" then WALLETS_Solana
  else if String.eqb network "Ethereum" then WALLETS_Ethereum
  else if String.eqb network "BNB SmartChain" then WALLETS_BNB_SmartChain
  else WALLETS_USDT_BEP20.

(** ** utils.py: [get_available_wallet]

    The store is the dictionary cached under ['wallet_assignments'] (empty
    when the key is absent); [current_time] is
    [timezone.now().timestamp()], in seconds; [choice] is the draw of
    [random.choice]. *)

Module Assignment.
Record t := {
  user_id : option positive;
  network : string;
  timestamp : Q;
}.
End Assignment.

Definition still_assigned (current_time : Q) (a : Assignment.t) : bool :=
  Qltb (current_time - Assignment.timestamp a)%Q 300%Q.

Definition clean_assignments (current_time : Q) (assignments : gmap string Assignment.t)
    : gmap string Assignment.t :=
  filter (fun kv => still_assigned current_time kv.2 = true) assignments.

Definition held_by (user_id : option positive) (a : Assignment.t) : bool :=
  match user_id with
  | Some u =>
      match Assignment.user_id a with
      | Some v => Pos.eqb v u
      | None => false
      end
  | None => false
  end.

Definition is_available (cleaned : gmap string Assignment.t) (user_id : option positive)
    (wallet : string) : bool :=
  match cleaned !! wallet with
  | None => true
  | Some a => held_by user_id a
  end.

(** [min(d.keys(), key=...)]: the first key of least timestamp. *)
Definition oldest (items : list (string * Assignment.t)) : option (string * Assignment.t) :=
  match items with
  | [] => None
  | x :: items' =>
      Some (foldl (fun best y =>
                     if Qltb (Assignment.timestamp y.2) (Assignment.timestamp best.2)
                     then y else best) x items')
  end.

(** [random.choice(seq)] with draw [choice]. *)
Definition random_choice {A} (choice : nat) (seq : list A) : option A :=
  seq !! (choice mod length seq)%nat.

Definition assign_wallet (network : string) (user_id : option positive)
    (current_time : Q) (choice : nat) (cleaned : gmap string Assignment.t)
    (available_wallets : list string) : M (gmap string Assignment.t) (option string * option Q) :=
  match random_choice choice available_wallets with
  | None => raise IndexError
  | Some selected_wallet =>
      modify (fun _ : gmap string Assignment.t =>
                <[selected_wallet :=
                    {| Assignment.user_id := user_id;
                       Assignment.network := network;
                       Assignment.timestamp := current_time |}]> cleaned);;
      mret (Some selected_wallet, None)
  end.

Definition get_available_wallet (network : string) (user_id : option positive)
    (current_time : Q) (choice : nat)
    : M (gmap string Assignment.t) (option string * option Q) :=
  let all_wallets := WALLETS_get network in
  assignments ← gets (fun cache : gmap string Assignment.t => cache);
  let cleaned_assignments := clean_assignments current_time assignments in
  modify (fun _ : gmap string Assignment.t => cleaned_assignments);;
  let available_wallets :=
    List.filter (is_available cleaned_assignments user_id) all_wallets in
  match available_wallets with
  | [] =>
      match oldest (map_to_list cleaned_assignments) with
      | None => raise ValueError
      | Some (oldest_wallet, a) =>
          let oldest_time := Assignment.timestamp a in
          let time_remaining := (300 - (current_time - oldest_time))%Q in
          if Qgtb time_remaining 0 then mret (None, Some time_remaining)
          else assign_wallet network user_id current_time choice
                 cleaned_assignments available_wallets
      end
  | _ :: _ =>
      assign_wallet network user_id current_time choice
        cleaned_assignments available_wallets
  end.

(** ** models.py: the aliases of [Rank] and [Profile] *)

(** [Rank.daily_profit_percentage] and [Rank.max_copy_trades] *)
Definition Rank_daily_profit_percentage (r : Rank.t) : Decimal := Rank.daily_profit_pct r.
Definition Rank_max_copy_trades (r : Rank.t) : Z := Rank.copy_trades_limit r.
(** [Profile.total_balance] *)
Definition Profile_total_balance (p : Profile.t) : Decimal := Profile.principal_balance p.

(** ** utils.py: [get_client_ip]

    [request.META] is a dictionary of strings; a header of a WSGI request
    is a string of characters of one byte each. *)

(** [str.isspace] on a character of one byte. *)
Definition isspace (c : Ascii.ascii) : bool :=
  let n := Ascii.nat_of_ascii c in
  ((9 <=? n)%nat && (n <=? 13)%nat) || ((28 <=? n)%nat && (n <=? 32)%nat) ||
  (n =? 133)%nat || (n =? 160)%nat.

Fixpoint lstrip (s : string) : string :=
  match s with
  | EmptyString => EmptyString
  | String c s' => if isspace c then lstrip s' else s
  end.

Fixpoint rstrip (s : string) : string :=
  match s with
  | EmptyString => EmptyString
  | String c s' =>
      match rstrip s' with
      | EmptyString => if isspace c then EmptyString else String c EmptyString
      | t => String c t
      end
  end.

(** [s.strip()] *)
Definition strip (s : string) : string := rstrip (lstrip s).

(** [s.split(sep)[0]] *)
Fixpoint split_first (sep : Ascii.ascii) (s : string) : string :=
  match s with
  | EmptyString => EmptyString
  | String c s' => if Ascii.eqb c sep then EmptyString else String c (split_first sep s')
  end.

(** The character [','] *)
Definition comma : Ascii.ascii := Ascii.ascii_of_nat 44.

Definition get_client_ip (META : gmap string string) : string :=
  match META !! "HTTP_X_FORWARDED_FOR" with
  | Some (String c xff') => strip (split_first comma (String c xff'))
  | _ => default "" (META !! "REMOTE_ADDR")
  end.

(** ** utils.py: [get_random_wallet] and [generate_referral_code] *)

Definition get_random_wallet (network : string) (choice : nat) : exn + string :=
  let lst := WALLETS_get network in
  match random_choice choice lst with
  | Some wallet => inr wallet
  | None => inl IndexError
  end.

Definition PAIRS : list string :=
  ["BTC/USDT"; "ETH/USDT"; "SOL/USDT"; "BNB/USDT"; "XRP/USDT"; "DOGE/USDT";
   "ADA/USDT"; "AVAX/USDT"].

(** The eight draws of [random.choice(chars)] are [draw 0], ..., [draw 7]. *)
Definition generate_referral_code (draw : nat -> nat) : exn + string :=
  let chars := "ABCDEFGHJKLMNPQRSTUVWXYZ23456789" in
  match mapM (fun i => random_choice (draw i) (String.list_ascii_of_string chars)) (seq 0 8) with
  | Some picked => inr (String.string_of_list_ascii picked)
  | None => inl IndexError
  end.

(** ** views.py: [calculate_daily_profit] *)

Definition calculate_daily_profit (uid : positive) : M DB (option Decimal) :=
  profile ← gets (fun db => Profile_objects db !! uid);
  match profile with
  | None => mret None
  | Some profile =>
      if Qleb (Profile.locked_balance profile) 0 then mret None
      else
        rank ← gets (fun db => get_rank (Rank_objects db) profile);
        match rank with
        | None => mret None
        | Some rank =>
            let daily_profit_amount :=
              (Profile.locked_balance profile
               * (Rank_daily_profit_percentage rank / 100))%Q in
            if Qleb daily_profit_amount 0 then mret None
            else
              let profile :=
                Profile.set_withdrawable_balance
                  (Profile.withdrawable_balance profile + daily_profit_amount)%Q
                  profile in
              Profile_save_withdrawable_balance uid (Profile_stored profile);;
              mret (Some daily_profit_amount)
        end
  end.

(** ** views.py: [get_concurrent_copy_trades] and [copy_trade_simulate_view] *)

Definition timedelta_hours (n : Z) : Z := n * 3600 * 1000000.

Definition in_last_24_hours (uid : positive) (now : Z) (t : CopyTrade.t) : bool :=
  Pos.eqb (CopyTrade.user t) uid &&
  (now - timedelta_hours 24 <=? CopyTrade.created_at t).

Definition get_concurrent_copy_trades (uid : positive) (now : Z) (db : DB) : Z :=
  Z.of_nat (length (List.filter (in_last_24_hours uid now) (CopyTrade_objects db))).

(** [CopyTrade.objects.create(...)]: the object returned keeps the values
    given, the row created holds the amount and the profit quantised. *)
Definition CopyTrade_create (uid : positive) (pair action : string)
    (amount profit : Decimal) (status : CopyTrade.status_t) (now : Z)
    : M DB CopyTrade.t := fun db =>
  let t (amount profit : Decimal) :=
    {| CopyTrade.id := next_id CopyTrade.id (CopyTrade_objects db);
       CopyTrade.user := uid; CopyTrade.pair := pair; CopyTrade.action := action;
       CopyTrade.amount := amount; CopyTrade.profit := profit;
       CopyTrade.status := status; CopyTrade.created_at := now |} in
  Ok (t amount profit)
     (upd_CopyTrade_objects
        (fun rows => rows ++ [t (quantize amount) (quantize profit)]) db).

(** The view returns the messages it queues, in their order. The draws
    are, in the order of the calls: [pair_choice] and [action_choice] of
    [random.choice], then [r_lot], [r1] and [r2] of [random.random()]. *)
Definition copy_trade_simulate_view (uid : positive) (now : Z)
    (pair_choice action_choice : nat) (r_lot r1 r2 : Q) : M DB (list flash) :=
  profile ← get_profile_or_404 uid;
  rank ← gets (fun db => get_rank (Rank_objects db) profile);
  match rank with
  | None => mret [Flash warning "No rank assigned. Cannot execute copy trades." None]
  | Some rank =>
      trades_last_24h ← gets (get_concurrent_copy_trades uid now);
      let max_trades_allowed := Rank_max_copy_trades rank in
      if max_trades_allowed <=? trades_last_24h then
        mret [Flash warning
                "Copy trade limit reached for the last 24 hours ({max_trades_allowed}/{max_trades_allowed}). Try again tomorrow."
                None]
      else
        let used :=
          Flash info
            "Copy trades used: {trades_last_24h}/{max_trades_allowed} in last 24 hours"
            None in
        if Qleb (Profile.principal_balance profile) 0 then
          mret [used; Flash warning "Insufficient balance to execute copy trades." None]
        else
          match random_choice pair_choice PAIRS,
                random_choice action_choice ["buy"; "sell"] with
          | Some pair_, Some action =>
              let lot_amount := (0.01 + 0.09 * r_lot)%Q in
              let amount := lot_amount in
              let trade_profit :=
                target_profit
                  (profit_per_trade (Some rank) (Profile.locked_balance profile))
                  r1 r2 in
              CopyTrade_create uid pair_ action amount 0%Q CopyTrade.pending now;;
              mret [used;
                    Flash success
                      "Copy trade submitted: {pair} {action} — ${amount:.2f}. Processing..."
                      (Some amount)]
          | _, _ => raise IndexError
          end
  end.

(** ** views.py: [admin_deposit_reject_view] *)

(** [d.save(update_fields=['status', 'approved_at'])] *)
Definition Deposit_save_rejection (d : Deposit.t) : M DB unit :=
  modify (upd_Deposit_objects
            (update_row Deposit.id (Deposit.id d)
               (fun row => Deposit.set_approved_at (Deposit.approved_at d)
                             (Deposit.set_status (Deposit.status d) row)))).

(** [d.save(update_fields=['status'])] *)
Definition LocalDeposit_save_status (d : LocalDeposit.t) : M DB unit :=
  modify (upd_LocalDeposit_objects
            (update_row LocalDeposit.id (LocalDeposit.id d)
               (LocalDeposit.set_status (LocalDeposit.status d)))).

Definition admin_deposit_reject_view (pk : positive) (now : Z) : M DB flash :=
  d ← find_deposit pk;
  match d with
  | crypto d =>
      if negb (Deposit.status_eqb (Deposit.status d) Deposit.pending) then
        mret (Flash warning "Crypto deposit is not pending." None)
      else
        let d := Deposit.set_status Deposit.rejected d in
        let d := Deposit.set_approved_at (Some now) d in
        Deposit_save_rejection d;;
        mret (Flash success "Crypto deposit {d.amount} rejected." (Some (Deposit.amount d)))
  | paystack d =>
      if negb (LocalDeposit.status_eqb (LocalDeposit.status d) LocalDeposit.pending) then
        mret (Flash warning "Paystack deposit is not pending." None)
      else
        let d := LocalDeposit.set_status LocalDeposit.failed d in
        LocalDeposit_save_status d;;
        mret (Flash success "Paystack deposit {d.amount_usdt} rejected."
                (Some (LocalDeposit.amount_usdt d)))
  end.

(** ** views.py: [admin_promo_toggle_view] *)

Definition PromoCode_set_status (v : PromoCode.status_t) (c : PromoCode.t) : PromoCode.t :=
  {| PromoCode.id := PromoCode.id c; PromoCode.code := PromoCode.code c;
     PromoCode.bonus_min := PromoCode.bonus_min c;
     PromoCode.bonus_max := PromoCode.bonus_max c;
     PromoCode.expiration := PromoCode.expiration c;
     PromoCode.usage_limit := PromoCode.usage_limit c;
     PromoCode.usage_count := PromoCode.usage_count c; PromoCode.status := v |}.

(** [p.save(update_fields=['status'])] *)
Definition PromoCode_save_status (c : PromoCode.t) : M DB unit :=
  modify (upd_PromoCode_objects
            (update_row PromoCode.id (PromoCode.id c)
               (PromoCode_set_status (PromoCode.status c)))).

(** The message quotes the new status. *)
Definition admin_promo_toggle_view (pk : positive) : M DB (flash * PromoCode.status_t) :=
  p ← gets (fun db => get_row PromoCode.id pk (PromoCode_objects db));
  match p with
  | None => raise Http404
  | Some p =>
      let p :=
        PromoCode_set_status
          (if PromoCode.status_eqb (PromoCode.status p) PromoCode.active
           then PromoCode.disabled else PromoCode.active) p in
      PromoCode_save_status p;;
      mret (Flash success "Promo {p.status}." None, PromoCode.status p)
  end.

(** ** admin.py: the action [approve_deposits]

    [queryset] is the selection the action is given; the loop walks the
    rows it yields when the loop starts. The messages queued are
    returned. *)

(** [with transaction.atomic():] an exception undoes the writes of the
    block. *)
Definition atomic {S A} (m : M S A) : M S A := fun s =>
  match m s with
  | Ok a s' => Ok a s'
  | Raise e _ => Raise e s
  end.

(** The body of the [for deposit in queryset.select_for_update()] loop. *)
Definition approve_deposit (now : Z) (deposit : Deposit.t) : M DB (list flash) :=
  if negb (Deposit.status_eqb (Deposit.status deposit) Deposit.pending) then mret []
  else
    profile ← related_profile (Deposit.user deposit);
    let profile :=
      Profile.set_locked_balance
        (Profile.locked_balance profile + Deposit.amount deposit)%Q profile in
    Profile_save_locked_balance (Deposit.user deposit) profile;;
    let deposit := Deposit.set_status Deposit.approved deposit in
    let deposit := Deposit.set_approved_at (Some now) deposit in
    let deposit :=
      Deposit.set_expires_at
        (match Deposit.expires_at deposit with
         | Some e => Some e
         | None => Some (add_days now LOCK_DAYS)
         end) deposit in
    Deposit_save_approval deposit;;
    referral_bonus deposit;;
    update_rank (Deposit.user deposit) profile;;
    Notification_create (Deposit.user deposit)
      "✅ Deposit {deposit.id} of ${deposit.amount:.2f} approved and credited to your balance.";;
    mret [Flash success "Deposit {deposit.id} approved safely." None].

Fixpoint approve_loop (now : Z) (rows : list Deposit.t) : M DB (list flash) :=
  match rows with
  | [] => mret []
  | deposit :: rows' =>
      queued ← approve_deposit now deposit;
      queued' ← approve_loop now rows';
      mret (queued ++ queued')
  end.

Definition approve_deposits (queryset : DB -> list Deposit.t) (now : Z)
    : M DB (list flash) :=
  atomic (rows ← gets queryset; approve_loop now rows).

(** ** views.py: [admin_withdrawal_approve_view], [admin_withdrawal_reject_view]

    The column [processed_at] of [Withdrawal] is kept beside the tables of
    the ledger, by the id of the row; a row without an entry has NULL. *)

Record Site := {
  ledger : DB;
  Withdrawal_processed_at : gmap positive Z;
}.

(** A statement on the tables of the ledger. *)
Definition in_ledger {A} (m : M DB A) : M Site A := fun s =>
  match m (ledger s) with
  | Ok a db =>
      Ok a {| ledger := db; Withdrawal_processed_at := Withdrawal_processed_at s |}
  | Raise e db =>
      Raise e {| ledger := db; Withdrawal_processed_at := Withdrawal_processed_at s |}
  end.

Definition Withdrawal_set_status (v : string) (w : Withdrawal.t) : Withdrawal.t :=
  {| Withdrawal.id := Withdrawal.id w; Withdrawal.user := Withdrawal.user w;
     Withdrawal.amount := Withdrawal.amount w; Withdrawal.network := Withdrawal.network w;
     Withdrawal.wallet_address := Withdrawal.wallet_address w;
     Withdrawal.status := v |}.

(** [get_object_or_404(Withdrawal, pk=pk)] *)
Definition get_withdrawal_or_404 (pk : positive) : M DB Withdrawal.t := fun db =>
  match get_row Withdrawal.id pk (Withdrawal_objects db) with
  | Some w => Ok w db
  | None => Raise Http404 db
  end.

(** [w.status in ['pending', 'pending_admin_approval']] *)
Definition status_in_pending (status : string) : bool :=
  String.eqb status "pending" || String.eqb status "pending_admin_approval".

(** [w.save(update_fields=['status', 'processed_at'])] *)
Definition Withdrawal_save_processed (w : Withdrawal.t) (processed_at : Z)
    : M Site unit := fun s =>
  Ok ()
     {| ledger :=
          upd_Withdrawal_objects
            (update_row Withdrawal.id (Withdrawal.id w)
               (Withdrawal_set_status (Withdrawal.status w))) (ledger s);
        Withdrawal_processed_at :=
          <[Withdrawal.id w := processed_at]> (Withdrawal_processed_at s) |}.

Definition admin_withdrawal_approve_view (pk : positive) (now : Z) : M Site flash :=
  w ← in_ledger (get_withdrawal_or_404 pk);
  if negb (status_in_pending (Withdrawal.status w)) then
    mret (Flash warning "Withdrawal is not pending." None)
  else
    let w := Withdrawal_set_status "approved" w in
    Withdrawal_save_processed w now;;
    mret (Flash success "Withdrawal {w.amount} approved." (Some (Withdrawal.amount w))).

Definition admin_withdrawal_reject_view (pk : positive) (now : Z) : M Site flash :=
  w ← in_ledger (get_withdrawal_or_404 pk);
  if negb (status_in_pending (Withdrawal.status w)) then
    mret (Flash warning "Withdrawal is not pending." None)
  else
    profile ← in_ledger (get_profile_or_404 (Withdrawal.user w));
    let profile :=
      Profile.set_withdrawable_balance
        (Profile.withdrawable_balance profile + Withdrawal.amount w)%Q profile in
    in_ledger (Profile_save_withdrawable_balance (Withdrawal.user w) profile);;
    let w := Withdrawal_set_status "rejected" w in
    Withdrawal_save_processed w now;;
    mret (Flash success "Withdrawal {w.amount} rejected and refunded."
            (Some (Withdrawal.amount w))).

(** ** models.py: [CustomUser]; views.py: the flags of an account *)

Module CustomUser.
Record t := {
  id : positive;
  is_staff : bool;
  role : string;
  is_banned : bool;
  is_flagged : bool;
  last_login_ip : option string;
  phone : string;
}.

Definition set_is_banned (v : bool) (u : t) : t :=
  {| id := id u; is_staff := is_staff u; role := role u; is_banned := v;
     is_flagged := is_flagged u; last_login_ip := last_login_ip u; phone := phone u |}.
Definition set_is_flagged (v : bool) (u : t) : t :=
  {| id := id u; is_staff := is_staff u; role := role u; is_banned := is_banned u;
     is_flagged := v; last_login_ip := last_login_ip u; phone := phone u |}.
Definition set_last_login_ip (v : option string) (u : t) : t :=
  {| id := id u; is_staff := is_staff u; role := role u; is_banned := is_banned u;
     is_flagged := is_flagged u; last_login_ip := v; phone := phone u |}.
End CustomUser.

(** [User.objects] *)
Definition Users : Type := list CustomUser.t.

(** The truth value of a string: [if ip:] *)
Definition truthy (s : string) : bool := negb (String.eqb s "").

Section Accounts.

(** What the column [last_login_ip], a [GenericIPAddressField], holds for
    an address, on a write as in a comparison (an empty address is NULL). *)
Variable get_db_prep_value : string -> option string.

(** [Q(last_login_ip=ip)]: NULL equals nothing. *)
Definition Q_last_login_ip (ip : string) (u : CustomUser.t) : bool :=
  match CustomUser.last_login_ip u, get_db_prep_value ip with
  | Some a, Some b => String.eqb a b
  | _, _ => false
  end.

(** [Q(phone=phone)] *)
Definition Q_phone (phone : string) (u : CustomUser.t) : bool :=
  String.eqb (CustomUser.phone u) phone.

(** The filter [q] that both functions build; [None] is the empty [Q()]. *)
Definition build_q (ip phone : string) : option (CustomUser.t -> bool) :=
  let q := None in
  let q :=
    if truthy ip then Some (Q_last_login_ip ip) else q in
  let q :=
    if truthy phone then
      match q with
      | Some q' => Some (fun u => q' u || Q_phone phone u)
      | None => Some (Q_phone phone)
      end
    else q in
  q.

(** [.exclude(role='admin')] *)
Definition exclude_admin (u : CustomUser.t) : bool :=
  negb (String.eqb (CustomUser.role u) "admin").

Definition _check_multi_account (ip phone : string) (exclude_user_id : option positive)
    : M Users (bool * nat) :=
  match build_q ip phone with
  | None => mret (false, 0%nat)
  | Some q =>
      qs ← gets (fun users => List.filter exclude_admin (List.filter q users));
      let qs :=
        match exclude_user_id with
        | Some pk => List.filter (fun u => negb (Pos.eqb (CustomUser.id u) pk)) qs
        | None => qs
        end in
      let n := length qs in
      mret (Nat.leb 2 n, n)
  end.

Definition _flag_multi_accounts (ip phone : string) : M Users nat :=
  match build_q ip phone with
  | None => mret 0%nat
  | Some q =>
      n ← gets (fun users => length (List.filter exclude_admin (List.filter q users)));
      modify (map (fun u => if q u && exclude_admin u
                            then CustomUser.set_is_flagged true u else u));;
      mret n
  end.

(** [login_view], a posted and valid form: [user] is [form.get_user()];
    the result tells whether [login(request, user)] was called. *)
Definition login_view (META : gmap string string) (user : CustomUser.t)
    : M Users (flash * bool) :=
  if CustomUser.is_banned user then mret (Flash error "Account banned." None, false)
  else
    let ip := get_client_ip META in
    modify (update_row CustomUser.id (CustomUser.id user)
              (CustomUser.set_last_login_ip (get_db_prep_value ip)));;
    '(multi, _) ← _check_multi_account ip (CustomUser.phone user)
                     (Some (CustomUser.id user));
    (if (multi : bool) then _flag_multi_accounts ip (CustomUser.phone user);; mret ()
     else mret ());;
    mret (Flash success "Logged in." None, true).

End Accounts.

(** [get_object_or_404(User, pk=pk)] *)
Definition get_user_or_404 (pk : positive) : M Users CustomUser.t := fun users =>
  match get_row CustomUser.id pk users with
  | Some u => Ok u users
  | None => Raise Http404 users
  end.

Definition admin_user_flag_view (pk : positive) : M Users flash :=
  u ← get_user_or_404 pk;
  if CustomUser.is_staff u then mret (Flash error "Cannot flag admin." None)
  else
    modify (update_row CustomUser.id (CustomUser.id u) (CustomUser.set_is_flagged true));;
    mret (Flash success "User flagged." None).

Definition admin_user_unflag_view (pk : positive) : M Users flash :=
  u ← get_user_or_404 pk;
  modify (update_row CustomUser.id (CustomUser.id u) (CustomUser.set_is_flagged false));;
  mret (Flash success "User unflagged." None).

Definition admin_user_ban_view (pk : positive) : M Users flash :=
  u ← get_user_or_404 pk;
  if CustomUser.is_staff u then mret (Flash error "Cannot ban admin." None)
  else
    modify (update_row CustomUser.id (CustomUser.id u)
              (fun row => CustomUser.set_is_flagged true (CustomUser.set_is_banned true row)));;
    mret (Flash success "User banned." None).

Definition admin_user_unban_view (pk : positive) : M Users flash :=
  u ← get_user_or_404 pk;
  modify (update_row CustomUser.id (CustomUser.id u) (CustomUser.set_is_banned false));;
  mret (Flash success "User unbanned." None).

(** ** Predicates of the statements *)

(** The closed band [[min_balance, max_balance]]. *)
Definition in_band (pb : Decimal) (r : Rank.t) : Prop :=
  (Rank.min_balance r <= pb)%Q /\
  match Rank.max_balance r with
  | None => True
  | Some m => (pb <= m)%Q
  end.

(** The half-open band [[min_balance, max_balance)]. *)
Definition in_band_half_open (pb : Decimal) (r : Rank.t) : Prop :=
  (Rank.min_balance r <= pb)%Q /\
  match Rank.max_balance r with
  | None => True
  | Some m => (pb < m)%Q
  end.

(** The scenario table: [[0,100) -> 5%, 2 trades] and
    [[100, oo) -> 10%, 5 trades]. *)
Definition band_low : Rank.t :=
  {| Rank.id := 1; Rank.name := "Bronze"; Rank.min_balance := 0%Q;
     Rank.max_balance := Some 100%Q; Rank.daily_profit_pct := 5%Q;
     Rank.copy_trades_limit := 2 |}.
Definition band_high : Rank.t :=
  {| Rank.id := 2; Rank.name := "Silver"; Rank.min_balance := 100%Q;
     Rank.max_balance := None; Rank.daily_profit_pct := 10%Q;
     Rank.copy_trades_limit := 5 |}.
Definition scenario_ranks : list Rank.t := [band_low; band_high].

Definition mk_profile (rank : option positive) (locked withdrawable : Decimal)
    : Profile.t :=
  {| Profile.rank := rank; Profile.locked_balance := locked;
     Profile.withdrawable_balance := withdrawable;
     Profile.total_referrals := 0; Profile.valid_referrals := 0;
     Profile.referral_earnings := 0%Q; Profile.last_withdrawal_at := None |}.

(** The foreign key [Profile.rank] refers to a row of [Rank]: the
    referential integrity the database keeps. *)
Definition fk_resolves (ranks : list Rank.t) (p : Profile.t) : Prop :=
  match Profile.rank p with
  | Some i => is_Some (get_row Rank.id i ranks)
  | None => True
  end.

Global Instance fk_resolves_dec ranks p : Decision (fk_resolves ranks p).
Proof. unfold fk_resolves. destruct (Profile.rank p); apply _. Defined.

Definition fk_ok (db : DB) : Prop :=
  map_Forall (fun _ p => fk_resolves (Rank_objects db) p) (Profile_objects db).

Global Instance fk_ok_dec db : Decision (fk_ok db).
Proof. unfold fk_ok. apply _. Defined.

(** *** The reaper *)

(** The deposits a pass visits, in the order it visits them. *)
Definition expired_deposits (now : Z) (db : DB) : list Deposit.t :=
  order_by by_approved_at (List.filter (expired_filter now) (Deposit_objects db)).

(** The profile after the debit of a deposit. *)
Definition debit (d : Deposit.t) (p : Profile.t) : Profile.t :=
  Profile.set_locked_balance (Profile.locked_balance p - Deposit.amount d)%Q p.

(** The [Rank] row the foreign key of a profile refers to. *)
Definition loaded_rank (ranks : list Rank.t) (p : Profile.t) : option Rank.t :=
  Profile.rank p ≫= fun i => get_row Rank.id i ranks.

(** The notification of a debit: none when the rank stays. *)
Definition demotion (d : Deposit.t) (ranks : list Rank.t) (p : Profile.t)
    : list Notification.t :=
  if decide (Profile.rank p = Rank.id <$> get_rank ranks (debit d p)) then []
  else [ {| Notification.user := Deposit.user d;
            Notification.message :=
              demotion_message (loaded_rank ranks p) (get_rank ranks (debit d p)) |} ].

Definition same_ledger_tables (db db' : DB) : Prop :=
  Rank_objects db' = Rank_objects db /\
  LocalDeposit_objects db' = LocalDeposit_objects db /\
  Withdrawal_objects db' = Withdrawal_objects db /\
  CopyTrade_objects db' = CopyTrade_objects db /\
  Referral_objects db' = Referral_objects db /\
  DailyReward_objects db' = DailyReward_objects db /\
  PromoCode_objects db' = PromoCode_objects db /\
  PromoRedemption_objects db' = PromoRedemption_objects db.

(** The store after the debit of deposit [d] of an owner with profile [p]. *)
Definition debited_to (d : Deposit.t) (p : Profile.t) (db db' : DB) : Prop :=
  Profile_objects db' =
    <[Deposit.user d :=
        Profile.set_rank (Rank.id <$> get_rank (Rank_objects db) (debit d p)) (debit d p)]>
      (Profile_objects db) /\
  Deposit_objects db' =
    update_row Deposit.id (Deposit.id d) (Deposit.set_status Deposit.expired)
      (Deposit_objects db) /\
  Notification_objects db' = Notification_objects db ++ demotion d (Rank_objects db) p /\
  same_ledger_tables db db'.

(** The owner has a profile whose locked balance is below the amount. *)
Definition stuck (db : DB) (d : Deposit.t) : Prop :=
  exists p, Profile_objects db !! Deposit.user d = Some p /\
            (Profile.locked_balance p < Deposit.amount d)%Q.

Definition expired_by_id (db : DB) (i : positive) : Prop :=
  forall r, r ∈ Deposit_objects db -> Deposit.id r = i ->
            Deposit.status r = Deposit.expired.

(** What a pass of the reaper keeps between two of its stores. *)
Definition reaped (db db' : DB) : Prop :=
  Rank_objects db' = Rank_objects db /\
  (forall u, is_Some (Profile_objects db' !! u) <-> is_Some (Profile_objects db !! u)) /\
  (forall r', r' ∈ Deposit_objects db' ->
     exists r, r ∈ Deposit_objects db /\
               (r' = r \/ r' = Deposit.set_status Deposit.expired r)).

(** Locked balances do not grow. *)
Definition locked_le (db db' : DB) : Prop :=
  forall u p p', Profile_objects db !! u = Some p ->
                 Profile_objects db' !! u = Some p' ->
                 (Profile.locked_balance p' <= Profile.locked_balance p)%Q.

(** Locked balances that were not negative are not negative. *)
Definition locked_nonneg_kept (db db' : DB) : Prop :=
  forall u p p', Profile_objects db !! u = Some p ->
                 Profile_objects db' !! u = Some p' ->
                 (0 <= Profile.locked_balance p)%Q ->
                 (0 <= Profile.locked_balance p')%Q.

(** *** Decimal columns *)

(** [x] has at most two decimals: it is a number of cents. *)
Definition is_cents (x : Q) : Prop := exists z : Z, (x == inject_Z z / 100)%Q.

(** *** Deposit approval *)

Definition referral_credit (bonus : Decimal) (p : Profile.t) : Profile.t :=
  Profile.set_referral_earnings (Profile.referral_earnings p + bonus)%Q
    (Profile.set_valid_referrals (Profile.valid_referrals p + 1)
       (Profile.set_total_referrals (Profile.total_referrals p + 1)
          (Profile.set_locked_balance (Profile.locked_balance p + bonus)%Q p))).

Definition with_rank (ranks : list Rank.t) (p : Profile.t) : Profile.t :=
  Profile.set_rank (Rank.id <$> get_rank ranks p) p.

(** The row [row] with the rank that [update_rank] computes on the object
    [mem] in memory. *)
Definition ranked_as (ranks : list Rank.t) (mem row : Profile.t) : Profile.t :=
  Profile.set_rank (Rank.id <$> get_rank ranks mem) row.

Definition approval (now : Z) (d : Deposit.t) : Deposit.t :=
  Deposit.set_expires_at
    (match Deposit.expires_at d with
     | Some e => Some e
     | None => Some (add_days now LOCK_DAYS)
     end)
    (Deposit.set_approved_at (Some now) (Deposit.set_status Deposit.approved d)).

Definition referral_of (d : Deposit.t) (referrer_id : positive) : Referral.t :=
  {| Referral.referrer := referrer_id; Referral.referee := Deposit.user d;
     Referral.bonus_amount := quantize (Deposit.amount d * REFERRAL_PCT)%Q;
     Referral.deposit := Some (Deposit.id d) |}.

Definition credit (amount : Decimal) (p : Profile.t) : Profile.t :=
  Profile.set_locked_balance (Profile.locked_balance p + amount)%Q p.

(** The row of a referrer after the bonus: the columns quantised, the
    rank computed on the object in memory. *)
Definition referral_stored (ranks : list Rank.t) (bonus : Decimal) (p : Profile.t)
    : Profile.t :=
  ranked_as ranks (referral_credit bonus p) (Profile_stored (referral_credit bonus p)).

(** The row of a profile after a credit whose sum is stored quantised. *)
Definition credit_stored (amount : Decimal) (p : Profile.t) : Profile.t :=
  Profile.set_locked_balance (quantize (Profile.locked_balance p + amount)%Q) p.

(** The store after the approval row is written. *)
Definition approval_saved (now : Z) (d : Deposit.t) (db : DB) : DB :=
  upd_Deposit_objects
    (update_row Deposit.id (Deposit.id d)
       (fun row =>
          Deposit.set_expires_at (Deposit.expires_at (approval now d))
            (Deposit.set_approved_at (Some now)
               (Deposit.set_status Deposit.approved row)))) db.

(** *** Promo redemption *)

Definition promo_matches (code : string) (c : PromoCode.t) : bool :=
  String.eqb (PromoCode.code c) code &&
  PromoCode.status_eqb (PromoCode.status c) PromoCode.active.

Definition promo_deposit (uid : positive) (bonus : Decimal) (now : Z) (db : DB)
    : Deposit.t :=
  {| Deposit.id := next_id Deposit.id (Deposit_objects db);
     Deposit.user := uid; Deposit.amount := quantize bonus;
     Deposit.network := "PROMO"; Deposit.wallet_address := "PROMO_BONUS";
     Deposit.status := Deposit.approved;
     Deposit.expires_at := Some (now + timedelta_days 30);
     Deposit.approved_at := Some now; Deposit.referrer := None;
     Deposit.created_at := now |}.

Definition promo_bonus (promo : PromoCode.t) (r : Q) : Decimal :=
  (PromoCode.bonus_min promo
   + (PromoCode.bonus_max promo - PromoCode.bonus_min promo) * r)%Q.

Definition redemption_of (uid : positive) (promo : PromoCode.t) (bonus : Decimal)
    : PromoRedemption.t :=
  {| PromoRedemption.user := uid; PromoRedemption.promo_code := PromoCode.id promo;
     PromoRedemption.bonus_amount := quantize bonus |}.

Definition count_use (promo : PromoCode.t) : PromoCode.t -> PromoCode.t :=
  PromoCode.set_usage_count (PromoCode.usage_count promo + 1).

(** The store after a successful redemption. *)
Definition redeemed (uid : positive) (promo : PromoCode.t) (bonus : Decimal) (now : Z)
    (p : Profile.t) (db : DB) : DB :=
  upd_Profile_objects
    (insert uid (ranked_as (Rank_objects db) (credit bonus p) (credit_stored bonus p)))
    (upd_PromoCode_objects (update_row PromoCode.id (PromoCode.id promo) (count_use promo))
       (upd_PromoRedemption_objects (fun rows => rows ++ [redemption_of uid promo bonus])
          (upd_Deposit_objects (fun rows => rows ++ [promo_deposit uid bonus now db]) db))).

Definition invalid_code : flash := Flash error "Invalid or expired promo code." None.
Definition code_expired : flash := Flash error "Promo code expired." None.
Definition usage_exhausted : flash := Flash error "Usage limit reached." None.
Definition already_redeemed : flash := Flash error "Already redeemed." None.

(** *** Simulated trades *)

(** The trades the tick visits and those the completion pass visits. *)
Definition pending_trades (db : DB) : list CopyTrade.t :=
  order_by by_created_at_desc (List.filter is_pending (CopyTrade_objects db)).

Definition due_trades (now : Z) (db : DB) : list CopyTrade.t :=
  order_by by_created_at_desc (List.filter (completion_filter now) (CopyTrade_objects db)).

Definition age (now : Z) (t : CopyTrade.t) : Q :=
  total_seconds (now - CopyTrade.created_at t).

Definition credit_profit (t : CopyTrade.t) (p : Profile.t) : Profile.t :=
  Profile.set_withdrawable_balance
    (Profile.withdrawable_balance p + CopyTrade.profit t)%Q p.





(** The stored rank of the account is the rank [get_rank] computes. *)
Definition rank_consistent (db : DB) (u : positive) : Prop :=
  exists p, Profile_objects db !! u = Some p /\
            Profile.rank p = Rank.id <$> get_rank (Rank_objects db) p.

(** *** The wallet pool *)

Definition lease (network : string) (h : positive) (current_time : Q) : Assignment.t :=
  {| Assignment.user_id := Some h; Assignment.network := network;
     Assignment.timestamp := current_time |}.

(** No active lease, or an active lease of the holder. *)
Definition available (cleaned : gmap string Assignment.t) (h : positive)
    (wallet : string) : Prop :=
  cleaned !! wallet = None \/
  exists a, cleaned !! wallet = Some a /\ Assignment.user_id a = Some h.

(** The time a lease has left. *)
Definition remaining (current_time : Q) (a : Assignment.t) : Q :=
  (300 - (current_time - Assignment.timestamp a))%Q.

(** *** Example stores *)

Definition db_of (ranks : list Rank.t) (profiles : gmap positive Profile.t)
    (deposits : list Deposit.t) (trades : list CopyTrade.t)
    (promos : list PromoCode.t) : DB :=
  {| Rank_objects := ranks; Profile_objects := profiles;
     Deposit_objects := deposits; LocalDeposit_objects := [];
     Withdrawal_objects := []; CopyTrade_objects := trades;
     Referral_objects := []; DailyReward_objects := [];
     PromoCode_objects := promos; PromoRedemption_objects := [];
     Notification_objects := [] |}.

Definition mk_deposit (id user : positive) (amount : Decimal)
    (status : Deposit.status_t) (expires_at approved_at : option Z)
    (referrer : option positive) : Deposit.t :=
  {| Deposit.id := id; Deposit.user := user; Deposit.amount := amount;
     Deposit.network := "Solana"; Deposit.wallet_address := "";
     Deposit.status := status; Deposit.expires_at := expires_at;
     Deposit.approved_at := approved_at; Deposit.referrer := referrer;
     Deposit.created_at := 0 |}.

(** An account of the higher band with a locked balance of 150 and an
    approved deposit of 100 that expired at time 10. *)
Definition deposit_100 : Deposit.t :=
  mk_deposit 1 1 100%Q Deposit.approved (Some 10) (Some 0) None.
Definition db_locked_150 : DB :=
  db_of scenario_ranks {[ 1%positive := mk_profile (Some 2%positive) 150%Q 0%Q ]}
    [deposit_100] [] [].

(** The same deposit on an account whose locked balance is only 50. *)
Definition db_locked_50 : DB :=
  db_of scenario_ranks {[ 1%positive := mk_profile (Some 1%positive) 50%Q 0%Q ]}
    [deposit_100] [] [].

(** An account with a locked balance of 50 and two approved deposits due
    at time 10: one of 100, approved first, and one of -60 (the deposit
    of a promo whose bonus range is negative). *)
Definition deposit_minus_60 : Deposit.t :=
  mk_deposit 2 1 (-60)%Q Deposit.approved (Some 10) (Some 5) None.
Definition db_negative : DB :=
  db_of scenario_ranks {[ 1%positive := mk_profile (Some 1%positive) 50%Q 0%Q ]}
    [deposit_100; deposit_minus_60] [] [].

(** A pending deposit of 50 by user 1, referred by user 2. *)
Definition deposit_referred : Deposit.t :=
  mk_deposit 1 1 50%Q Deposit.pending None None (Some 2%positive).
Definition db_referred : DB :=
  db_of scenario_ranks
    (<[ 1%positive := mk_profile None 0%Q 0%Q ]>
       {[ 2%positive := mk_profile None 0%Q 0%Q ]})
    [deposit_referred] [] [].

(** The same with a deposit of 10.01, whose bonus of 8% has four
    decimals. *)
Definition deposit_1001 : Deposit.t :=
  mk_deposit 1 1 10.01%Q Deposit.pending None None (Some 2%positive).
Definition db_referred_1001 : DB :=
  db_of scenario_ranks
    (<[ 1%positive := mk_profile None 0%Q 0%Q ]>
       {[ 2%positive := mk_profile None 0%Q 0%Q ]})
    [deposit_1001] [] [].

(** An active promo of bonus range [[5, 10]], not yet used, and an
    account to redeem it. *)
Definition promo_welcome : PromoCode.t :=
  {| PromoCode.id := 1; PromoCode.code := "WELCOME";
     PromoCode.bonus_min := 5%Q; PromoCode.bonus_max := 10%Q;
     PromoCode.expiration := None; PromoCode.usage_limit := Some 10;
     PromoCode.usage_count := 0; PromoCode.status := PromoCode.active |}.
Definition db_promo : DB :=
  db_of scenario_ranks {[ 1%positive := mk_profile None 0%Q 0%Q ]} [] [] [promo_welcome].

(** An active promo whose bounds are in the wrong order. *)
Definition promo_reversed : PromoCode.t :=
  {| PromoCode.id := 1; PromoCode.code := "REVERSED";
     PromoCode.bonus_min := 10%Q; PromoCode.bonus_max := 5%Q;
     PromoCode.expiration := None; PromoCode.usage_limit := Some 10;
     PromoCode.usage_count := 0; PromoCode.status := PromoCode.active |}.
Definition db_promo_reversed : DB :=
  db_of scenario_ranks {[ 1%positive := mk_profile None 0%Q 0%Q ]} [] [] [promo_reversed].

(** An account of the lower band (locked balance 99, rank stored
    accordingly) with a pending trade, created at time 0, whose profit
    stands at 5. *)
Definition trade_5 : CopyTrade.t :=
  {| CopyTrade.id := 1; CopyTrade.user := 1; CopyTrade.pair := "BTC/USDT";
     CopyTrade.action := "buy"; CopyTrade.amount := 0.05%Q;
     CopyTrade.profit := 5%Q; CopyTrade.status := CopyTrade.pending;
     CopyTrade.created_at := 0 |}.
Definition db_trade : DB :=
  db_of scenario_ranks {[ 1%positive := mk_profile (Some 1%positive) 99%Q 0%Q ]}
    [] [trade_5] [].

(** Every Solana address leased to holder 2 at time 900. *)
Definition cache_full : gmap string Assignment.t :=
  list_to_map ((fun w => (w, lease "Solana" 2 900%Q)) <$> WALLETS_Solana).

(** The account of the scenario, in the higher band with a locked balance
    of 200, and a pending trade it opened at time 0. *)
Definition trade_new : CopyTrade.t :=
  {| CopyTrade.id := 1; CopyTrade.user := 1; CopyTrade.pair := "BTC/USDT";
     CopyTrade.action := "buy"; CopyTrade.amount := 0.05%Q;
     CopyTrade.profit := 0%Q; CopyTrade.status := CopyTrade.pending;
     CopyTrade.created_at := 0 |}.
Definition db_scenario : DB :=
  db_of scenario_ranks {[ 1%positive := mk_profile (Some 2%positive) 200%Q 0%Q ]}
    [] [trade_new] [].

(** *** Strings *)

(** The characters of a string, in their order. *)
Definition chars (s : string) : list Ascii.ascii := String.list_ascii_of_string s.

(** The characters a referral code is drawn from. *)
Definition referral_alphabet : list Ascii.ascii :=
  chars "ABCDEFGHJKLMNPQRSTUVWXYZ23456789".

(** The characters that are easy to confuse: I, O, 0 and 1. *)
Definition ambiguous : list Ascii.ascii := chars "IO01".

(** A request whose first forwarded address is padded with blanks. *)
Definition META_forwarded : gmap string string :=
  <["HTTP_X_FORWARDED_FOR" := " 10.0.0.1 , 172.16.0.1"]>
    {["REMOTE_ADDR" := "192.168.1.1"]}.

(** *** The wallet pool, two requests *)

(** The lease a request records, for a requester that may be anonymous. *)
Definition lease_of (network : string) (user_id : option positive) (current_time : Q)
    : Assignment.t :=
  {| Assignment.user_id := user_id; Assignment.network := network;
     Assignment.timestamp := current_time |}.

(** *** Daily profit *)

(** The profile after a credit to the withdrawable balance. *)
Definition pay (amount : Decimal) (p : Profile.t) : Profile.t :=
  Profile.set_withdrawable_balance (Profile.withdrawable_balance p + amount)%Q p.

(** The row of a profile after a credit to the withdrawable balance whose
    sum is stored quantised. *)
Definition pay_stored (amount : Decimal) (p : Profile.t) : Profile.t :=
  Profile.set_withdrawable_balance
    (quantize (Profile.withdrawable_balance p + amount)%Q) p.

(** The daily profit of a locked balance in a band. *)
Definition daily_profit (r : Rank.t) (p : Profile.t) : Decimal :=
  (Profile.locked_balance p * (Rank.daily_profit_pct r / 100))%Q.

(** *** Copy trades *)

Definition no_rank_assigned : flash :=
  Flash warning "No rank assigned. Cannot execute copy trades." None.
Definition limit_reached : flash :=
  Flash warning
    "Copy trade limit reached for the last 24 hours ({max_trades_allowed}/{max_trades_allowed}). Try again tomorrow."
    None.
Definition insufficient_balance : flash :=
  Flash warning "Insufficient balance to execute copy trades." None.
Definition trades_used : flash :=
  Flash info "Copy trades used: {trades_last_24h}/{max_trades_allowed} in last 24 hours" None.
Definition trade_submitted (amount : Decimal) : flash :=
  Flash success "Copy trade submitted: {pair} {action} — ${amount:.2f}. Processing..."
    (Some amount).

(** The row of the trade the view opens: the lot quantised. *)
Definition opened_trade (uid : positive) (pair action : string) (r_lot : Q) (now : Z)
    (db : DB) : CopyTrade.t :=
  {| CopyTrade.id := next_id CopyTrade.id (CopyTrade_objects db);
     CopyTrade.user := uid; CopyTrade.pair := pair; CopyTrade.action := action;
     CopyTrade.amount := quantize (0.01 + 0.09 * r_lot)%Q;
     CopyTrade.profit := quantize 0%Q;
     CopyTrade.status := CopyTrade.pending; CopyTrade.created_at := now |}.

(** An account of the higher band (5 trades a day) that has opened two
    trades in the last hour. *)
Definition trade_at (id : positive) (created_at : Z) : CopyTrade.t :=
  {| CopyTrade.id := id; CopyTrade.user := 1; CopyTrade.pair := "BTC/USDT";
     CopyTrade.action := "buy"; CopyTrade.amount := 0.05%Q;
     CopyTrade.profit := 0%Q; CopyTrade.status := CopyTrade.pending;
     CopyTrade.created_at := created_at |}.
Definition db_two_trades : DB :=
  db_of scenario_ranks {[ 1%positive := mk_profile (Some 2%positive) 200%Q 0%Q ]}
    [] [trade_at 1 0; trade_at 2 (timedelta_seconds 60)] [].

(** *** Deposit decisions *)

Definition crypto_not_pending : flash := Flash warning "Crypto deposit is not pending." None.
Definition paystack_not_pending : flash :=
  Flash warning "Paystack deposit is not pending." None.

(** The row of a rejected crypto deposit. *)
Definition rejection (now : Z) (row : Deposit.t) : Deposit.t :=
  Deposit.set_approved_at (Some now) (Deposit.set_status Deposit.rejected row).

(** The row of a Paystack deposit approved by hand. *)
Definition payment (now : Z) (row : LocalDeposit.t) : LocalDeposit.t :=
  LocalDeposit.set_paid_at (Some now) (LocalDeposit.set_status LocalDeposit.paid row).

(** The primary key of a table is unique. *)
Definition unique_ids {A} (pk : A -> positive) (rows : list A) : Prop :=
  NoDup (pk <$> rows).

(** A pending Paystack deposit of 40 by user 1, under the id 1, and the
    same store with a crypto deposit under the same id. *)
Definition local_deposit_40 : LocalDeposit.t :=
  {| LocalDeposit.id := 1; LocalDeposit.user := 1; LocalDeposit.amount_usdt := 40%Q;
     LocalDeposit.status := LocalDeposit.pending; LocalDeposit.paid_at := None |}.
Definition db_local : DB :=
  upd_LocalDeposit_objects (fun _ => [local_deposit_40])
    (db_of scenario_ranks {[ 1%positive := mk_profile None 0%Q 0%Q ]} [] [] []).
Definition db_local_shadowed : DB :=
  upd_LocalDeposit_objects (fun _ => [local_deposit_40]) db_referred.

(** *** Promo codes *)

Definition toggled (s : PromoCode.status_t) : PromoCode.status_t :=
  if PromoCode.status_eqb s PromoCode.active then PromoCode.disabled else PromoCode.active.

(** [code] is declared [unique]. *)
Definition unique_codes (rows : list PromoCode.t) : Prop :=
  forall a b, a ∈ rows -> b ∈ rows -> PromoCode.code a = PromoCode.code b -> a = b.

(** *** Daily rewards and withdrawals *)

Definition reward_claimed : flash :=
  Flash success "Daily reward ${DAILY_REWARD} claimed." (Some DAILY_REWARD).
Definition already_claimed : flash := Flash warning "Already claimed today." None.

Definition reward_at (uid : positive) (now : Z) : DailyReward.t :=
  {| DailyReward.user := uid; DailyReward.amount := DAILY_REWARD;
     DailyReward.claimed_at := now |}.

(** The rewards of a user, the latest first. *)
Definition rewards_of (uid : positive) (db : DB) : list DailyReward.t :=
  order_by by_claimed_at_desc
    (List.filter (fun x => Pos.eqb (DailyReward.user x) uid) (DailyReward_objects db)).

(** The store after a reward is claimed. *)
Definition rewarded (uid : positive) (now : Z) (p : Profile.t) (db : DB) : DB :=
  upd_Profile_objects (insert uid (with_rank (Rank_objects db) (pay DAILY_REWARD p)))
    (upd_DailyReward_objects (fun rows => rows ++ [reward_at uid now]) db).

Definition withdrawal_submitted : flash :=
  Flash success "Withdrawal submitted. Admin approval required." None.
Definition insufficient_withdrawable : flash :=
  Flash error "Insufficient withdrawable balance." None.

(** The profile after a withdrawal request. *)
Definition withdrawn (amt : Decimal) (now : Z) (p : Profile.t) : Profile.t :=
  Profile.set_last_withdrawal_at (Some now)
    (Profile.set_withdrawable_balance (Profile.withdrawable_balance p - amt)%Q p).

(** An account with 10 to withdraw. *)
Definition db_withdrawable : DB :=
  db_of scenario_ranks {[ 1%positive := mk_profile (Some 1%positive) 0%Q 10%Q ]} [] [] [].

(** *** The lock of a deposit *)

(** No deposit of the table other than [pk] is due at [now]. *)
Definition no_other_due (pk : positive) (now : Z) (rows : list Deposit.t) : Prop :=
  forall d, d ∈ rows -> Deposit.id d <> pk -> expired_filter now d = false.

(** *** The admin action [approve_deposits] *)

Definition pending_deposit (d : Deposit.t) : bool :=
  Deposit.status_eqb (Deposit.status d) Deposit.pending.

Definition approved_safely : flash :=
  Flash success "Deposit {deposit.id} approved safely." None.

Definition approval_notice (d : Deposit.t) : Notification.t :=
  {| Notification.user := Deposit.user d;
     Notification.message :=
       "✅ Deposit {deposit.id} of ${deposit.amount:.2f} approved and credited to your balance." |}.

Definition notified (d : Deposit.t) (db : DB) : DB :=
  upd_Notification_objects (fun rows => rows ++ [approval_notice d]) db.



(** The locked balance [x] of the account [u] after the approval of
    deposit [d]: the owner's balance plus the amount; the balance of a
    referrer other than the owner plus the bonus, the sum stored
    quantised. *)
Definition credited_once (u : positive) (d : Deposit.t) (x : Q) : Q :=
  if Pos.eqb (Deposit.user d) u then (x + Deposit.amount d)%Q
  else
    match Deposit.referrer d with
    | Some rid =>
        if Pos.eqb rid u then quantize (x + Deposit.amount d * REFERRAL_PCT)%Q else x
    | None => x
    end.

(** The same after the approval of the pending rows of a selection, in
    its order. *)
Fixpoint credited_to (u : positive) (rows : list Deposit.t) (x : Q) : Q :=
  match rows with
  | [] => x
  | d :: rows' =>
      credited_to u rows' (if pending_deposit d then credited_once u d x else x)
  end.


(** Every pending row of the selection has an owner with a profile. *)
Definition owners_have_profiles (rows : list Deposit.t) (db : DB) : Prop :=
  forall d, d ∈ rows -> pending_deposit d = true ->
            is_Some (Profile_objects db !! Deposit.user d).

(** A row of the deposit table before and after the action approved the
    pending rows of ids [ids] at time [now]. *)
Definition approved_among (now : Z) (ids : list positive) (r r' : Deposit.t) : Prop :=
  Deposit.id r' = Deposit.id r /\ Deposit.user r' = Deposit.user r /\
  Deposit.amount r' = Deposit.amount r /\
  (Deposit.id r ∈ ids ->
   Deposit.status r' = Deposit.approved /\ Deposit.approved_at r' = Some now /\
   is_Some (Deposit.expires_at r')) /\
  (Deposit.id r ∉ ids -> r' = r).

Definition pending_ids (rows : list Deposit.t) : list positive :=
  Deposit.id <$> List.filter pending_deposit rows.

(** The selection the admin site hands to an action: the rows of the
    table whose ids were ticked. *)
Definition selected (ids : list positive) (db : DB) : list Deposit.t :=
  List.filter (fun d => bool_decide (Deposit.id d ∈ ids)) (Deposit_objects db).

(** The store [db_referred] with a second pending deposit, of an owner
    (user 3) that has no profile. *)
Definition deposit_orphan : Deposit.t :=
  mk_deposit 2 3 70%Q Deposit.pending None None None.
Definition db_orphan : DB :=
  upd_Deposit_objects (fun rows => rows ++ [deposit_orphan]) db_referred.

(** *** Withdrawals decided by the administrator *)

Definition not_pending_withdrawal : flash := Flash warning "Withdrawal is not pending." None.
Definition withdrawal_approved (amt : Decimal) : flash :=
  Flash success "Withdrawal {w.amount} approved." (Some amt).
Definition withdrawal_rejected (amt : Decimal) : flash :=
  Flash success "Withdrawal {w.amount} rejected and refunded." (Some amt).

(** A site whose withdrawals were never processed. *)
Definition site_of (db : DB) : Site :=
  {| ledger := db; Withdrawal_processed_at := ∅ |}.

(** The site after the withdrawal [pk] got the status [status] at [now]. *)
Definition decided (status : string) (pk : positive) (now : Z) (s : Site) : Site :=
  {| ledger :=
       upd_Withdrawal_objects
         (update_row Withdrawal.id pk (Withdrawal_set_status status)) (ledger s);
     Withdrawal_processed_at := <[pk := now]> (Withdrawal_processed_at s) |}.

(** The profile after the refund of a rejected withdrawal. *)
Definition refunded (amt : Decimal) (p : Profile.t) : Profile.t :=
  Profile.set_withdrawable_balance (Profile.withdrawable_balance p + amt)%Q p.

(** The site after the refund. *)
Definition refund_saved (uid : positive) (amt : Decimal) (p : Profile.t) (s : Site) : Site :=
  {| ledger := upd_Profile_objects (insert uid (refunded amt p)) (ledger s);
     Withdrawal_processed_at := Withdrawal_processed_at s |}.

(** The row a withdrawal request adds. *)
Definition requested (uid : positive) (amt : Decimal) (net wallet : string) (db : DB)
    : Withdrawal.t :=
  {| Withdrawal.id := next_id Withdrawal.id (Withdrawal_objects db);
     Withdrawal.user := uid; Withdrawal.amount := amt;
     Withdrawal.network := net; Withdrawal.wallet_address := wallet;
     Withdrawal.status := "pending_admin_approval" |}.

(** *** The flags of an account *)

(** The account [u] has the address [ip] as its last one, or the phone
    number [phone]; an empty address or number is shared with nobody. *)
Definition shares (prep : string -> option string) (ip phone : string)
    (u : CustomUser.t) : Prop :=
  (ip <> "" /\ exists v, CustomUser.last_login_ip u = Some v /\ prep ip = Some v) \/
  (phone <> "" /\ CustomUser.phone u = phone).

Definition sharesb (prep : string -> option string) (ip phone : string)
    (u : CustomUser.t) : bool :=
  (truthy ip && Q_last_login_ip prep ip u) || (truthy phone && Q_phone phone u).

(** The table after the address of the login of [uid] is written. *)
Definition recorded (prep : string -> option string) (ip : string) (uid : positive)
    (users : Users) : Users :=
  update_row CustomUser.id uid (CustomUser.set_last_login_ip (prep ip)) users.

(** The accounts other than [uid], not of role admin, that share the
    address or the number. *)
Definition others (prep : string -> option string) (ip phone : string) (uid : positive)
    (users : Users) : Users :=
  List.filter (fun u => sharesb prep ip phone u && exclude_admin u &&
                        negb (Pos.eqb (CustomUser.id u) uid)) users.

Definition flag_sharing (prep : string -> option string) (ip phone : string)
    (u : CustomUser.t) : CustomUser.t :=
  if sharesb prep ip phone u && exclude_admin u then CustomUser.set_is_flagged true u else u.

Definition logged_in : flash * bool := (Flash success "Logged in." None, true).
Definition account_banned : flash * bool := (Flash error "Account banned." None, false).

(** An address as the column holds it, for an IPv4 address. *)
Definition prep_plain (ip : string) : option string :=
  if truthy ip then Some ip else None.

Definition mk_user (id : positive) (is_staff : bool) (role : string)
    (ip : option string) (phone : string) : CustomUser.t :=
  {| CustomUser.id := id; CustomUser.is_staff := is_staff; CustomUser.role := role;
     CustomUser.is_banned := false; CustomUser.is_flagged := false;
     CustomUser.last_login_ip := ip; CustomUser.phone := phone |}.

(** Two accounts seen at one address, a third never seen, and an
    administrator seen at that address. *)
Definition users_one_address : Users :=
  [ mk_user 1 false "user" (Some "10.0.0.1") "";
    mk_user 2 false "user" (Some "10.0.0.1") "";
    mk_user 3 false "user" None "";
    mk_user 4 true "admin" (Some "10.0.0.1") "" ].

Definition META_one_address : gmap string string :=
  {[ "REMOTE_ADDR" := "10.0.0.1" ]}.

(** A row before and after the login flagged the accounts that share:
    [n] is the number of other accounts that share. *)
Definition flagged_by_login (prep : string -> option string) (ip phone : string) (n : nat)
    (u u' : CustomUser.t) : Prop :=
  u' = u \/
  ((2 <= n)%nat /\ shares prep ip phone u /\ CustomUser.role u <> "admin" /\
   u' = CustomUser.set_is_flagged true u).

Definition user_banned : flash := Flash success "User banned." None.
Definition user_unbanned : flash := Flash success "User unbanned." None.
Definition cannot_ban_admin : flash := Flash error "Cannot ban admin." None.
Definition cannot_flag_admin : flash := Flash error "Cannot flag admin." None.

(** * Part II: properties *)

(** ** Decimal comparisons *)

Lemma Qleb_le x y : Qleb x y = true <-> (x <= y)%Q.
Proof. apply Qle_bool_iff. Qed.

Lemma Qleb_gt x y : Qleb x y = false <-> (y < x)%Q.
Proof.
  unfold Qleb. split; intros H.
  - apply Qnot_le_lt. intros Hle. apply Qle_bool_iff in Hle. congruence.
  - destruct (Qle_bool x y) eqn:E; [|done].
    apply Qle_bool_iff in E. exfalso. apply (Qlt_not_le _ _ H E).
Qed.

Lemma Qltb_lt x y : Qltb x y = true <-> (x < y)%Q.
Proof. unfold Qltb. rewrite negb_true_iff. apply Qleb_gt. Qed.

Lemma Qltb_ge x y : Qltb x y = false <-> (y <= x)%Q.
Proof. unfold Qltb. rewrite negb_false_iff. apply Qleb_le. Qed.

Lemma Qgeb_ge x y : Qgeb x y = true <-> (y <= x)%Q.
Proof. apply Qleb_le. Qed.

Lemma Qgeb_lt x y : Qgeb x y = false <-> (x < y)%Q.
Proof. apply Qleb_gt. Qed.

Lemma Qgtb_gt x y : Qgtb x y = true <-> (y < x)%Q.
Proof. apply Qltb_lt. Qed.

Lemma Qgtb_le x y : Qgtb x y = false <-> (x <= y)%Q.
Proof. apply Qltb_ge. Qed.


Lemma py_max_cases a b :
  (py_max a b = a /\ (b <= a)%Q) \/ (py_max a b = b /\ (a < b)%Q).
Proof.
  unfold py_max. destruct (Qgtb b a) eqn:E.
  - apply Qgtb_gt in E. auto.
  - apply Qgtb_le in E. auto.
Qed.



(** ** [order_by] sorts and permutes *)

Section OrderBy.
Context {A : Type} (leb : A -> A -> bool).

Lemma insert_row_perm x l : insert_row leb x l ≡ₚ x :: l.
Proof.
  induction l as [|y l IH]; simpl; [done|].
  destruct (leb x y); [done|].
  rewrite IH. apply Permutation_swap.
Qed.

Lemma order_by_perm l : order_by leb l ≡ₚ l.
Proof.
  induction l as [|x l IH]; simpl; [done|].
  rewrite insert_row_perm. by rewrite IH.
Qed.

Lemma elem_of_order_by x l : x ∈ order_by leb l <-> x ∈ l.
Proof. by rewrite order_by_perm. Qed.

Hypothesis leb_total : forall a b, leb a b = false -> leb b a = true.
Hypothesis leb_trans : forall a b c, leb a b = true -> leb b c = true -> leb a c = true.

Lemma insert_row_sorted x l :
  StronglySorted (fun a b => leb a b = true) l ->
  StronglySorted (fun a b => leb a b = true) (insert_row leb x l).
Proof.
  induction 1 as [|y l Hs IH Hall]; simpl.
  - repeat constructor.
  - destruct (leb x y) eqn:E.
    + constructor; [by constructor|].
      constructor; [done|].
      eapply Forall_impl; [exact Hall|]. intros z Hz. eauto.
    + constructor; [done|].
      rewrite insert_row_perm. constructor; [auto|done].
Qed.

Lemma order_by_sorted l :
  StronglySorted (fun a b => leb a b = true) (order_by leb l).
Proof.
  induction l as [|x l IH]; simpl; [constructor|].
  by apply insert_row_sorted.
Qed.
End OrderBy.

(** ** [get_rank] *)

Lemma in_band_test pb r :
  (Qgeb pb (Rank.min_balance r) &&
   match Rank.max_balance r with None => true | Some m => Qleb pb m end) = true
  <-> in_band pb r.
Proof.
  unfold in_band. rewrite andb_true_iff, Qgeb_ge.
  destruct (Rank.max_balance r); [by rewrite Qleb_le|]. tauto.
Qed.

Lemma get_rank_loop_cons pb r ranks :
  get_rank_loop pb (r :: ranks) =
  if Qgeb pb (Rank.min_balance r) &&
     match Rank.max_balance r with None => true | Some m => Qleb pb m end
  then Some r else get_rank_loop pb ranks.
Proof.
  simpl. destruct (Qgeb pb (Rank.min_balance r)); [|done].
  by destruct (Rank.max_balance r) as [m|]; [destruct (Qleb pb m)|].
Qed.

(** The loop returns the first band that contains the balance. *)
Lemma get_rank_loop_Some pb ranks r :
  get_rank_loop pb ranks = Some r <->
  exists l1 l2, ranks = l1 ++ r :: l2 /\ in_band pb r /\
                Forall (fun r' => ~ in_band pb r') l1.
Proof.
  induction ranks as [|x ranks IH].
  - split; [done|]. intros (l1 & l2 & H & _). by destruct l1.
  - rewrite get_rank_loop_cons.
    destruct (_ && _) eqn:E.
    + apply in_band_test in E. split.
      * intros [= <-]. exists [], ranks. split; [done|]. split; [done|constructor].
      * intros (l1 & l2 & H & Hin & Hall). destruct l1 as [|y l1].
        -- simpl in H. congruence.
        -- simpl in H. injection H as <- _. by inversion Hall.
    + assert (~ in_band pb x) as Hx.
      { intros H. apply in_band_test in H. congruence. }
      rewrite IH. split.
      * intros (l1 & l2 & -> & Hin & Hall). exists (x :: l1), l2.
        split; [done|]. split; [done|by constructor].
      * intros (l1 & l2 & H & Hin & Hall). destruct l1 as [|y l1].
        -- simpl in H. injection H as -> _. done.
        -- simpl in H. injection H as <- ->. inversion Hall; subst.
           by exists l1, l2.
Qed.

Lemma get_rank_loop_None pb ranks :
  get_rank_loop pb ranks = None <-> forall r, r ∈ ranks -> ~ in_band pb r.
Proof.
  induction ranks as [|x ranks IH].
  - split; [|done]. intros _ r Hr. by apply elem_of_nil in Hr.
  - rewrite get_rank_loop_cons.
    destruct (_ && _) eqn:E.
    + apply in_band_test in E. split; [done|].
      intros H. exfalso. apply (H x); [left|done].
    + assert (~ in_band pb x) as Hx.
      { intros H. apply in_band_test in H. congruence. }
      rewrite IH. split.
      * intros H r Hr. apply elem_of_cons in Hr as [->|Hr]; auto.
      * intros H r Hr. apply H. by right.
Qed.

Lemma by_min_balance_total a b :
  by_min_balance a b = false -> by_min_balance b a = true.
Proof.
  unfold by_min_balance. rewrite Qleb_gt, Qleb_le. apply Qlt_le_weak.
Qed.

Lemma by_min_balance_trans a b c :
  by_min_balance a b = true -> by_min_balance b c = true -> by_min_balance a c = true.
Proof. unfold by_min_balance. rewrite !Qleb_le. apply Qle_trans. Qed.

Lemma get_rank_nonpositive ranks p :
  (Profile.principal_balance p <= 0)%Q -> get_rank ranks p = None.
Proof. intros H. unfold get_rank. apply Qleb_le in H. by rewrite H. Qed.

Lemma get_rank_positive ranks p :
  (0 < Profile.principal_balance p)%Q ->
  get_rank ranks p =
  get_rank_loop (Profile.principal_balance p) (order_by by_min_balance ranks).
Proof. intros H. unfold get_rank. apply Qleb_gt in H. by rewrite H. Qed.

(** A returned band is a row of the table, contains the balance, and has
    the least [min_balance] of the bands that contain it. *)
Lemma get_rank_Some ranks p r :
  get_rank ranks p = Some r ->
  (0 < Profile.principal_balance p)%Q /\ r ∈ ranks /\
  in_band (Profile.principal_balance p) r /\
  forall r', r' ∈ ranks -> in_band (Profile.principal_balance p) r' ->
             (Rank.min_balance r <= Rank.min_balance r')%Q.
Proof.
  intros H.
  destruct (Qlt_le_dec 0 (Profile.principal_balance p)) as [Hpos|Hneg];
    [|by rewrite get_rank_nonpositive in H].
  split; [done|]. rewrite get_rank_positive in H by done.
  apply get_rank_loop_Some in H as (l1 & l2 & Hl & Hin & Hall).
  split; [|split; [done|]].
  - apply (elem_of_order_by by_min_balance). rewrite Hl. set_solver.
  - intros r' Hr' Hin'.
    apply (elem_of_order_by by_min_balance) in Hr'. rewrite Hl in Hr'.
    apply elem_of_app in Hr' as [Hr'|Hr'].
    + rewrite Forall_forall in Hall. by destruct (Hall r' Hr').
    + apply elem_of_cons in Hr' as [->|Hr']; [apply Qle_refl|].
      pose proof (order_by_sorted by_min_balance by_min_balance_total
                    by_min_balance_trans ranks) as Hs.
      rewrite Hl in Hs. apply StronglySorted_app_1_r in Hs.
      apply StronglySorted_cons in Hs as [Hs _].
      rewrite Forall_forall in Hs. apply Qleb_le, (Hs r' Hr').
Qed.

Lemma get_rank_None ranks p :
  (0 < Profile.principal_balance p)%Q ->
  get_rank ranks p = None <->
  forall r, r ∈ ranks -> ~ in_band (Profile.principal_balance p) r.
Proof.
  intros H. rewrite get_rank_positive by done.
  rewrite get_rank_loop_None.
  split; intros Hn r Hr; apply Hn; by apply (elem_of_order_by by_min_balance).
Qed.

(** C2, as stated, fails at the boundary of the scenario table: with a
    principal of exactly 100 the lookup returns the lower band, whose
    half-open interval [[0, 100)] does not contain 100, and not the higher
    band [[100, oo)], whose half-open interval does. *)
Lemma get_rank_boundary_counterexample :
  get_rank scenario_ranks (mk_profile None 100%Q 0%Q) = Some band_low /\
  ~ in_band_half_open (Profile.principal_balance (mk_profile None 100%Q 0%Q)) band_low /\
  in_band_half_open (Profile.principal_balance (mk_profile None 100%Q 0%Q)) band_high.
Proof.
  split; [reflexivity|]. split.
  - intros [_ H]. simpl in H. revert H. apply Qle_not_lt. by vm_compute.
  - split; [by vm_compute|exact I].
Qed.

(** C2 (amended): for a principal balance that is zero or negative the
    rank lookup returns no rank; for a positive one it returns the first
    band, in ascending order of [min_balance], whose closed interval
    [[min_balance, max_balance]] contains the balance (a band without
    [max_balance] is unbounded above), hence a band of the table of least
    [min_balance] among those that contain it, and no rank exactly when no
    band contains it; when the balance equals the boundary shared by two
    contiguous bands, the lower band is selected. *)
Theorem get_rank_closed_band (ranks : list Rank.t) (p : Profile.t) :
  ((Profile.principal_balance p <= 0)%Q -> get_rank ranks p = None) /\
  ((0 < Profile.principal_balance p)%Q ->
     (get_rank ranks p = None <->
      forall r, r ∈ ranks -> ~ in_band (Profile.principal_balance p) r) /\
     (forall r, get_rank ranks p = Some r <->
        exists l1 l2,
          order_by by_min_balance ranks = l1 ++ r :: l2 /\
          in_band (Profile.principal_balance p) r /\
          Forall (fun r' => ~ in_band (Profile.principal_balance p) r') l1) /\
     (forall r, get_rank ranks p = Some r ->
        r ∈ ranks /\
        forall r', r' ∈ ranks -> in_band (Profile.principal_balance p) r' ->
                   (Rank.min_balance r <= Rank.min_balance r')%Q)) /\
  (forall lo hi b,
     lo ∈ ranks ->
     Rank.max_balance lo = Some b ->
     (Rank.min_balance hi == b)%Q ->
     (Rank.min_balance lo < b)%Q ->
     (0 < b)%Q ->
     (Profile.principal_balance p == b)%Q ->
     (forall r, r ∈ ranks -> in_band (Profile.principal_balance p) r ->
                r = lo \/ r = hi) ->
     get_rank ranks p = Some lo).
Proof.
  split; [apply get_rank_nonpositive|]. split.
  - intros Hpos. split; [by apply get_rank_None|]. split.
    + intros r. rewrite get_rank_positive by done. apply get_rank_loop_Some.
    + intros r Hr. apply get_rank_Some in Hr. tauto.
  - intros lo hi b Hlo Hmax Hhi Hlt Hb Hpb Honly.
    assert (0 < Profile.principal_balance p)%Q as Hpos by (rewrite Hpb; done).
    assert (in_band (Profile.principal_balance p) lo) as Hin.
    { split; [rewrite Hpb; by apply Qlt_le_weak|]. rewrite Hmax, Hpb. apply Qle_refl. }
    destruct (get_rank ranks p) as [r|] eqn:E.
    + apply get_rank_Some in E as (_ & Hr & Hinr & Hleast).
      destruct (Honly r Hr Hinr) as [->| ->]; [done|].
      specialize (Hleast lo Hlo Hin). exfalso.
      rewrite Hhi in Hleast. apply (Qlt_not_le _ _ Hlt Hleast).
    + exfalso. apply (proj1 (get_rank_None ranks p Hpos) E lo Hlo Hin).
Qed.

Lemma get_rank_closed_band_witness :
  get_rank scenario_ranks (mk_profile None 100%Q 0%Q) = Some band_low.
Proof.
  refine (proj2 (proj2 (get_rank_closed_band scenario_ranks (mk_profile None 100%Q 0%Q)))
            band_low band_high 100%Q _ _ _ _ _ _ _).
  - left.
  - reflexivity.
  - reflexivity.
  - reflexivity.
  - reflexivity.
  - reflexivity.
  - intros r Hr _. apply elem_of_cons in Hr as [Hr|Hr]; [by left|].
    apply elem_of_cons in Hr as [Hr|Hr]; [by right|].
    by apply elem_of_nil in Hr.
Defined.

(** ** The monad *)

Ltac munfold :=
  unfold mbind, M_bind, mret, M_ret, gets, modify, raise in *.

Lemma for_each_cons {S A} (x : A) (l : list A) (body : A -> M S unit) (s : S) :
  for_each (x :: l) body s =
  match body x s with
  | Ok _ s' => for_each l body s'
  | Raise e s' => Raise e s'
  end.
Proof. reflexivity. Qed.

(** A loop whose body leaves the store alone leaves the store alone. *)
Lemma for_each_noop {S A} (l : list A) (body : A -> M S unit) (s : S) :
  (forall x, x ∈ l -> body x s = Ok () s) -> for_each l body s = Ok () s.
Proof.
  induction l as [|x l IH]; intros H; [done|].
  rewrite for_each_cons, (H x) by left. apply IH. intros y Hy. apply H. by right.
Qed.

(** Invariants of a loop that returns. *)
Lemma for_each_invariant {S A} (I : S -> Prop) (l : list A) (body : A -> M S unit) :
  (forall x s, x ∈ l -> I s -> I (store (body x s))) ->
  forall s, I s -> I (store (for_each l body s)).
Proof.
  induction l as [|x l IH]; intros Hbody s Hs; [done|].
  rewrite for_each_cons.
  pose proof (Hbody x s ltac:(left) Hs) as Hx.
  destruct (body x s) as [[] s'|e s']; simpl in Hx; [|done].
  apply IH; [|done]. intros y s0 Hy. apply Hbody. by right.
Qed.

(** ** Rows *)

Lemma elem_of_update_row {A} (pk : A -> positive) i f rows (r' : A) :
  r' ∈ update_row pk i f rows <->
  exists r, r ∈ rows /\ r' = (if Pos.eqb (pk r) i then f r else r).
Proof.
  unfold update_row. rewrite list_elem_of_fmap. split.
  - intros (r & -> & Hr). by exists r.
  - intros (r & Hr & ->). by exists r.
Qed.

Lemma get_row_Some {A} (pk : A -> positive) i rows (r : A) :
  get_row pk i rows = Some r -> r ∈ rows /\ pk r = i.
Proof.
  unfold get_row. intros H. apply find_some in H as [Hin Heq].
  split; [by apply list_elem_of_In|by apply Pos.eqb_eq].
Qed.

Lemma get_row_is_Some {A} (pk : A -> positive) rows (r : A) :
  r ∈ rows -> is_Some (get_row pk (pk r) rows).
Proof.
  intros Hr. unfold get_row.
  destruct (List.find _ rows) eqn:E; [by eexists|].
  apply list_elem_of_In in Hr.
  pose proof (find_none _ _ E r Hr) as H. simpl in H.
  by rewrite Pos.eqb_refl in H.
Qed.

(** ** Foreign keys of [Profile.rank] *)

Lemma fk_resolves_Some ranks p i :
  fk_resolves ranks p -> Profile.rank p = Some i -> is_Some (get_row Rank.id i ranks).
Proof. unfold fk_resolves. intros H E. by rewrite E in H. Qed.

Lemma fk_resolves_get_rank ranks p q :
  fk_resolves ranks (Profile.set_rank (Rank.id <$> get_rank ranks q) p).
Proof.
  unfold fk_resolves. simpl. destruct (get_rank ranks q) as [r|] eqn:E; [|done].
  simpl. apply get_row_is_Some. by apply get_rank_Some in E as (_ & ? & _).
Qed.

(** Following the key and comparing with a looked up rank is comparing
    the key with the id of that rank. *)
Lemma Profile_rank_ok db p :
  fk_resolves (Rank_objects db) p ->
  exists cur, Profile_rank p db = Ok cur db /\ Rank.id <$> cur = Profile.rank p.
Proof.
  intros Hfk. unfold Profile_rank. destruct (Profile.rank p) as [i|] eqn:E.
  - destruct (fk_resolves_Some _ _ _ Hfk E) as [r Hr]. rewrite Hr.
    exists (Some r). split; [done|].
    simpl. f_equal. by apply get_row_Some in Hr as [_ ?].
  - by exists None.
Qed.

Lemma rank_neb_false a b : rank_neb a b = false <-> Rank.id <$> a = Rank.id <$> b.
Proof.
  destruct a as [x|], b as [y|]; simpl.
  - rewrite negb_false_iff, Pos.eqb_eq. split; [by intros ->|by intros [=]].
  - split; discriminate.
  - split; discriminate.
  - done.
Qed.

Lemma rank_neb_true a b : rank_neb a b = true <-> Rank.id <$> a <> Rank.id <$> b.
Proof.
  rewrite <- rank_neb_false. by destruct (rank_neb a b).
Qed.
(** ** Decimal columns *)

Lemma round_half_even_cases x :
  round_half_even x = Qfloor x \/ round_half_even x = Qfloor x + 1.
Proof.
  unfold round_half_even. destruct (_ ?= _)%Q; auto. destruct (Z.even _); auto.
Qed.

(** The rounded value is within one half of the value. *)
Lemma round_half_even_near x :
  (inject_Z (round_half_even x) - (1 # 2) <= x)%Q /\
  (x <= inject_Z (round_half_even x) + (1 # 2))%Q.
Proof.
  pose proof (Qfloor_le x) as Hlo. pose proof (Qlt_floor x) as Hhi.
  rewrite inject_Z_plus in Hhi. unfold round_half_even.
  destruct (Qcompare_spec (x - inject_Z (Qfloor x)) (1 # 2)) as [E|E|E].
  - destruct (Z.even (Qfloor x)); rewrite ?inject_Z_plus;
      change (inject_Z 1) with 1%Q in *; split; lra.
  - change (inject_Z 1) with 1%Q in *. split; lra.
  - rewrite inject_Z_plus. change (inject_Z 1) with 1%Q in *. split; lra.
Qed.

Lemma round_half_even_mono x y :
  (x <= y)%Q -> round_half_even x <= round_half_even y.
Proof.
  intros Hxy. pose proof (Qfloor_resp_le _ _ Hxy) as Hf.
  destruct (Z.eq_dec (Qfloor x) (Qfloor y)) as [E|E].
  - unfold round_half_even. rewrite E.
    destruct (Qcompare_spec (x - inject_Z (Qfloor y)) (1 # 2)) as [Ex|Ex|Ex];
      destruct (Qcompare_spec (y - inject_Z (Qfloor y)) (1 # 2)) as [Ey|Ey|Ey];
      try destruct (Z.even (Qfloor y)); try lia; exfalso; lra.
  - destruct (round_half_even_cases x) as [->| ->];
      destruct (round_half_even_cases y) as [->| ->]; lia.
Qed.

Lemma round_half_even_Z x z : (x == inject_Z z)%Q -> round_half_even x = z.
Proof.
  intros E. unfold round_half_even.
  assert (Qfloor x = z) as -> by (rewrite E; apply Qfloor_Z).
  destruct (Qcompare_spec (x - inject_Z z) (1 # 2)) as [E'|E'|E']; [exfalso; lra|done|exfalso; lra].
Qed.

Lemma quantize_mono x y : (x <= y)%Q -> (quantize x <= quantize y)%Q.
Proof.
  intros H. unfold quantize.
  assert (x * 100 <= y * 100)%Q as H100 by lra.
  apply round_half_even_mono in H100. rewrite Zle_Qle in H100.
  apply Qmult_le_compat_r; [exact H100|]. by vm_compute.
Qed.

(** A quantised value is within half a cent of the value. *)
Lemma quantize_near x :
  (quantize x - (1 # 200) <= x)%Q /\ (x <= quantize x + (1 # 200))%Q.
Proof.
  destruct (round_half_even_near (x * 100)) as [Hlo Hhi]. unfold quantize.
  set (n := inject_Z (round_half_even (x * 100))) in *.
  assert (n / 100 == n * (1 # 100))%Q as -> by (unfold Qdiv; reflexivity).
  split; lra.
Qed.

Lemma quantize_is_cents x : is_cents (quantize x).
Proof. by exists (round_half_even (x * 100)). Qed.

(** A number of cents is stored as it is. *)
Lemma quantize_cents x : is_cents x -> (quantize x == x)%Q.
Proof.
  intros [z Hz]. unfold quantize.
  assert (x * 100 == inject_Z z)%Q as E.
  { rewrite Hz. unfold Qdiv. rewrite <- Qmult_assoc.
    assert (/ 100 * 100 == 1)%Q as -> by reflexivity. ring. }
  by rewrite (round_half_even_Z _ _ E), Hz.
Qed.

Lemma quantize_idempotent x : (quantize (quantize x) == quantize x)%Q.
Proof. apply quantize_cents, quantize_is_cents. Qed.

Lemma quantize_nonneg x : (0 <= x)%Q -> (0 <= quantize x)%Q.
Proof.
  intros H. apply quantize_mono in H.
  assert (quantize 0 == 0)%Q as E by reflexivity. by rewrite E in H.
Qed.

Lemma is_cents_plus x y : is_cents x -> is_cents y -> is_cents (x + y).
Proof.
  intros [a Ha] [b Hb]. exists (a + b). rewrite Ha, Hb, inject_Z_plus.
  unfold Qdiv. ring.
Qed.

Lemma is_cents_minus x y : is_cents x -> is_cents y -> is_cents (x - y).
Proof.
  intros [a Ha] [b Hb]. exists (a - b). rewrite Ha, Hb.
  unfold Z.sub. rewrite inject_Z_plus, inject_Z_opp. unfold Qdiv. ring.
Qed.


(** ** [update_rank] *)

Lemma set_rank_same p : Profile.set_rank (Profile.rank p) p = p.
Proof. by destruct p. Qed.

Lemma upd_Profile_objects_insert_id db u p :
  Profile_objects db !! u = Some p -> upd_Profile_objects (insert u p) db = db.
Proof.
  intros H. destruct db. unfold upd_Profile_objects. simpl in *. f_equal.
  by apply insert_id.
Qed.

Lemma upd_Profile_objects_alter db u p f :
  Profile_objects db !! u = Some p ->
  upd_Profile_objects (alter f u) db = upd_Profile_objects (insert u (f p)) db.
Proof.
  intros H. unfold upd_Profile_objects. f_equal. by apply alter_alt_Some.
Qed.

(** When the row of the profile is the in-memory object, [update_rank]
    leaves both with the rank that [get_rank] computes. *)
Lemma update_rank_ok uid p db :
  Profile_objects db !! uid = Some p ->
  fk_resolves (Rank_objects db) p ->
  update_rank uid p db =
  Ok (Profile.set_rank (Rank.id <$> get_rank (Rank_objects db) p) p,
      get_rank (Rank_objects db) p)
     (upd_Profile_objects
        (insert uid (Profile.set_rank (Rank.id <$> get_rank (Rank_objects db) p) p)) db).
Proof.
  intros Hrow Hfk. unfold update_rank. munfold.
  destruct (Profile_rank_ok db p Hfk) as (cur & -> & Hcur).
  destruct (rank_neb _ cur) eqn:E.
  - unfold Profile_save_rank. munfold. simpl.
    by rewrite (upd_Profile_objects_alter _ _ _ _ Hrow).
  - apply rank_neb_false in E. rewrite E, Hcur, set_rank_same.
    by rewrite upd_Profile_objects_insert_id.
Qed.

(** When the row of the profile has the rank of the object in memory,
    [update_rank] leaves the row with the rank that [get_rank] computes on
    the object. *)
Lemma update_rank_row uid p row db :
  Profile_objects db !! uid = Some row ->
  Profile.rank row = Profile.rank p ->
  fk_resolves (Rank_objects db) p ->
  update_rank uid p db =
  Ok (Profile.set_rank (Rank.id <$> get_rank (Rank_objects db) p) p,
      get_rank (Rank_objects db) p)
     (upd_Profile_objects (insert uid (ranked_as (Rank_objects db) p row)) db).
Proof.
  intros Hrow Hrank Hfk. unfold update_rank, ranked_as. munfold.
  destruct (Profile_rank_ok db p Hfk) as (cur & -> & Hcur).
  destruct (rank_neb _ cur) eqn:E.
  - unfold Profile_save_rank. munfold. simpl.
    by rewrite (upd_Profile_objects_alter _ _ _ _ Hrow).
  - apply rank_neb_false in E. rewrite E, Hcur, set_rank_same.
    rewrite <- Hrank, set_rank_same. by rewrite upd_Profile_objects_insert_id.
Qed.

(** ** [process_expired_deposits]: one deposit *)

Lemma expire_deposit_no_profile d db :
  Profile_objects db !! Deposit.user d = None ->
  expire_deposit d db = Raise DoesNotExist db.
Proof.
  intros H. unfold expire_deposit, related_profile. munfold. by rewrite H.
Qed.

Lemma expire_deposit_skip d db p :
  Profile_objects db !! Deposit.user d = Some p ->
  (Profile.locked_balance p < Deposit.amount d)%Q ->
  expire_deposit d db = Ok () db.
Proof.
  intros H Hlt. unfold expire_deposit, related_profile. munfold. rewrite H.
  apply Qgeb_lt in Hlt. by rewrite Hlt.
Qed.

Lemma Profile_rank_loaded db p :
  fk_resolves (Rank_objects db) p ->
  Profile_rank p db = Ok (loaded_rank (Rank_objects db) p) db.
Proof.
  intros Hfk. unfold Profile_rank, loaded_rank.
  destruct (Profile.rank p) as [i|] eqn:E; [|done]. simpl.
  by destruct (fk_resolves_Some _ _ _ Hfk E) as [r ->].
Qed.

Lemma loaded_rank_id ranks p :
  fk_resolves ranks p -> Rank.id <$> loaded_rank ranks p = Profile.rank p.
Proof.
  intros Hfk. unfold loaded_rank. destruct (Profile.rank p) as [i|] eqn:E; [|done].
  simpl. destruct (fk_resolves_Some _ _ _ Hfk E) as [r Hr]. rewrite Hr. simpl. f_equal.
  by apply get_row_Some in Hr as [_ ?].
Qed.

Lemma expire_deposit_debit d db p :
  Profile_objects db !! Deposit.user d = Some p ->
  fk_resolves (Rank_objects db) p ->
  (Deposit.amount d <= Profile.locked_balance p)%Q ->
  exists db',
    expire_deposit d db = Ok () db' /\
    Profile_objects db' =
      <[Deposit.user d :=
          Profile.set_rank (Rank.id <$> get_rank (Rank_objects db) (debit d p)) (debit d p)]>
        (Profile_objects db) /\
    Deposit_objects db' =
      update_row Deposit.id (Deposit.id d) (Deposit.set_status Deposit.expired)
        (Deposit_objects db) /\
    Notification_objects db' =
      Notification_objects db ++ demotion d (Rank_objects db) p /\
    same_ledger_tables db db'.
Proof.
  intros H Hfk Hle. unfold expire_deposit, related_profile. munfold. rewrite H.
  apply Qgeb_ge in Hle. rewrite Hle.
  unfold Profile_save_locked_balance, Deposit_save_status. munfold. simpl.
  fold (debit d p).
  assert (fk_resolves (Rank_objects db) (debit d p)) as Hfk' by exact Hfk.
  rewrite (Profile_rank_loaded _ (debit d p))
    by (exact Hfk).
  unfold demotion. change (loaded_rank (Rank_objects db) (debit d p))
    with (loaded_rank (Rank_objects db) p).
  destruct (rank_neb _ _) eqn:E.
  - apply rank_neb_true in E. rewrite loaded_rank_id in E by done.
    rewrite decide_False by done.
    unfold Profile_save_rank, Notification_create. munfold. simpl.
    eexists. split; [reflexivity|]. simpl.
    split; [|by repeat split].
    by rewrite (alter_alt_Some _ _ _ _ H), alter_insert_eq.
  - apply rank_neb_false in E. rewrite loaded_rank_id in E by done.
    rewrite decide_True by done.
    eexists. split; [reflexivity|]. simpl.
    split; [|split; [done|split; [by rewrite app_nil_r|by repeat split]]].
    rewrite (alter_alt_Some _ _ _ _ H). f_equal.
    simpl in E. rewrite <- E. symmetry. apply (set_rank_same (debit d p)).
Qed.

Lemma expire_deposit_cases d db :
  fk_ok db ->
  (Profile_objects db !! Deposit.user d = None /\
   expire_deposit d db = Raise DoesNotExist db) \/
  (exists p, Profile_objects db !! Deposit.user d = Some p /\
             (Profile.locked_balance p < Deposit.amount d)%Q /\
             expire_deposit d db = Ok () db) \/
  (exists p db', Profile_objects db !! Deposit.user d = Some p /\
                 (Deposit.amount d <= Profile.locked_balance p)%Q /\
                 expire_deposit d db = Ok () db' /\
                 debited_to d p db db').
Proof.
  intros Hfk. destruct (Profile_objects db !! Deposit.user d) as [p|] eqn:E.
  - right. destruct (Qlt_le_dec (Profile.locked_balance p) (Deposit.amount d)) as [Hlt|Hle].
    + left. exists p. eauto using expire_deposit_skip.
    + right. destruct (expire_deposit_debit d db p E (Hfk _ _ E) Hle) as (db' & H & H').
      by exists p, db'.
  - left. eauto using expire_deposit_no_profile.
Qed.

Lemma reaped_refl db : reaped db db.
Proof. split; [done|]. split; [done|]. intros r' Hr'. exists r'. auto. Qed.

Lemma set_status_expired_twice r :
  Deposit.set_status Deposit.expired (Deposit.set_status Deposit.expired r) =
  Deposit.set_status Deposit.expired r.
Proof. done. Qed.

Lemma reaped_trans db1 db2 db3 : reaped db1 db2 -> reaped db2 db3 -> reaped db1 db3.
Proof.
  intros (Hr1 & Hd1 & Hrow1) (Hr2 & Hd2 & Hrow2). split; [congruence|]. split.
  - intros u. by rewrite Hd2.
  - intros r3 H3. destruct (Hrow2 r3 H3) as (r2 & H2 & Hr32).
    destruct (Hrow1 r2 H2) as (r1 & H1 & Hr21). exists r1. split; [done|].
    destruct Hr32 as [->| ->], Hr21 as [->| ->]; auto.
Qed.

Lemma debited_to_reaped d p db db' :
  Profile_objects db !! Deposit.user d = Some p ->
  debited_to d p db db' -> reaped db db'.
Proof.
  intros Hp (HP & HD & _ & HR & _). split; [done|]. split.
  - intros u. rewrite HP. destruct (decide (u = Deposit.user d)) as [->|Hne].
    + rewrite lookup_insert_eq, Hp. split; eauto.
    + by rewrite lookup_insert_ne.
  - intros r'. rewrite HD, elem_of_update_row. intros (r & Hr & ->).
    exists r. split; [done|]. destruct (Pos.eqb _ _); auto.
Qed.

Lemma debited_to_fk_ok d p db db' :
  fk_ok db -> debited_to d p db db' -> fk_ok db'.
Proof.
  intros Hfk (HP & _ & _ & HR & _) u q. rewrite HP, HR.
  destruct (decide (u = Deposit.user d)) as [->|Hne].
  - rewrite lookup_insert_eq. intros [= <-]. apply fk_resolves_get_rank.
  - rewrite lookup_insert_ne by done. apply Hfk.
Qed.

Lemma debited_to_expired d p db db' :
  debited_to d p db db' -> expired_by_id db' (Deposit.id d).
Proof.
  intros (_ & HD & _) r. rewrite HD, elem_of_update_row.
  intros (r0 & Hr0 & ->) Hid.
  destruct (Pos.eqb (Deposit.id r0) (Deposit.id d)) eqn:E; [done|].
  apply Pos.eqb_neq in E. done.
Qed.

Lemma debited_to_locked d p db db' u q q' :
  Profile_objects db !! Deposit.user d = Some p ->
  debited_to d p db db' ->
  Profile_objects db !! u = Some q ->
  Profile_objects db' !! u = Some q' ->
  Profile.locked_balance q' = Profile.locked_balance q \/
  (q = p /\ Profile.locked_balance q' = (Profile.locked_balance p - Deposit.amount d)%Q).
Proof.
  intros Hp (HP & _) Hq. rewrite HP.
  destruct (decide (u = Deposit.user d)) as [->|Hne].
  - rewrite lookup_insert_eq. intros [= <-]. right. split; [congruence|done].
  - rewrite lookup_insert_ne by done. left. congruence.
Qed.

(** One deposit of the pass. *)
Lemma expire_deposit_reaped d db :
  fk_ok db ->
  fk_ok (store (expire_deposit d db)) /\ reaped db (store (expire_deposit d db)).
Proof.
  intros Hfk.
  destruct (expire_deposit_cases d db Hfk)
    as [[_ ->]|[(p & _ & _ & ->)|(p & db' & Hp & _ & -> & H)]]; simpl.
  - split; [done|apply reaped_refl].
  - split; [done|apply reaped_refl].
  - split; [by eapply debited_to_fk_ok|by eapply debited_to_reaped].
Qed.

Lemma expire_deposit_locked_le d db :
  fk_ok db -> (0 <= Deposit.amount d)%Q ->
  locked_le db (store (expire_deposit d db)).
Proof.
  intros Hfk Hnn u q q' Hq.
  destruct (expire_deposit_cases d db Hfk)
    as [[_ ->]|[(p & _ & _ & ->)|(p & db' & Hp & _ & -> & H)]]; simpl.
  - rewrite Hq. intros [= <-]. apply Qle_refl.
  - rewrite Hq. intros [= <-]. apply Qle_refl.
  - intros Hq'. destruct (debited_to_locked _ _ _ _ _ _ _ Hp H Hq Hq') as [->|[-> ->]].
    + apply Qle_refl.
    + lra.
Qed.

Lemma expire_deposit_locked_nonneg d db :
  fk_ok db -> locked_nonneg_kept db (store (expire_deposit d db)).
Proof.
  intros Hfk u q q' Hq.
  destruct (expire_deposit_cases d db Hfk)
    as [[_ ->]|[(p & _ & _ & ->)|(p & db' & Hp & Hle & -> & H)]]; simpl.
  - rewrite Hq. by intros [= <-].
  - rewrite Hq. by intros [= <-].
  - intros Hq' Hnn. destruct (debited_to_locked _ _ _ _ _ _ _ Hp H Hq Hq') as [->|[-> ->]].
    + done.
    + lra.
Qed.

(** ** [process_expired_deposits]: the pass *)

Lemma locked_le_trans db1 db2 db3 :
  reaped db1 db2 -> locked_le db1 db2 -> locked_le db2 db3 -> locked_le db1 db3.
Proof.
  intros (_ & Hdom & _) H12 H23 u p p3 Hp Hp3.
  destruct (proj2 (Hdom u) (mk_is_Some _ _ Hp)) as [p2 Hp2].
  eapply Qle_trans; [by eapply H23|by eapply H12].
Qed.

Lemma locked_nonneg_kept_trans db1 db2 db3 :
  reaped db1 db2 -> locked_nonneg_kept db1 db2 -> locked_nonneg_kept db2 db3 ->
  locked_nonneg_kept db1 db3.
Proof.
  intros (_ & Hdom & _) H12 H23 u p p3 Hp Hp3 Hnn.
  destruct (proj2 (Hdom u) (mk_is_Some _ _ Hp)) as [p2 Hp2].
  eapply H23; [done..|]. by eapply H12.
Qed.

Lemma reaper_loop_reaped l db :
  fk_ok db ->
  fk_ok (store (for_each l expire_deposit db)) /\
  reaped db (store (for_each l expire_deposit db)) /\
  locked_nonneg_kept db (store (for_each l expire_deposit db)).
Proof.
  intros Hfk.
  apply (for_each_invariant
           (fun s => fk_ok s /\ reaped db s /\ locked_nonneg_kept db s)).
  - intros d s _ (Hs & Hr & Hn).
    destruct (expire_deposit_reaped d s Hs) as [Hs' Hr'].
    split; [done|]. split; [by eapply reaped_trans|].
    eapply locked_nonneg_kept_trans; [done..|]. by apply expire_deposit_locked_nonneg.
  - split; [done|]. split; [apply reaped_refl|]. intros u p p' Hp. rewrite Hp. by intros [= <-].
Qed.

Lemma reaper_loop_locked_le l db :
  fk_ok db -> (forall d, d ∈ l -> (0 <= Deposit.amount d)%Q) ->
  locked_le db (store (for_each l expire_deposit db)).
Proof.
  intros Hfk Hnn.
  cut (fk_ok (store (for_each l expire_deposit db)) /\
       reaped db (store (for_each l expire_deposit db)) /\
       locked_le db (store (for_each l expire_deposit db))); [tauto|].
  apply (for_each_invariant (fun s => fk_ok s /\ reaped db s /\ locked_le db s)).
  - intros d s Hd (Hs & Hr & Hle).
    destruct (expire_deposit_reaped d s Hs) as [Hs' Hr'].
    split; [done|]. split; [by eapply reaped_trans|].
    eapply locked_le_trans; [done..|]. apply expire_deposit_locked_le; auto.
  - split; [done|]. split; [apply reaped_refl|].
    intros u p p' Hp. rewrite Hp. intros [= <-]. apply Qle_refl.
Qed.

Lemma stuck_kept db db' d :
  reaped db db' -> locked_le db db' -> stuck db d -> stuck db' d.
Proof.
  intros (_ & Hdom & _) Hle (p & Hp & Hlt).
  destruct (proj2 (Hdom (Deposit.user d)) (mk_is_Some _ _ Hp)) as [p' Hp'].
  exists p'. split; [done|]. eapply Qle_lt_trans; [by eapply Hle|done].
Qed.

Lemma expired_by_id_kept db db' i :
  reaped db db' -> expired_by_id db i -> expired_by_id db' i.
Proof.
  intros (_ & _ & Hrow) Hex r' Hr' Hid.
  destruct (Hrow r' Hr') as (r & Hr & [->| ->]); [by apply Hex|done].
Qed.

(** After a pass that returns, each deposit it visited is either expired
    or cannot be debited. *)
Lemma reaper_loop_settles l : forall db db1,
  fk_ok db -> (forall d, d ∈ l -> (0 <= Deposit.amount d)%Q) ->
  for_each l expire_deposit db = Ok () db1 ->
  forall d, d ∈ l -> stuck db1 d \/ expired_by_id db1 (Deposit.id d).
Proof.
  induction l as [|x l IH]; intros db db1 Hfk Hnn Hrun d Hd.
  { by apply elem_of_nil in Hd. }
  rewrite for_each_cons in Hrun.
  assert (forall d, d ∈ l -> (0 <= Deposit.amount d)%Q) as Hnn'.
  { intros y Hy. apply Hnn. by right. }
  destruct (expire_deposit_cases x db Hfk)
    as [[_ Hx]|[(p & Hp & Hlt & Hx)|(p & db' & Hp & _ & Hx & H)]];
    rewrite Hx in Hrun; [done| |].
  - apply elem_of_cons in Hd as [->|Hd]; [|by eapply IH].
    left. pose proof (reaper_loop_reaped l db Hfk) as (_ & Hr & _).
    pose proof (reaper_loop_locked_le l db Hfk Hnn') as Hle.
    rewrite Hrun in Hr, Hle. simpl in Hr, Hle.
    eapply stuck_kept; [done..|]. by exists p.
  - assert (fk_ok db') as Hfk' by by eapply debited_to_fk_ok.
    apply elem_of_cons in Hd as [->|Hd]; [|by eapply IH].
    right. pose proof (reaper_loop_reaped l db' Hfk') as (_ & Hr & _).
    rewrite Hrun in Hr. simpl in Hr.
    eapply expired_by_id_kept; [done|]. by eapply debited_to_expired.
Qed.

Lemma reaper_loop_total l : forall db,
  fk_ok db -> (forall d, d ∈ l -> is_Some (Profile_objects db !! Deposit.user d)) ->
  exists db1, for_each l expire_deposit db = Ok () db1.
Proof.
  induction l as [|x l IH]; intros db Hfk Hprof; [by exists db|].
  rewrite for_each_cons.
  destruct (expire_deposit_reaped x db Hfk) as [Hfk' (_ & Hdom & _)].
  destruct (expire_deposit_cases x db Hfk)
    as [[Hx _]|[(p & Hp & Hlt & Hx)|(p & db' & Hp & _ & Hx & H)]].
  - destruct (Hprof x) as [p Hp]; [left|]. congruence.
  - rewrite Hx. apply IH; [done|]. intros d Hd. apply Hprof. by right.
  - rewrite Hx in *. simpl in *. apply IH; [done|].
    intros d Hd. apply Hdom, Hprof. by right.
Qed.

Lemma process_expired_deposits_unfold now db :
  process_expired_deposits now db = for_each (expired_deposits now db) expire_deposit db.
Proof. reflexivity. Qed.

Lemma expired_filter_true now d :
  expired_filter now d = true <->
  Deposit.status d = Deposit.approved /\
  exists e, Deposit.expires_at d = Some e /\ e <= now.
Proof.
  unfold expired_filter. rewrite andb_true_iff. split.
  - intros [Hs He]. split; [by destruct (Deposit.status d)|].
    destruct (Deposit.expires_at d) as [e|]; [|done]. exists e. split; [done|lia].
  - intros [-> (e & -> & He)]. split; [done|lia].
Qed.

Lemma elem_of_expired_deposits now db d :
  d ∈ expired_deposits now db <->
  d ∈ Deposit_objects db /\ expired_filter now d = true.
Proof.
  unfold expired_deposits. rewrite elem_of_order_by.
  rewrite list_elem_of_In, filter_In, <- list_elem_of_In. done.
Qed.

(** A deposit without [approved_at] sorts first; the others ascend. *)
Lemma by_approved_at_total a b :
  by_approved_at a b = false -> by_approved_at b a = true.
Proof.
  unfold by_approved_at.
  destruct (Deposit.approved_at a), (Deposit.approved_at b); try done. lia.
Qed.

Lemma by_approved_at_trans a b c :
  by_approved_at a b = true -> by_approved_at b c = true -> by_approved_at a c = true.
Proof.
  unfold by_approved_at.
  destruct (Deposit.approved_at a), (Deposit.approved_at b), (Deposit.approved_at c);
    try done. lia.
Qed.

(** C3, as stated, fails where the locked balance is below the amount: the
    deposit of 100 of an account that holds 50 is left approved and the
    balance is left alone, but nothing is reported: the pass returns
    normally and the store, notifications included, is the store it
    started from. *)
Lemma reaper_skip_not_reported_counterexample :
  expired_deposits 20 db_locked_50 = [deposit_100] /\
  Profile_objects db_locked_50 !! Deposit.user deposit_100
    = Some (mk_profile (Some 1%positive) 50%Q 0%Q) /\
  (Profile.locked_balance (mk_profile (Some 1%positive) 50%Q 0%Q)
   < Deposit.amount deposit_100)%Q /\
  process_expired_deposits 20 db_locked_50 = Ok () db_locked_50 /\
  Notification_objects (store (process_expired_deposits 20 db_locked_50)) = [].
Proof.
  split; [reflexivity|]. split; [reflexivity|]. split; [reflexivity|].
  split; by vm_compute.
Qed.

(** C3 (amended): a pass of the expiry reaper visits exactly the approved
    deposits with [expires_at <= now], oldest approval first. At each, if
    the owner's locked balance is at least the amount, it debits the
    locked balance by exactly the amount, sets the status to expired,
    stores the recomputed rank, and appends a demotion notification if and
    only if the recomputed rank differs from the rank before; if the
    locked balance is below the amount, the deposit stays approved, the
    store is left as it is and nothing is emitted. A locked balance that
    was not negative is not negative after the pass. *)
Theorem reaper_debits_or_skips (now : Z) (db : DB) :
  fk_ok db ->
  process_expired_deposits now db
    = for_each (expired_deposits now db) expire_deposit db /\
  (forall d, d ∈ expired_deposits now db <->
     d ∈ Deposit_objects db /\ Deposit.status d = Deposit.approved /\
     exists e, Deposit.expires_at d = Some e /\ e <= now) /\
  StronglySorted (fun a b => by_approved_at a b = true) (expired_deposits now db) /\
  (forall s d p,
     fk_ok s -> Profile_objects s !! Deposit.user d = Some p ->
     ((Deposit.amount d <= Profile.locked_balance p)%Q ->
      exists s',
        expire_deposit d s = Ok () s' /\
        Profile_objects s' !! Deposit.user d
          = Some (Profile.set_rank (Rank.id <$> get_rank (Rank_objects s) (debit d p))
                    (debit d p)) /\
        (forall u, u <> Deposit.user d ->
                   Profile_objects s' !! u = Profile_objects s !! u) /\
        Deposit_objects s'
          = update_row Deposit.id (Deposit.id d) (Deposit.set_status Deposit.expired)
              (Deposit_objects s) /\
        (Profile.rank p = Rank.id <$> get_rank (Rank_objects s) (debit d p) ->
         Notification_objects s' = Notification_objects s) /\
        (Profile.rank p <> Rank.id <$> get_rank (Rank_objects s) (debit d p) ->
         Notification_objects s'
           = Notification_objects s ++
             [ {| Notification.user := Deposit.user d;
                  Notification.message :=
                    demotion_message (loaded_rank (Rank_objects s) p)
                      (get_rank (Rank_objects s) (debit d p)) |} ])) /\
     ((Profile.locked_balance p < Deposit.amount d)%Q ->
      expire_deposit d s = Ok () s)) /\
  locked_nonneg_kept db (store (process_expired_deposits now db)).
Proof.
  intros Hfk. split; [reflexivity|]. split; [|split; [|split]].
  - intros d. rewrite elem_of_expired_deposits, expired_filter_true. tauto.
  - apply order_by_sorted; [apply by_approved_at_total|apply by_approved_at_trans].
  - intros s d p Hs Hp. split; [|by apply expire_deposit_skip].
    intros Hle.
    destruct (expire_deposit_debit d s p Hp (Hs _ _ Hp) Hle)
      as (s' & Hrun & HP & HD & HN & _).
    exists s'. split; [done|]. rewrite HP, HN. unfold demotion.
    split; [by rewrite lookup_insert_eq|].
    split; [by intros u Hu; rewrite lookup_insert_ne|]. split; [done|].
    split; intros Hrank.
    + by rewrite decide_True, app_nil_r.
    + by rewrite decide_False.
  - rewrite process_expired_deposits_unfold. by apply reaper_loop_reaped.
Qed.

Lemma reaper_debits_or_skips_witness :
  exists s',
    expire_deposit deposit_100 db_locked_150 = Ok () s' /\
    Profile_objects s' !! 1%positive
      = Some (mk_profile (Some 1%positive) (150 - 100)%Q 0%Q) /\
    Deposit.status <$> Deposit_objects s' = [Deposit.expired] /\
    Notification.message <$> Notification_objects s'
      = ["Your rank has been demoted from Silver to Bronze due to expired deposit."].
Proof.
  assert (fk_ok db_locked_150) as Hfk by (apply (bool_decide_unpack _); by vm_compute).
  destruct (reaper_debits_or_skips 20 db_locked_150 Hfk) as (_ & _ & _ & Hvisit & _).
  destruct (proj1 (Hvisit db_locked_150 deposit_100
                     (mk_profile (Some 2%positive) 150%Q 0%Q) Hfk eq_refl))
    as (s' & Hrun & HP & _ & HD & _ & HN).
  { by vm_compute. }
  exists s'. split; [exact Hrun|]. split; [exact HP|]. split.
  - rewrite HD. reflexivity.
  - rewrite HN; [reflexivity|]. by vm_compute.
Defined.

(** C9, as stated, fails on a state with a due deposit of negative
    amount: on a locked balance of 50 with due deposits of 100 and of -60,
    a first pass skips the deposit of 100 and takes -60 off (balance 110,
    the first deposit still approved); a second pass at the same instant
    now debits the deposit of 100 (balance 10, both deposits expired). *)
Lemma reaper_not_idempotent_counterexample :
  fk_ok db_negative /\
  exists db1 db2,
    process_expired_deposits 20 db_negative = Ok () db1 /\
    process_expired_deposits 20 db1 = Ok () db2 /\
    process_expired_deposits 20 db1 <> Ok () db1 /\
    match Profile_objects db1 !! 1%positive, Profile_objects db2 !! 1%positive with
    | Some p1, Some p2 =>
        (Profile.locked_balance p1 == 110)%Q /\ (Profile.locked_balance p2 == 10)%Q
    | _, _ => False
    end /\
    Deposit.status <$> Deposit_objects db1 = [Deposit.approved; Deposit.expired] /\
    Deposit.status <$> Deposit_objects db2 = [Deposit.expired; Deposit.expired].
Proof.
  split; [apply (bool_decide_unpack _); by vm_compute|].
  exists (store (process_expired_deposits 20 db_negative)),
    (store (process_expired_deposits 20 (store (process_expired_deposits 20 db_negative)))).
  split; [vm_compute; reflexivity|]. split; [vm_compute; reflexivity|].
  split.
  - intros E.
    assert (Deposit.status <$> Deposit_objects
              (store (process_expired_deposits 20
                        (store (process_expired_deposits 20 db_negative))))
            = Deposit.status <$> Deposit_objects
                (store (process_expired_deposits 20 db_negative))) as H
      by (by rewrite E).
    vm_compute in H. discriminate H.
  - split; [by vm_compute|]. split; vm_compute; reflexivity.
Qed.

(** C9 (amended): the expiry reaper is idempotent on the states whose
    due deposits have amounts that are not negative. On every store whose
    rank references resolve and whose approved deposits due at [now] have
    amounts that are not negative, a pass that returns leaves a store on
    which a second pass at the same instant returns and changes nothing;
    and the pass does return when each of those deposits belongs to a user
    with a profile. *)
Theorem reaper_idempotent (now : Z) (db : DB) :
  fk_ok db ->
  (forall d, d ∈ expired_deposits now db -> (0 <= Deposit.amount d)%Q) ->
  (forall db1, process_expired_deposits now db = Ok () db1 ->
               process_expired_deposits now db1 = Ok () db1) /\
  ((forall d, d ∈ expired_deposits now db ->
              is_Some (Profile_objects db !! Deposit.user d)) ->
   exists db1, process_expired_deposits now db = Ok () db1).
Proof.
  intros Hfk Hnn. split; [|by apply reaper_loop_total].
  intros db1 Hrun. rewrite process_expired_deposits_unfold in *.
  pose proof (reaper_loop_reaped (expired_deposits now db) db Hfk) as (_ & Hr & _).
  rewrite Hrun in Hr. simpl in Hr.
  apply for_each_noop. intros d Hd.
  apply elem_of_expired_deposits in Hd as [Hd Hf].
  assert (Deposit.status d = Deposit.approved) as Hst.
  { by apply expired_filter_true in Hf as [? _]. }
  destruct Hr as (_ & _ & Hrow).
  destruct (Hrow d Hd) as (r & Hr0 & [->|Hexp]);
    [|by rewrite Hexp in Hst].
  assert (r ∈ expired_deposits now db) as Hin by by apply elem_of_expired_deposits.
  destruct (reaper_loop_settles _ _ _ Hfk Hnn Hrun r Hin) as [(p & Hp & Hlt)|Hex].
  - by eapply expire_deposit_skip.
  - specialize (Hex r Hd eq_refl). congruence.
Qed.

Lemma reaper_idempotent_witness :
  exists db1,
    process_expired_deposits 20 db_locked_150 = Ok () db1 /\
    process_expired_deposits 20 db1 = Ok () db1.
Proof.
  assert (fk_ok db_locked_150) as Hfk by (apply (bool_decide_unpack _); by vm_compute).
  assert (forall d, d ∈ expired_deposits 20 db_locked_150 -> (0 <= Deposit.amount d)%Q)
    as Hnn.
  { intros d Hd. apply list_elem_of_singleton in Hd as ->. by vm_compute. }
  destruct (reaper_idempotent 20 db_locked_150 Hfk Hnn) as [Hidem Htotal].
  destruct Htotal as [db1 Hrun].
  { intros d Hd. apply list_elem_of_singleton in Hd as ->. by eexists. }
  exists db1. split; [exact Hrun|]. by apply Hidem.
Defined.

(** ** [admin_deposit_approve_view] *)

Lemma get_rank_set_rank ranks v p :
  get_rank ranks (Profile.set_rank v p) = get_rank ranks p.
Proof. done. Qed.

Lemma with_rank_consistent ranks p :
  Profile.rank (with_rank ranks p) = Rank.id <$> get_rank ranks (with_rank ranks p).
Proof. done. Qed.

Lemma referral_bonus_none d db :
  Deposit.referrer d = None \/ Deposit.referrer d = Some (Deposit.user d) ->
  referral_bonus d db = Ok () db.
Proof.
  intros [H|H]; unfold referral_bonus; rewrite H; [done|].
  by rewrite Pos.eqb_refl.
Qed.

Lemma referral_bonus_no_profile d db rid :
  Deposit.referrer d = Some rid -> Profile_objects db !! rid = None ->
  referral_bonus d db = Ok () db.
Proof.
  intros H Hp. unfold referral_bonus. rewrite H.
  destruct (Pos.eqb rid (Deposit.user d)); [done|]. simpl. munfold. by rewrite Hp.
Qed.

Lemma referral_bonus_credit d db rid pr :
  Deposit.referrer d = Some rid -> rid <> Deposit.user d ->
  Profile_objects db !! rid = Some pr ->
  fk_resolves (Rank_objects db) pr ->
  referral_bonus d db =
  Ok () (upd_Profile_objects
           (insert rid (referral_stored (Rank_objects db)
                          (Deposit.amount d * REFERRAL_PCT)%Q pr))
           (upd_Referral_objects (fun rows => rows ++ [referral_of d rid]) db)).
Proof.
  intros H Hne Hp Hfk. unfold referral_bonus. rewrite H.
  apply Pos.eqb_neq in Hne. rewrite Hne. simpl. munfold. rewrite Hp.
  unfold Profile_save, Referral_create. munfold. simpl.
  fold (referral_credit (Deposit.amount d * REFERRAL_PCT)%Q pr).
  fold (referral_of d rid).
  rewrite update_rank_row
    with (p := referral_credit (Deposit.amount d * REFERRAL_PCT)%Q pr)
         (row := Profile_stored (referral_credit (Deposit.amount d * REFERRAL_PCT)%Q pr));
    [|simpl; by rewrite lookup_insert_eq|done|exact Hfk].
  simpl. unfold referral_stored, upd_Profile_objects. simpl. f_equal. f_equal.
  by rewrite insert_insert_eq.
Qed.

Lemma referral_bonus_ok d db :
  fk_ok db ->
  exists db',
    referral_bonus d db = Ok () db' /\
    Rank_objects db' = Rank_objects db /\
    Deposit_objects db' = Deposit_objects db /\
    fk_ok db' /\
    Profile_objects db' !! Deposit.user d = Profile_objects db !! Deposit.user d /\
    (((Deposit.referrer d = None \/ Deposit.referrer d = Some (Deposit.user d) \/
       exists rid, Deposit.referrer d = Some rid /\ Profile_objects db !! rid = None) /\
      db' = db) \/
     (exists rid pr,
        Deposit.referrer d = Some rid /\ rid <> Deposit.user d /\
        Profile_objects db !! rid = Some pr /\
        db' = upd_Profile_objects
                (insert rid (referral_stored (Rank_objects db)
                               (Deposit.amount d * REFERRAL_PCT)%Q pr))
                (upd_Referral_objects (fun rows => rows ++ [referral_of d rid]) db))).
Proof.
  intros Hfk. destruct (Deposit.referrer d) as [rid|] eqn:Href.
  - destruct (decide (rid = Deposit.user d)) as [->|Hne].
    + exists db. rewrite referral_bonus_none by auto. repeat split; auto.
    + destruct (Profile_objects db !! rid) as [pr|] eqn:Hpr.
      * eexists. rewrite (referral_bonus_credit d db rid pr Href Hne Hpr (Hfk _ _ Hpr)).
        split; [done|]. simpl. split; [done|]. split; [done|]. split; [|split].
        -- intros u q. simpl. destruct (decide (u = rid)) as [->|Hu].
           ++ rewrite lookup_insert_eq. intros [= <-]. apply fk_resolves_get_rank.
           ++ rewrite lookup_insert_ne by done. apply Hfk.
        -- by rewrite lookup_insert_ne.
        -- right. by exists rid, pr.
      * exists db. rewrite (referral_bonus_no_profile d db rid Href Hpr).
        repeat split; auto. left. split; [|done]. right. right. by exists rid.
  - exists db. rewrite referral_bonus_none by auto. repeat split; auto.
Qed.

Lemma find_deposit_crypto pk db d :
  get_row Deposit.id pk (Deposit_objects db) = Some d ->
  find_deposit pk db = Ok (crypto d) db.
Proof. intros H. unfold find_deposit. by rewrite H. Qed.

(** The approval of a pending crypto deposit whose owner has a profile. *)
Lemma approve_crypto pk now db d po :
  fk_ok db ->
  get_row Deposit.id pk (Deposit_objects db) = Some d ->
  Deposit.status d = Deposit.pending ->
  Profile_objects db !! Deposit.user d = Some po ->
  admin_deposit_approve_view pk now db =
  Ok (Flash success "Crypto deposit {d.amount} approved." (Some (Deposit.amount d)))
     (upd_Profile_objects
        (insert (Deposit.user d)
           (with_rank (Rank_objects db) (credit (Deposit.amount d) po)))
        (store (referral_bonus (approval now d) (approval_saved now d db)))).
Proof.
  intros Hfk Hd Hst Hpo. unfold admin_deposit_approve_view. munfold.
  rewrite (find_deposit_crypto _ _ _ Hd), Hst. simpl.
  unfold get_profile_or_404. rewrite Hpo.
  unfold Deposit_save_approval. munfold.
  assert (fk_ok (approval_saved now d db)) as Hfk' by exact Hfk.
  destruct (referral_bonus_ok (approval now d) (approval_saved now d db) Hfk')
    as (db' & Hrb & HR & _ & Hfk'' & Hown & _).
  simpl in Hown, HR. simpl.
  match goal with
  | |- context [referral_bonus ?x ?s] =>
      change (referral_bonus x s)
        with (referral_bonus (approval now d) (approval_saved now d db))
  end.
  rewrite Hrb. simpl.
  unfold Profile_save_locked_balance. munfold.
  change (Deposit.user (approval now d)) with (Deposit.user d) in *.
  rewrite Hpo in Hown.
  rewrite (upd_Profile_objects_alter _ _ _ _ Hown). simpl.
  fold (credit (Deposit.amount d) po).
  rewrite update_rank_ok with (p := credit (Deposit.amount d) po);
    [|simpl; by rewrite lookup_insert_eq|].
  - simpl. unfold with_rank, upd_Profile_objects. simpl. rewrite HR.
    f_equal. f_equal. by rewrite insert_insert_eq.
  - simpl. rewrite HR. exact (Hfk _ _ Hpo).
Qed.

(** The owner of an approved crypto deposit: the locked balance grows by
    the amount and the stored rank is the recomputed one. *)
Lemma approval_credits_owner pk now db d po :
  fk_ok db ->
  get_row Deposit.id pk (Deposit_objects db) = Some d ->
  Deposit.status d = Deposit.pending ->
  Profile_objects db !! Deposit.user d = Some po ->
  exists f db' po',
    admin_deposit_approve_view pk now db = Ok f db' /\
    Profile_objects db' !! Deposit.user d = Some po' /\
    Profile.locked_balance po' = (Profile.locked_balance po + Deposit.amount d)%Q /\
    Profile.withdrawable_balance po' = Profile.withdrawable_balance po /\
    Profile.rank po' = Rank.id <$> get_rank (Rank_objects db') po'.
Proof.
  intros Hfk Hd Hst Hpo.
  destruct (referral_bonus_ok (approval now d) (approval_saved now d db) Hfk)
    as (db' & Hrb & HR & _).
  eexists _, _, _.
  split; [by apply approve_crypto|]. rewrite Hrb. simpl.
  split; [by rewrite lookup_insert_eq|]. split; [done|]. split; [done|].
  by rewrite HR.
Qed.

(** C4, as stated, fails on a deposit of 10.01 referred by another
    account: the bonus computed is 10.01 * 0.08 = 0.8008, and the locked
    balance, the referral earnings and the [Referral] record of the
    referrer hold 0.80, the columns having two decimals. *)
Lemma approval_exact_bonus_counterexample :
  exists f db' pr' rec,
    admin_deposit_approve_view 1 20 db_referred_1001 = Ok f db' /\
    Profile_objects db' !! 2%positive = Some pr' /\
    Referral_objects db' = [rec] /\
    (Deposit.amount deposit_1001 * REFERRAL_PCT == 0.8008)%Q /\
    (Profile.locked_balance pr' == 0.80)%Q /\
    ~ (Profile.locked_balance pr' == 0 + Deposit.amount deposit_1001 * REFERRAL_PCT)%Q /\
    ~ (Referral.bonus_amount rec == Deposit.amount deposit_1001 * REFERRAL_PCT)%Q.
Proof.
  assert (fk_ok db_referred_1001) as Hfk by (apply (bool_decide_unpack _); by vm_compute).
  destruct (referral_bonus_ok (approval 20 deposit_1001)
              (approval_saved 20 deposit_1001 db_referred_1001) Hfk)
    as (db' & Hrb & _ & _ & _ & _ & Hcases).
  eexists _, _, _, _.
  split; [exact (approve_crypto 1 20 db_referred_1001 deposit_1001
                   (mk_profile None 0%Q 0%Q) Hfk eq_refl eq_refl eq_refl)|].
  rewrite Hrb.
  destruct Hcases as [[[H|[H|(rid & H & Hnone)]] _]|(rid & pr & H & _ & Hpr & ->)];
    try discriminate H.
  - injection H as <-. discriminate Hnone.
  - injection H as <-. injection Hpr as <-. simpl.
    split; [reflexivity|]. split; [reflexivity|].
    split; [by vm_compute|]. split; [by vm_compute|].
    split; intros E; by vm_compute in E.
Qed.

(** C4 (amended): the approval of a pending deposit whose referrer is
    set, differs from the owner and has an account adds the bonus
    [amount * REFERRAL_PCT] (0.08) to the referrer's locked balance and
    referral earnings, each sum being stored quantised to two decimals:
    the stored locked balance is within half a cent of the exact sum, and
    is the exact sum when the referrer's balance and the bonus are whole
    numbers of cents. It adds one to both referral counters, appends
    exactly one [Referral] record for the deposit, holding the bonus
    quantised, and leaves the referrer with the rank recomputed on the
    sums before they are quantised; when the referrer is absent or is the
    owner, no [Referral] record is created and no account other than the
    owner's changes. *)
Theorem approval_credits_referrer (pk : positive) (now : Z) (db : DB)
    (d : Deposit.t) (po : Profile.t) :
  fk_ok db ->
  get_row Deposit.id pk (Deposit_objects db) = Some d ->
  Deposit.status d = Deposit.pending ->
  Profile_objects db !! Deposit.user d = Some po ->
  exists f db',
    admin_deposit_approve_view pk now db = Ok f db' /\
    (forall rid pr,
       Deposit.referrer d = Some rid -> rid <> Deposit.user d ->
       Profile_objects db !! rid = Some pr ->
       let bonus := (Deposit.amount d * REFERRAL_PCT)%Q in
       (exists pr',
          Profile_objects db' !! rid = Some pr' /\
          Profile.locked_balance pr' = quantize (Profile.locked_balance pr + bonus)%Q /\
          (Profile.locked_balance pr' - (1 # 200) <= Profile.locked_balance pr + bonus)%Q /\
          (Profile.locked_balance pr + bonus <= Profile.locked_balance pr' + (1 # 200))%Q /\
          (is_cents (Profile.locked_balance pr) -> is_cents bonus ->
           (Profile.locked_balance pr' == Profile.locked_balance pr + bonus)%Q) /\
          Profile.withdrawable_balance pr' = quantize (Profile.withdrawable_balance pr) /\
          Profile.total_referrals pr' = Profile.total_referrals pr + 1 /\
          Profile.valid_referrals pr' = Profile.valid_referrals pr + 1 /\
          Profile.referral_earnings pr' = quantize (Profile.referral_earnings pr + bonus)%Q /\
          Profile.rank pr'
          = Rank.id <$> get_rank (Rank_objects db') (referral_credit bonus pr)) /\
       Referral_objects db'
         = Referral_objects db ++
           [ {| Referral.referrer := rid; Referral.referee := Deposit.user d;
                Referral.bonus_amount := quantize bonus;
                Referral.deposit := Some (Deposit.id d) |} ]) /\
    (Deposit.referrer d = None \/ Deposit.referrer d = Some (Deposit.user d) ->
     Referral_objects db' = Referral_objects db /\
     forall u, u <> Deposit.user d ->
               Profile_objects db' !! u = Profile_objects db !! u) /\
    REFERRAL_PCT = 0.08%Q.
Proof.
  intros Hfk Hd Hst Hpo.
  destruct (referral_bonus_ok (approval now d) (approval_saved now d db) Hfk)
    as (db' & Hrb & HR & _ & _ & _ & Hcases).
  eexists _, _.
  split; [by apply approve_crypto|]. rewrite Hrb.
  simpl in *. split; [|split; [|done]].
  - intros rid pr Href Hne Hpr.
    destruct Hcases as [[[H|[H|(rid' & H & Hnone)]] _]|(rid' & pr' & H & _ & Hpr' & ->)];
      try congruence.
    assert (rid' = rid) as -> by congruence.
    assert (pr' = pr) as -> by congruence.
    simpl. split; [|done].
    eexists. rewrite lookup_insert_ne by done. rewrite lookup_insert_eq.
    split; [done|]. simpl. split; [done|].
    destruct (quantize_near (Profile.locked_balance pr + Deposit.amount d * REFERRAL_PCT)%Q)
      as [Hlo Hhi].
    split; [exact Hlo|]. split; [exact Hhi|]. split; [|done].
    intros Hc Hb. apply quantize_cents. by apply is_cents_plus.
  - intros Hnone.
    destruct Hcases as [[_ ->]|(rid' & pr' & H & Hne & _)].
    + simpl. split; [done|]. intros u Hu. by rewrite lookup_insert_ne.
    + destruct Hnone; congruence.
Qed.

Lemma approval_credits_referrer_witness :
  exists f db' pr',
    admin_deposit_approve_view 1 20 db_referred = Ok f db' /\
    Profile_objects db' !! 2%positive = Some pr' /\
    (Profile.locked_balance pr' == 0 + 50 * REFERRAL_PCT)%Q /\
    Profile.rank pr'
    = Rank.id <$> get_rank (Rank_objects db')
                    (referral_credit (50 * REFERRAL_PCT)%Q (mk_profile None 0%Q 0%Q)) /\
    length (Referral_objects db') = 1%nat.
Proof.
  assert (fk_ok db_referred) as Hfk by (apply (bool_decide_unpack _); by vm_compute).
  destruct (approval_credits_referrer 1 20 db_referred deposit_referred
              (mk_profile None 0%Q 0%Q) Hfk eq_refl eq_refl eq_refl)
    as (f & db' & Hrun & Href & _).
  destruct (Href 2%positive (mk_profile None 0%Q 0%Q) eq_refl ltac:(done) eq_refl)
    as [(pr' & Hpr' & Hlocked & _ & _ & _ & _ & _ & _ & _ & Hrank) Hrec].
  exists f, db', pr'. split; [exact Hrun|]. split; [exact Hpr'|].
  split; [rewrite Hlocked; by vm_compute|]. split; [exact Hrank|by rewrite Hrec].
Defined.

(** ** [referral_view]: promo redemption *)

Lemma find_promo_unfold code db :
  find_promo code db
  = head (order_by by_promo_id (List.filter (promo_matches code) (PromoCode_objects db))).
Proof. reflexivity. Qed.

Lemma promo_matches_true code c :
  promo_matches code c = true <->
  PromoCode.code c = code /\ PromoCode.status c = PromoCode.active.
Proof.
  unfold promo_matches. rewrite andb_true_iff, String.eqb_eq.
  destruct (PromoCode.status c); simpl; split; intros [? ?]; by split.
Qed.

Lemma head_None_nil {A} (l : list A) : head l = None <-> l = [].
Proof. by destruct l. Qed.

Lemma find_promo_None code db :
  find_promo code db = None <->
  forall c, c ∈ PromoCode_objects db ->
            ~ (PromoCode.code c = code /\ PromoCode.status c = PromoCode.active).
Proof.
  rewrite find_promo_unfold, head_None_nil. split.
  - intros Hnil c Hc Hm. apply promo_matches_true in Hm.
    assert (c ∈ order_by by_promo_id
                  (List.filter (promo_matches code) (PromoCode_objects db))) as Hin.
    { apply elem_of_order_by, list_elem_of_In, filter_In.
      split; [by apply list_elem_of_In|done]. }
    rewrite Hnil in Hin. by apply elem_of_nil in Hin.
  - intros Hno.
    destruct (order_by _ _) as [|c l] eqn:E; [done|]. exfalso.
    assert (c ∈ order_by by_promo_id
                  (List.filter (promo_matches code) (PromoCode_objects db))) as Hin.
    { rewrite E. left. }
    apply elem_of_order_by, list_elem_of_In, filter_In in Hin as [Hin Hm].
    apply (Hno c); [by apply list_elem_of_In|by apply promo_matches_true].
Qed.

Lemma find_promo_Some code db promo :
  find_promo code db = Some promo ->
  promo ∈ PromoCode_objects db /\ PromoCode.code promo = code /\
  PromoCode.status promo = PromoCode.active.
Proof.
  rewrite find_promo_unfold. intros H.
  assert (promo ∈ order_by by_promo_id
                    (List.filter (promo_matches code) (PromoCode_objects db))) as Hin.
  { destruct (order_by _ _); [done|]. injection H as ->. left. }
  apply elem_of_order_by, list_elem_of_In, filter_In in Hin as [Hin Hm].
  split; [by apply list_elem_of_In|by apply promo_matches_true].
Qed.

Lemma promo_expired_true promo now :
  promo_expired promo now = true <->
  exists e, PromoCode.expiration promo = Some e /\ e < now.
Proof.
  unfold promo_expired. destruct (PromoCode.expiration promo) as [e|].
  - rewrite Z.ltb_lt. split; [by exists e|by intros (? & [= <-] & ?)].
  - split; [done|by intros (? & ? & _)].
Qed.

Lemma promo_exhausted_true promo :
  promo_exhausted promo = true <->
  exists limit, PromoCode.usage_limit promo = Some limit /\
                limit <= PromoCode.usage_count promo.
Proof.
  unfold promo_exhausted. destruct (PromoCode.usage_limit promo) as [l|].
  - rewrite Z.leb_le. split; [by exists l|by intros (? & [= <-] & ?)].
  - split; [done|by intros (? & ? & _)].
Qed.

Lemma redemption_exists_true uid promo db :
  redemption_exists uid promo db = true <->
  exists x, x ∈ PromoRedemption_objects db /\ PromoRedemption.user x = uid /\
            PromoRedemption.promo_code x = PromoCode.id promo.
Proof.
  unfold redemption_exists. rewrite existsb_exists. split.
  - intros (x & Hx & H). apply andb_true_iff in H as [H1 H2].
    exists x. split; [by apply list_elem_of_In|].
    by split; apply Pos.eqb_eq.
  - intros (x & Hx & <- & H2). exists x. split; [by apply list_elem_of_In|].
    by rewrite H2, !Pos.eqb_refl.
Qed.

(** The five ways through the view for a user with a profile. *)
Lemma referral_view_invalid uid code now r db p :
  Profile_objects db !! uid = Some p -> find_promo code db = None ->
  referral_view uid code now r db = Ok invalid_code db.
Proof.
  intros Hp Hf. unfold referral_view, get_profile_or_404. munfold. by rewrite Hp, Hf.
Qed.

Lemma referral_view_expired uid code now r db p promo :
  Profile_objects db !! uid = Some p -> find_promo code db = Some promo ->
  promo_expired promo now = true ->
  referral_view uid code now r db = Ok code_expired db.
Proof.
  intros Hp Hf He. unfold referral_view, get_profile_or_404. munfold.
  by rewrite Hp, Hf, He.
Qed.

Lemma referral_view_exhausted uid code now r db p promo :
  Profile_objects db !! uid = Some p -> find_promo code db = Some promo ->
  promo_expired promo now = false -> promo_exhausted promo = true ->
  referral_view uid code now r db = Ok usage_exhausted db.
Proof.
  intros Hp Hf He Hx. unfold referral_view, get_profile_or_404. munfold.
  by rewrite Hp, Hf, He, Hx.
Qed.

Lemma referral_view_redeemed uid code now r db p promo :
  Profile_objects db !! uid = Some p -> find_promo code db = Some promo ->
  promo_expired promo now = false -> promo_exhausted promo = false ->
  redemption_exists uid promo db = true ->
  referral_view uid code now r db = Ok already_redeemed db.
Proof.
  intros Hp Hf He Hx Hr. unfold referral_view, get_profile_or_404. munfold.
  by rewrite Hp, Hf, He, Hx, Hr.
Qed.

Lemma referral_view_success uid code now r db p promo :
  fk_ok db ->
  Profile_objects db !! uid = Some p -> find_promo code db = Some promo ->
  promo_expired promo now = false -> promo_exhausted promo = false ->
  redemption_exists uid promo db = false ->
  referral_view uid code now r db =
  Ok (Flash success "Promo redeemed. Bonus ${bonus:.2f} credited (expires in 30 days)."
        (Some (promo_bonus promo r)))
     (redeemed uid promo (promo_bonus promo r) now p db).
Proof.
  intros Hfk Hp Hf He Hx Hr. unfold referral_view, get_profile_or_404. munfold.
  rewrite Hp, Hf, He, Hx, Hr.
  fold (promo_bonus promo r).
  unfold Deposit_create, Profile_save_locked_balance, PromoRedemption_create,
    PromoCode_save_usage_count. munfold. simpl.
  fold (promo_deposit uid (promo_bonus promo r) now db).
  fold (credit (promo_bonus promo r) p).
  fold (redemption_of uid promo (promo_bonus promo r)).
  rewrite update_rank_row with (p := credit (promo_bonus promo r) p)
                               (row := credit_stored (promo_bonus promo r) p).
  - simpl. unfold redeemed, upd_Profile_objects. simpl. f_equal. f_equal.
    by rewrite (alter_alt_Some _ _ _ _ Hp), insert_insert_eq.
  - simpl. rewrite (alter_alt_Some _ _ _ _ Hp). by rewrite lookup_insert_eq.
  - done.
  - exact (Hfk _ _ Hp).
Qed.

(** *** Query sets over rows that an update leaves in place *)

Lemma filter_map_comm {A} (P : A -> bool) (g : A -> A) (l : list A) :
  (forall x, P (g x) = P x) ->
  List.filter P (map g l) = map g (List.filter P l).
Proof.
  intros H. induction l as [|x l IH]; [done|]. simpl.
  rewrite H. destruct (P x); simpl; by rewrite IH.
Qed.

Lemma insert_row_map {A} (leb : A -> A -> bool) (g : A -> A) x l :
  (forall a b, leb (g a) (g b) = leb a b) ->
  insert_row leb (g x) (map g l) = map g (insert_row leb x l).
Proof.
  intros H. induction l as [|y l IH]; [done|]. simpl.
  rewrite H. destruct (leb x y); simpl; [done|]. by rewrite IH.
Qed.

Lemma order_by_map {A} (leb : A -> A -> bool) (g : A -> A) l :
  (forall a b, leb (g a) (g b) = leb a b) ->
  order_by leb (map g l) = map g (order_by leb l).
Proof.
  intros H. induction l as [|x l IH]; [done|]. simpl.
  fold (order_by leb (map g l)). fold (order_by leb l).
  rewrite IH. by apply insert_row_map.
Qed.

Lemma head_map {A B} (g : A -> B) (l : list A) : head (map g l) = g <$> head l.
Proof. by destruct l. Qed.

Lemma find_promo_redeemed uid promo bonus now p db code :
  find_promo code (redeemed uid promo bonus now p db)
  = (fun c => if Pos.eqb (PromoCode.id c) (PromoCode.id promo)
              then count_use promo c else c) <$> find_promo code db.
Proof.
  rewrite !find_promo_unfold. simpl. unfold update_row.
  rewrite filter_map_comm, order_by_map, head_map; [done| |].
  - intros a b. by destruct (Pos.eqb _ _), (Pos.eqb _ _).
  - intros x. by destruct (Pos.eqb _ _).
Qed.

(** A failed redemption leaves the store as it was. *)
Lemma referral_view_failure_unchanged uid code now r db f db' :
  referral_view uid code now r db = Ok f db' ->
  flash_level f = error -> db' = db.
Proof.
  unfold referral_view, get_profile_or_404. munfold.
  destruct (Profile_objects db !! uid) as [p|]; [|done].
  destruct (find_promo code db) as [promo|]; [|by intros [= <- <-]].
  destruct (promo_expired promo now); [by intros [= <- <-]|].
  destruct (promo_exhausted promo); [by intros [= <- <-]|].
  destruct (redemption_exists uid promo db); [by intros [= <- <-]|].
  unfold Deposit_create, Profile_save_locked_balance, PromoRedemption_create,
    PromoCode_save_usage_count. munfold.
  destruct (update_rank _ _ _); [|done]. by intros [= <- <-].
Qed.

(** After a successful redemption the same user cannot redeem the same
    code again. *)
Lemma referral_view_second uid code now r db p promo now' r' :
  Profile_objects db !! uid = Some p -> find_promo code db = Some promo ->
  let db1 := redeemed uid promo (promo_bonus promo r) now p db in
  exists f',
    referral_view uid code now' r' db1 = Ok f' db1 /\
    (f' = code_expired \/ f' = usage_exhausted \/ f' = already_redeemed).
Proof.
  intros Hp Hf db1.
  assert (exists p1, Profile_objects db1 !! uid = Some p1) as [p1 Hp1].
  { eexists. unfold db1. simpl. by rewrite lookup_insert_eq. }
  assert (find_promo code db1 = Some (count_use promo promo)) as Hf1.
  { unfold db1. by rewrite find_promo_redeemed, Hf; simpl; rewrite Pos.eqb_refl. }
  destruct (promo_expired (count_use promo promo) now') eqn:He.
  { exists code_expired. split; [by eapply referral_view_expired|auto]. }
  destruct (promo_exhausted (count_use promo promo)) eqn:Hx.
  { exists usage_exhausted. split; [by eapply referral_view_exhausted|auto]. }
  exists already_redeemed. split; [|auto].
  eapply referral_view_redeemed; [done..|].
  apply redemption_exists_true. exists (redemption_of uid promo (promo_bonus promo r)).
  split; [|done]. unfold db1. simpl. set_solver.
Qed.

(** C5: for an account, redemption of a code fails with "Invalid or
    expired promo code." (InvalidCode) if no active promo has the code;
    otherwise, for the active promo of that code, with "Promo code
    expired." (Expired) if its expiration is past, else with "Usage limit
    reached." (ExhaustedUsage) if its usage count has reached its limit,
    else with "Already redeemed." (AlreadyRedeemed) if a redemption record
    of the account and the promo exists; after a successful redemption a
    second one of the same code by the same account fails; and every
    failure leaves the whole store (balances, deposits, redemptions and
    usage counts) as it was. *)
Theorem redemption_failures (uid : positive) (code : string) (now : Z) (r : Q)
    (db : DB) (p : Profile.t) :
  Profile_objects db !! uid = Some p ->
  ((forall c, c ∈ PromoCode_objects db ->
      ~ (PromoCode.code c = code /\ PromoCode.status c = PromoCode.active)) ->
   referral_view uid code now r db = Ok invalid_code db) /\
  (forall promo,
     find_promo code db = Some promo ->
     (promo ∈ PromoCode_objects db /\ PromoCode.code promo = code /\
      PromoCode.status promo = PromoCode.active) /\
     ((exists e, PromoCode.expiration promo = Some e /\ e < now) ->
      referral_view uid code now r db = Ok code_expired db) /\
     (~ (exists e, PromoCode.expiration promo = Some e /\ e < now) ->
      (exists limit, PromoCode.usage_limit promo = Some limit /\
                     limit <= PromoCode.usage_count promo) ->
      referral_view uid code now r db = Ok usage_exhausted db) /\
     (~ (exists e, PromoCode.expiration promo = Some e /\ e < now) ->
      ~ (exists limit, PromoCode.usage_limit promo = Some limit /\
                       limit <= PromoCode.usage_count promo) ->
      (exists x, x ∈ PromoRedemption_objects db /\ PromoRedemption.user x = uid /\
                 PromoRedemption.promo_code x = PromoCode.id promo) ->
      referral_view uid code now r db = Ok already_redeemed db)) /\
  (forall f db', referral_view uid code now r db = Ok f db' ->
                 flash_level f = error -> db' = db) /\
  (fk_ok db ->
   forall f db1, referral_view uid code now r db = Ok f db1 ->
                 flash_level f = success ->
   forall now' r', exists f',
     referral_view uid code now' r' db1 = Ok f' db1 /\ flash_level f' = error).
Proof.
  intros Hp. split; [|split; [|split]].
  - intros Hno. apply find_promo_None in Hno. by eapply referral_view_invalid.
  - intros promo Hf. split; [by apply find_promo_Some|].
    rewrite <- promo_expired_true, <- promo_exhausted_true, <- redemption_exists_true.
    rewrite !not_true_iff_false.
    split; [by eapply referral_view_expired|].
    split; [by eapply referral_view_exhausted|by eapply referral_view_redeemed].
  - apply referral_view_failure_unchanged.
  - intros Hfk f db1 Hrun Hlevel now' r'.
    destruct (find_promo code db) as [promo|] eqn:Hf;
      [|rewrite (referral_view_invalid _ _ _ _ _ _ Hp Hf) in Hrun;
        by injection Hrun as <- <-].
    destruct (promo_expired promo now) eqn:He;
      [rewrite (referral_view_expired _ _ _ _ _ _ _ Hp Hf He) in Hrun;
       by injection Hrun as <- <-|].
    destruct (promo_exhausted promo) eqn:Hx;
      [rewrite (referral_view_exhausted _ _ _ _ _ _ _ Hp Hf He Hx) in Hrun;
       by injection Hrun as <- <-|].
    destruct (redemption_exists uid promo db) eqn:Hr;
      [rewrite (referral_view_redeemed _ _ _ _ _ _ _ Hp Hf He Hx Hr) in Hrun;
       by injection Hrun as <- <-|].
    rewrite (referral_view_success _ _ _ _ _ _ _ Hfk Hp Hf He Hx Hr) in Hrun.
    injection Hrun as <- <-.
    destruct (referral_view_second uid code now r db p promo now' r' Hp Hf)
      as (f' & Hrun' & Hf').
    exists f'. split; [done|]. by destruct Hf' as [->|[->| ->]].
Qed.

Lemma promo_bonus_bounds promo r :
  (0 <= r)%Q -> (r < 1)%Q ->
  (PromoCode.bonus_min promo <= PromoCode.bonus_max promo)%Q ->
  (PromoCode.bonus_min promo <= promo_bonus promo r)%Q /\
  (promo_bonus promo r <= PromoCode.bonus_max promo)%Q.
Proof.
  intros H0 H1 Hmm. unfold promo_bonus.
  set (a := PromoCode.bonus_min promo) in *. set (b := PromoCode.bonus_max promo) in *.
  split; nra.
Qed.

Lemma redemption_failures_witness :
  exists f db1 f',
    referral_view 1 "WELCOME" 0 (1 # 2)%Q db_promo = Ok f db1 /\
    flash_level f = success /\
    referral_view 1 "WELCOME" 5 (1 # 3)%Q db1 = Ok f' db1 /\
    flash_level f' = error.
Proof.
  assert (fk_ok db_promo) as Hfk by (apply (bool_decide_unpack _); by vm_compute).
  pose proof (referral_view_success 1 "WELCOME" 0 (1 # 2)%Q db_promo
                (mk_profile None 0%Q 0%Q) promo_welcome Hfk
                eq_refl eq_refl eq_refl eq_refl eq_refl) as Hrun.
  destruct (proj2 (proj2 (proj2
              (redemption_failures 1 "WELCOME" 0 (1 # 2)%Q db_promo
                 (mk_profile None 0%Q 0%Q) eq_refl)))
              Hfk _ _ Hrun eq_refl 5 (1 # 3)%Q) as (f' & Hrun' & Hlevel).
  eexists _, _, f'. split; [exact Hrun|]. split; [reflexivity|].
  split; [exact Hrun'|exact Hlevel].
Defined.

(** C6, as stated, fails twice. A promo whose bounds are in the wrong
    order (nothing in the form or the model forbids it) is redeemed with a
    bonus below [bonus_min]: with bounds 10 and 5 and a draw of 1/2 the
    bonus is 7.5. And the deposit and the balance do not hold exactly the
    bonus: with the range [[5, 10]] and a draw of 1/3 the bonus is 20/3,
    while the deposit created and the locked balance hold 6.67. *)
Lemma redemption_bonus_counterexample :
  (exists f db',
     referral_view 1 "REVERSED" 0 (1 # 2)%Q db_promo_reversed = Ok f db' /\
     flash_level f = success /\
     flash_amount f = Some (promo_bonus promo_reversed (1 # 2)) /\
     (promo_bonus promo_reversed (1 # 2) == 7.5)%Q /\
     ~ (PromoCode.bonus_min promo_reversed <= promo_bonus promo_reversed (1 # 2))%Q) /\
  (exists f db' d p',
     referral_view 1 "WELCOME" 0 (1 # 3)%Q db_promo = Ok f db' /\
     flash_level f = success /\
     Deposit_objects db' = [d] /\
     Profile_objects db' !! 1%positive = Some p' /\
     (promo_bonus promo_welcome (1 # 3) == 20 # 3)%Q /\
     (Deposit.amount d == 6.67)%Q /\
     ~ (Deposit.amount d == promo_bonus promo_welcome (1 # 3))%Q /\
     ~ (Profile.locked_balance p' == 0 + promo_bonus promo_welcome (1 # 3))%Q).
Proof.
  split.
  - assert (fk_ok db_promo_reversed) as Hfk
      by (apply (bool_decide_unpack _); by vm_compute).
    eexists _, _.
    split; [exact (referral_view_success 1 "REVERSED" 0 (1 # 2)%Q db_promo_reversed
                     (mk_profile None 0%Q 0%Q) promo_reversed Hfk
                     eq_refl eq_refl eq_refl eq_refl eq_refl)|].
    split; [done|]. split; [done|]. split; [by vm_compute|].
    intros H. by vm_compute in H.
  - assert (fk_ok db_promo) as Hfk by (apply (bool_decide_unpack _); by vm_compute).
    eexists _, _, _, _.
    split; [exact (referral_view_success 1 "WELCOME" 0 (1 # 3)%Q db_promo
                     (mk_profile None 0%Q 0%Q) promo_welcome Hfk
                     eq_refl eq_refl eq_refl eq_refl eq_refl)|].
    split; [done|]. split; [reflexivity|]. split; [reflexivity|].
    split; [by vm_compute|]. split; [by vm_compute|].
    split; intros H; by vm_compute in H.
Qed.

(** C6 (amended): on every successful redemption of a promo whose bonus
    range is a range ([bonus_min <= bonus_max]), with a draw [r] in
    [[0, 1)], the bonus computed lies in [[bonus_min, bonus_max]]; an
    approved [Deposit] holding the bonus quantised to two decimals (hence
    within half a cent of it, and within the bounds that are whole
    numbers of cents), expiring 30 days after [now], is appended, so that
    the expiry reaper selects it from then on; the locked balance of the
    account becomes the sum of the balance and of the bonus, quantised;
    exactly one [PromoRedemption], holding the bonus quantised, is
    appended; the usage count of the promo grows by one; and the account
    is left with the rank recomputed on the sum before it is quantised. *)
Theorem redemption_success (uid : positive) (code : string) (now : Z) (r : Q)
    (db : DB) (p : Profile.t) (promo : PromoCode.t) :
  fk_ok db ->
  Profile_objects db !! uid = Some p ->
  find_promo code db = Some promo ->
  ~ (exists e, PromoCode.expiration promo = Some e /\ e < now) ->
  ~ (exists limit, PromoCode.usage_limit promo = Some limit /\
                   limit <= PromoCode.usage_count promo) ->
  ~ (exists x, x ∈ PromoRedemption_objects db /\ PromoRedemption.user x = uid /\
               PromoRedemption.promo_code x = PromoCode.id promo) ->
  (0 <= r)%Q -> (r < 1)%Q ->
  (PromoCode.bonus_min promo <= PromoCode.bonus_max promo)%Q ->
  exists f db' bonus d p',
    referral_view uid code now r db = Ok f db' /\
    flash_level f = success /\ flash_amount f = Some bonus /\
    bonus = (PromoCode.bonus_min promo
             + (PromoCode.bonus_max promo - PromoCode.bonus_min promo) * r)%Q /\
    (PromoCode.bonus_min promo <= bonus)%Q /\ (bonus <= PromoCode.bonus_max promo)%Q /\
    Deposit_objects db' = Deposit_objects db ++ [d] /\
    Deposit.user d = uid /\ Deposit.amount d = quantize bonus /\
    (Deposit.amount d - (1 # 200) <= bonus)%Q /\
    (bonus <= Deposit.amount d + (1 # 200))%Q /\
    (is_cents (PromoCode.bonus_min promo) ->
     (PromoCode.bonus_min promo <= Deposit.amount d)%Q) /\
    (is_cents (PromoCode.bonus_max promo) ->
     (Deposit.amount d <= PromoCode.bonus_max promo)%Q) /\
    Deposit.status d = Deposit.approved /\
    Deposit.approved_at d = Some now /\
    Deposit.expires_at d = Some (now + timedelta_days 30) /\
    (forall t, now + timedelta_days 30 <= t -> d ∈ expired_deposits t db') /\
    Profile_objects db' !! uid = Some p' /\
    Profile.locked_balance p' = quantize (Profile.locked_balance p + bonus)%Q /\
    Profile.withdrawable_balance p' = Profile.withdrawable_balance p /\
    Profile.rank p' = Rank.id <$> get_rank (Rank_objects db') (credit bonus p) /\
    (forall u, u <> uid -> Profile_objects db' !! u = Profile_objects db !! u) /\
    PromoRedemption_objects db'
      = PromoRedemption_objects db ++
        [ {| PromoRedemption.user := uid;
             PromoRedemption.promo_code := PromoCode.id promo;
             PromoRedemption.bonus_amount := quantize bonus |} ] /\
    PromoCode_objects db'
      = update_row PromoCode.id (PromoCode.id promo)
          (PromoCode.set_usage_count (PromoCode.usage_count promo + 1))
          (PromoCode_objects db).
Proof.
  intros Hfk Hp Hf He Hx Hr H0 H1 Hmm.
  rewrite <- promo_expired_true, not_true_iff_false in He.
  rewrite <- promo_exhausted_true, not_true_iff_false in Hx.
  rewrite <- redemption_exists_true, not_true_iff_false in Hr.
  destruct (promo_bonus_bounds promo r H0 H1 Hmm) as [Hlo Hhi].
  destruct (quantize_near (promo_bonus promo r)) as [Hnlo Hnhi].
  eexists _, _, (promo_bonus promo r), (promo_deposit uid (promo_bonus promo r) now db), _.
  split; [by apply referral_view_success|]. simpl.
  do 10 (split; [done|]).
  split.
  { intros Hc. rewrite <- (quantize_cents _ Hc). by apply quantize_mono. }
  split.
  { intros Hc. rewrite <- (quantize_cents _ Hc). by apply quantize_mono. }
  do 3 (split; [done|]).
  split; [|split; [by rewrite lookup_insert_eq|]].
  - intros t Ht. apply elem_of_expired_deposits. simpl. split; [set_solver|].
    apply expired_filter_true. split; [done|]. by eexists.
  - do 3 (split; [done|]). split; [|by split].
    intros u Hu. by rewrite lookup_insert_ne.
Qed.

Lemma redemption_success_witness :
  exists f db' p',
    referral_view 1 "WELCOME" 0 (1 # 2)%Q db_promo = Ok f db' /\
    flash_amount f = Some (5 + (10 - 5) * (1 # 2))%Q /\
    Profile_objects db' !! 1%positive = Some p' /\
    (Profile.locked_balance p' == 7.5)%Q /\
    length (Deposit_objects db') = 1%nat /\
    length (PromoRedemption_objects db') = 1%nat /\
    PromoCode.usage_count <$> PromoCode_objects db' = [1].
Proof.
  assert (fk_ok db_promo) as Hfk by (apply (bool_decide_unpack _); by vm_compute).
  destruct (redemption_success 1 "WELCOME" 0 (1 # 2)%Q db_promo
              (mk_profile None 0%Q 0%Q) promo_welcome Hfk eq_refl eq_refl)
    as (f & db' & bonus & d & p' & Hrun & _ & Hamount & -> & _ & _ & HD & _ & _ & _
        & _ & _ & _ & _ & _ & _ & _ & Hp' & Hlocked & _ & _ & _ & HR & HC).
  - by intros (e & ? & _).
  - intros (limit & [= <-] & Hle). simpl in Hle. lia.
  - intros (x & Hx & _). by apply elem_of_nil in Hx.
  - by vm_compute.
  - by vm_compute.
  - by vm_compute.
  - exists f, db', p'. split; [exact Hrun|]. split; [exact Hamount|].
    split; [exact Hp'|]. split; [rewrite Hlocked; by vm_compute|].
    rewrite HD, HR, HC. by repeat split.
Defined.

(** ** The profit curve of a simulated trade *)


Lemma fluctuation_bounds r3 :
  (0 <= r3)%Q -> (r3 < 1)%Q ->
  (0.95 <= fluctuation r3)%Q /\ (fluctuation r3 < 1.10)%Q.
Proof. intros H0 H1. unfold fluctuation. split; lra. Qed.


Lemma progress_full s : (30 <= s)%Q -> (progress s == 1)%Q.
Proof.
  intros Hs. unfold progress, py_min.
  destruct (Qltb 1 (s / 30)) eqn:E; [reflexivity|].
  apply Qltb_ge in E. revert E. unfold Qdiv. change (/ 30)%Q with (1 # 30)%Q. lra.
Qed.

(** The variance term is between 2.5% and 7.5% of the per-trade target. *)
Lemma variance_bounds ppt r1 :
  (0 <= ppt)%Q -> (0 <= r1)%Q -> (r1 < 1)%Q ->
  (0.025 * ppt <= variance ppt r1)%Q /\ (variance ppt r1 <= 0.075 * ppt)%Q.
Proof. intros Hp H0 H1. unfold variance. split; nra. Qed.


Lemma target_profit_bounds ppt r1 r2 :
  (0 <= r1)%Q -> (r1 < 1)%Q -> (0.01 <= 0.925 * ppt)%Q ->
  (0.925 * ppt <= target_profit ppt r1 r2)%Q /\
  (target_profit ppt r1 r2 <= 1.075 * ppt)%Q.
Proof.
  intros H0 H1 Hfloor.
  assert (0 <= ppt)%Q as Hp by lra.
  destruct (variance_bounds ppt r1 Hp H0 H1) as [Hv1 Hv2].
  unfold target_profit.
  destruct (Qltb r2 0.6);
    match goal with
    | |- context [py_max ?a ?b] => destruct (py_max_cases a b) as [[-> ?] | [-> ?]]
    end; split; lra.
Qed.

(** After 30 seconds the profit is the target times the jitter, hence
    within 0.925 * 0.95 and 1.075 * 1.10 of the per-trade target. *)
Lemma current_profit_bounds rank locked s r1 r2 r3 :
  (30 <= s)%Q ->
  (0 <= r1)%Q -> (r1 < 1)%Q -> (0 <= r3)%Q -> (r3 < 1)%Q ->
  (0.01 <= 0.925 * profit_per_trade rank locked)%Q ->
  (0.925 * 0.95 * profit_per_trade rank locked
   <= current_profit rank locked s r1 r2 r3)%Q /\
  (current_profit rank locked s r1 r2 r3
   <= 1.075 * 1.10 * profit_per_trade rank locked)%Q.
Proof.
  intros Hs H0 H1 H30 H31 Hfloor. unfold current_profit.
  rewrite (progress_full s Hs).
  destruct (target_profit_bounds (profit_per_trade rank locked) r1 r2 H0 H1 Hfloor)
    as [Ht1 Ht2].
  destruct (fluctuation_bounds r3 H30 H31) as [Hf1 Hf2].
  set (t := target_profit _ _ _) in *. set (f := fluctuation r3) in *.
  set (ppt := profit_per_trade rank locked) in *.
  split; nra.
Qed.

Lemma scenario_rank rk w :
  (0 <= w)%Q -> get_rank scenario_ranks (mk_profile rk 200%Q w) = Some band_high.
Proof.
  intros Hw. unfold get_rank.
  assert (Profile.principal_balance (mk_profile rk 200%Q w) = (200 + w)%Q) as -> by done.
  assert (Qleb (200 + w) 0 = false) as -> by (apply Qleb_gt; lra).
  change (order_by by_min_balance scenario_ranks) with [band_low; band_high].
  rewrite !get_rank_loop_cons. simpl.
  assert (Qleb (200 + w) 100 = false) as -> by (apply Qleb_gt; lra).
  rewrite andb_false_r.
  assert (Qgeb (200 + w) 100 = true) as -> by (apply Qgeb_ge; lra).
  done.
Qed.




(** ** Simulated trades: the tick and the completion pass *)





(** *** One tick of one trade *)


Lemma tick_trade_old rnd now n t db p :
  (10 <= age now t)%Q ->
  Profile_objects db !! CopyTrade.user t = Some p ->
  tick_trade rnd now n t db =
  Ok (S (S (S n)))
     (upd_CopyTrade_objects
        (update_row CopyTrade.id (CopyTrade.id t)
           (CopyTrade.set_profit
              (current_profit (get_rank (Rank_objects db) p) (Profile.locked_balance p)
                 (age now t) (rnd n) (rnd (S n)) (rnd (S (S n)))))) db).
Proof.
  intros H Hp. unfold tick_trade. apply Qltb_ge in H. unfold age in *. rewrite H.
  unfold related_profile. munfold. rewrite Hp. reflexivity.
Qed.


(** *** Rows that the passes leave alone *)






(** *** The tick pass *)






(** *** The completion pass *)

Lemma complete_trade_ok t db p :
  Profile_objects db !! CopyTrade.user t = Some p ->
  complete_trade t db =
  Ok () (upd_Profile_objects (insert (CopyTrade.user t) (credit_profit t p))
           (upd_CopyTrade_objects
              (update_row CopyTrade.id (CopyTrade.id t)
                 (CopyTrade.set_status CopyTrade.completed)) db)).
Proof.
  intros Hp. unfold complete_trade, CopyTrade_save_status, related_profile,
    Profile_save_withdrawable_balance. munfold. simpl. rewrite Hp.
  by erewrite upd_Profile_objects_alter by exact Hp.
Qed.
















(** *** The scenario *)

Lemma age_seconds now t n :
  timedelta_seconds n <= now - CopyTrade.created_at t -> (inject_Z n <= age now t)%Q.
Proof.
  unfold age, total_seconds, timedelta_seconds, Qle. simpl. lia.
Qed.

(** The scenario through the store: the account with a locked balance of
    200 has a pending trade; the tick and the completion pass of one
    request, at least 35 seconds after the trade was opened, credit to the
    withdrawable balance a profit between 3.515 and 4.73. *)
Lemma scenario_credited rnd now :
  (forall n, (0 <= rnd n)%Q /\ (rnd n < 1)%Q) ->
  timedelta_seconds 35 <= now ->
  exists v db1 db2 p2,
    update_pending_trades_profit rnd now db_scenario = Ok 3%nat db1 /\
    complete_pending_trades now db1 = Ok () db2 /\
    Profile_objects db2 !! 1%positive = Some p2 /\
    Profile.withdrawable_balance p2 = (0 + v)%Q /\
    (3.515 <= v)%Q /\ (v <= 4.73)%Q.
Proof.
  intros Hrnd Hnow.
  assert (35 <= age now trade_new)%Q as Hage.
  { apply (age_seconds now trade_new 35). simpl. lia. }
  set (v := current_profit (get_rank scenario_ranks (mk_profile (Some 2%positive) 200%Q 0%Q))
              200%Q (age now trade_new) (rnd 0%nat) (rnd 1%nat) (rnd 2%nat)).
  exists v.
  assert (update_pending_trades_profit rnd now db_scenario
          = Ok 3%nat (upd_CopyTrade_objects
                        (fun _ => [CopyTrade.set_profit v trade_new]) db_scenario)) as Htick.
  { change (update_pending_trades_profit rnd now db_scenario)
      with (tick_loop rnd now 0 [trade_new] db_scenario).
    simpl tick_loop. munfold.
    rewrite (tick_trade_old rnd now 0 trade_new db_scenario
               (mk_profile (Some 2%positive) 200%Q 0%Q)); [done| |done].
    eapply Qle_trans; [|exact Hage]. by vm_compute. }
  eexists _, _, _. split; [exact Htick|].
  assert (due_trades now (upd_CopyTrade_objects
                            (fun _ => [CopyTrade.set_profit v trade_new]) db_scenario)
          = [CopyTrade.set_profit v trade_new]) as Hdue.
  { unfold due_trades, completion_filter. simpl.
    assert ((0 <=? now - timedelta_seconds 35) = true) as -> by lia. done. }
  split; [|split; [|split]].
  - change (complete_pending_trades now ?s)
      with (for_each (due_trades now s) complete_trade s).
    rewrite Hdue, for_each_cons.
    erewrite complete_trade_ok by reflexivity. reflexivity.
  - simpl. by rewrite lookup_insert_eq.
  - done.
  - unfold v. rewrite scenario_rank by done.
    destruct (current_profit_bounds (Some band_high) 200%Q (age now trade_new)
                (rnd 0%nat) (rnd 1%nat) (rnd 2%nat)) as [H1 H2];
      [lra|apply Hrnd..|by vm_compute|].
    assert (profit_per_trade (Some band_high) 200 == 4)%Q as Hppt by by vm_compute.
    split; lra.
Qed.

(** ** The rank after the ledger operations *)

(** *** The operations that recompute the rank *)

Lemma finance_view_withdrawal_ok uid amt net wallet now db p :
  fk_ok db ->
  Profile_objects db !! uid = Some p ->
  (amt <= Profile.withdrawable_balance p)%Q ->
  exists db' p',
    finance_view_withdrawal uid amt net wallet now db
    = Ok (Flash success "Withdrawal submitted. Admin approval required." None) db' /\
    Profile_objects db' !! uid = Some p' /\
    Profile.withdrawable_balance p' = (Profile.withdrawable_balance p - amt)%Q /\
    Profile.locked_balance p' = Profile.locked_balance p /\
    Profile.rank p' = Rank.id <$> get_rank (Rank_objects db') p'.
Proof.
  intros Hfk Hp Hle. unfold finance_view_withdrawal. munfold. rewrite Hp.
  apply Qgtb_le in Hle. rewrite Hle.
  unfold Profile_save_withdrawable_balance, Withdrawal_create,
    Profile_save_last_withdrawal_at. munfold. simpl.
  set (p1 := Profile.set_last_withdrawal_at (Some now)
               (Profile.set_withdrawable_balance
                  (Profile.withdrawable_balance p - amt)%Q p)).
  erewrite update_rank_ok with (p := p1).
  - eexists _, _. split; [reflexivity|]. simpl.
    split; [by rewrite lookup_insert_eq|]. done.
  - simpl. rewrite (alter_alt_Some _ _ _ _ Hp), alter_insert_eq.
    by rewrite lookup_insert_eq.
  - exact (Hfk _ _ Hp).
Qed.

Lemma _update_user_rank_ok uid db p :
  Profile_objects db !! uid = Some p ->
  fk_resolves (Rank_objects db) p ->
  _update_user_rank uid db
  = Ok (Rank.id <$> get_rank (Rank_objects db) p)
       (upd_Profile_objects (insert uid (with_rank (Rank_objects db) p)) db).
Proof.
  intros Hp Hfk. unfold _update_user_rank. munfold. rewrite Hp.
  by rewrite update_rank_ok.
Qed.

Lemma daily_reward_view_ok uid now db p :
  fk_ok db ->
  Profile_objects db !! uid = Some p ->
  is_same_day
    (DailyReward.claimed_at <$>
       head (order_by by_claimed_at_desc
               (List.filter (fun x => Pos.eqb (DailyReward.user x) uid)
                  (DailyReward_objects db)))) now = false ->
  exists db' p',
    daily_reward_view uid now db
    = Ok (Flash success "Daily reward ${DAILY_REWARD} claimed." (Some DAILY_REWARD)) db' /\
    Profile_objects db' !! uid = Some p' /\
    Profile.withdrawable_balance p' = (Profile.withdrawable_balance p + DAILY_REWARD)%Q /\
    Profile.locked_balance p' = Profile.locked_balance p /\
    Profile.rank p' = Rank.id <$> get_rank (Rank_objects db') p'.
Proof.
  intros Hfk Hp Hday. unfold daily_reward_view, get_profile_or_404. munfold.
  rewrite Hp, Hday.
  unfold Profile_save_withdrawable_balance, DailyReward_create. munfold. simpl.
  set (p1 := Profile.set_withdrawable_balance
               (Profile.withdrawable_balance p + DAILY_REWARD)%Q p).
  erewrite _update_user_rank_ok with (p := p1).
  - eexists _, _. split; [reflexivity|]. simpl.
    split; [by rewrite lookup_insert_eq|]. done.
  - simpl. rewrite (alter_alt_Some _ _ _ _ Hp). by rewrite lookup_insert_eq.
  - exact (Hfk _ _ Hp).
Qed.

(** After the approval of a crypto deposit, the debit of an expired
    deposit, a crypto withdrawal and a daily reward, the stored rank of
    the account is the rank of its principal balance, which is the sum of
    its two balances; after a promo redemption it is the rank of the
    principal balance with the bonus, computed before the sum is stored
    quantised. *)
Lemma rank_recomputed (db : DB) :
  fk_ok db ->
  (forall pk now d po,
     get_row Deposit.id pk (Deposit_objects db) = Some d ->
     Deposit.status d = Deposit.pending ->
     Profile_objects db !! Deposit.user d = Some po ->
     rank_consistent (store (admin_deposit_approve_view pk now db)) (Deposit.user d)) /\
  (forall d p,
     Profile_objects db !! Deposit.user d = Some p ->
     (Deposit.amount d <= Profile.locked_balance p)%Q ->
     rank_consistent (store (expire_deposit d db)) (Deposit.user d)) /\
  (forall uid code now r p promo,
     Profile_objects db !! uid = Some p -> find_promo code db = Some promo ->
     promo_expired promo now = false -> promo_exhausted promo = false ->
     redemption_exists uid promo db = false ->
     exists p',
       Profile_objects (store (referral_view uid code now r db)) !! uid = Some p' /\
       Profile.rank p'
       = Rank.id <$> get_rank (Rank_objects (store (referral_view uid code now r db)))
                       (credit (promo_bonus promo r) p)) /\
  (forall uid amt net wallet now p,
     Profile_objects db !! uid = Some p ->
     (amt <= Profile.withdrawable_balance p)%Q ->
     rank_consistent (store (finance_view_withdrawal uid amt net wallet now db)) uid) /\
  (forall uid now p,
     Profile_objects db !! uid = Some p ->
     is_same_day
       (DailyReward.claimed_at <$>
          head (order_by by_claimed_at_desc
                  (List.filter (fun x => Pos.eqb (DailyReward.user x) uid)
                     (DailyReward_objects db)))) now = false ->
     rank_consistent (store (daily_reward_view uid now db)) uid) /\
  (forall p, Profile.principal_balance p
             = (Profile.locked_balance p + Profile.withdrawable_balance p)%Q).
Proof.
  intros Hfk. split; [|split; [|split; [|split; [|split]]]].
  - intros pk now d po Hd Hst Hpo.
    destruct (approval_credits_owner pk now db d po Hfk Hd Hst Hpo)
      as (f & db' & po' & -> & Hpo' & _ & _ & Hrank).
    by exists po'.
  - intros d p Hp Hle.
    destruct (expire_deposit_debit d db p Hp (Hfk _ _ Hp) Hle)
      as (db' & -> & HP & _ & _ & HR & _).
    simpl. exists (with_rank (Rank_objects db) (debit d p)).
    rewrite HP, HR. split; [apply lookup_insert_eq|done].
  - intros uid code now r p promo Hp Hf He Hx Hr.
    rewrite (referral_view_success uid code now r db p promo Hfk Hp Hf He Hx Hr).
    eexists. split; [apply lookup_insert_eq|done].
  - intros uid amt net wallet now p Hp Hle.
    destruct (finance_view_withdrawal_ok uid amt net wallet now db p Hfk Hp Hle)
      as (db' & p' & -> & Hp' & _ & _ & Hrank).
    by exists p'.
  - intros uid now p Hp Hday.
    destruct (daily_reward_view_ok uid now db p Hfk Hp Hday)
      as (db' & p' & -> & Hp' & _ & _ & Hrank).
    by exists p'.
  - done.
Qed.

(** C1 (the defect): the completion pass credits the profit to the
    withdrawable balance and does not recompute the rank. An account of
    the lower band with a locked balance of 99 and a due trade whose
    profit is 5 ends with a principal balance of 104, in the higher band,
    while its stored rank is still the lower band. *)
Theorem completion_leaves_rank_stale :
  rank_consistent db_trade 1 /\
  exists db1 p1,
    complete_pending_trades (timedelta_seconds 40) db_trade = Ok () db1 /\
    Profile_objects db1 !! 1%positive = Some p1 /\
    Profile.principal_balance p1 = (99 + (0 + 5))%Q /\
    Profile.rank p1 = Some (Rank.id band_low) /\
    get_rank (Rank_objects db1) p1 = Some band_high /\
    ~ rank_consistent db1 1.
Proof.
  split; [by eexists|].
  eexists _, _. split; [by vm_compute|]. split; [by vm_compute|].
  split; [done|]. split; [done|]. split; [by vm_compute|].
  intros (p & Hp & Hrank). vm_compute in Hp. injection Hp as <-.
  vm_compute in Hrank. discriminate.
Qed.

(** ** utils.py: the wallet pool *)

Lemma still_assigned_true current_time a :
  still_assigned current_time a = true <->
  (current_time < Assignment.timestamp a + 300)%Q.
Proof. unfold still_assigned. rewrite Qltb_lt. split; lra. Qed.

Lemma clean_assignments_lookup current_time cache w a :
  clean_assignments current_time cache !! w = Some a <->
  cache !! w = Some a /\ (current_time < Assignment.timestamp a + 300)%Q.
Proof.
  unfold clean_assignments. rewrite map_lookup_filter_Some. simpl.
  by rewrite still_assigned_true.
Qed.

Lemma is_available_true cleaned h w :
  is_available cleaned (Some h) w = true <-> available cleaned h w.
Proof.
  unfold is_available, available, held_by.
  destruct (cleaned !! w) as [a|]; [|split; [by left|done]].
  destruct (Assignment.user_id a) as [v|] eqn:E.
  - rewrite Pos.eqb_eq. split.
    + intros ->. right. by exists a.
    + intros [?|(a' & [= <-] & Hv)]; [done|]. congruence.
  - split; [done|]. intros [?|(a' & [= <-] & ?)]; [done|congruence].
Qed.

Lemma WALLETS_get_nonempty network : WALLETS_get network <> [].
Proof. unfold WALLETS_get. repeat (destruct (String.eqb _ _); [done|]). done. Qed.

Lemma oldest_fold (x : string * Assignment.t) l :
  let best :=
    foldl (fun best y =>
             if Qltb (Assignment.timestamp y.2) (Assignment.timestamp best.2)
             then y else best) x l in
  best ∈ x :: l /\
  forall y, y ∈ x :: l ->
            (Assignment.timestamp best.2 <= Assignment.timestamp y.2)%Q.
Proof.
  revert x. induction l as [|z l IH]; intros x; simpl.
  - split; [left|]. intros y ->%list_elem_of_singleton. apply Qle_refl.
  - destruct (Qltb (Assignment.timestamp z.2) (Assignment.timestamp x.2)) eqn:E.
    + apply Qltb_lt in E. destruct (IH z) as [Hin Hmin]. split.
      * apply elem_of_cons in Hin as [->|Hin]; [right; left|by do 2 right].
      * intros y Hy. apply elem_of_cons in Hy as [->|Hy]; [|by apply Hmin].
        eapply Qle_trans; [apply Hmin; left|]. by apply Qlt_le_weak.
    + apply Qltb_ge in E. destruct (IH x) as [Hin Hmin]. split.
      * apply elem_of_cons in Hin as [->|Hin]; [left|by do 2 right].
      * intros y Hy. apply elem_of_cons in Hy as [->|Hy].
        -- apply Hmin. left.
        -- apply elem_of_cons in Hy as [->|Hy].
           ++ eapply Qle_trans; [apply Hmin; left|done].
           ++ apply Hmin. by right.
Qed.

Lemma oldest_Some items :
  items <> [] ->
  exists x, oldest items = Some x /\ x ∈ items /\
            forall y, y ∈ items ->
                      (Assignment.timestamp x.2 <= Assignment.timestamp y.2)%Q.
Proof.
  destruct items as [|x l]; [done|]. intros _. eexists. split; [done|].
  apply oldest_fold.
Qed.

Lemma random_choice_elem {A} choice (seq : list A) :
  seq <> [] -> exists x, random_choice choice seq = Some x /\ x ∈ seq.
Proof.
  intros Hne. unfold random_choice.
  destruct (lookup_lt_is_Some_2 seq (choice mod length seq)) as [x Hx].
  { apply Nat.mod_upper_bound. by destruct seq. }
  exists x. split; [done|]. apply list_elem_of_lookup. eauto.
Qed.

Lemma elem_of_available_wallets cleaned h pool w :
  w ∈ List.filter (is_available cleaned (Some h)) pool <->
  w ∈ pool /\ available cleaned h w.
Proof.
  by rewrite list_elem_of_In, filter_In, <- list_elem_of_In, is_available_true.
Qed.

Lemma assign_wallet_ok network h current_time choice cleaned avail s :
  avail <> [] ->
  exists w,
    assign_wallet network (Some h) current_time choice cleaned avail s
    = Ok (Some w, None) (<[w := lease network h current_time]> cleaned) /\
    w ∈ avail.
Proof.
  intros Hne. destruct (random_choice_elem choice avail Hne) as (w & Hw & Hin).
  exists w. unfold assign_wallet. by rewrite Hw.
Qed.

Lemma get_available_wallet_grant network h current_time choice cache :
  List.filter (is_available (clean_assignments current_time cache) (Some h))
    (WALLETS_get network) <> [] ->
  exists w,
    get_available_wallet network (Some h) current_time choice cache
    = Ok (Some w, None)
         (<[w := lease network h current_time]> (clean_assignments current_time cache)) /\
    w ∈ WALLETS_get network /\
    available (clean_assignments current_time cache) h w.
Proof.
  intros Hne. unfold get_available_wallet. munfold.
  destruct (List.filter _ _) as [|x l] eqn:E; [done|].
  destruct (assign_wallet_ok network h current_time choice
              (clean_assignments current_time cache) (x :: l)
              (clean_assignments current_time cache) Hne) as (w & -> & Hin).
  exists w. split; [done|]. rewrite <- E in Hin.
  by apply elem_of_available_wallets in Hin.
Qed.

Lemma get_available_wallet_wait network h current_time choice cache :
  List.filter (is_available (clean_assignments current_time cache) (Some h))
    (WALLETS_get network) = [] ->
  exists w a,
    clean_assignments current_time cache !! w = Some a /\
    get_available_wallet network (Some h) current_time choice cache
    = Ok (None, Some (remaining current_time a)) (clean_assignments current_time cache) /\
    (0 < remaining current_time a)%Q /\
    forall w' a', clean_assignments current_time cache !! w' = Some a' ->
                  (remaining current_time a <= remaining current_time a')%Q.
Proof.
  intros Hnil.
  assert (map_to_list (clean_assignments current_time cache) <> []) as Hne.
  { destruct (WALLETS_get network) as [|w0 pool] eqn:Hpool;
      [by apply WALLETS_get_nonempty in Hpool|].
    assert (~ available (clean_assignments current_time cache) h w0) as Hw0.
    { intros Hav.
      assert (w0 ∈ List.filter
                (is_available (clean_assignments current_time cache) (Some h))
                (w0 :: pool)) as Hin
        by (apply elem_of_available_wallets; split; [left|done]).
      rewrite Hnil in Hin. by apply elem_of_nil in Hin. }
    destruct (clean_assignments current_time cache !! w0) as [a0|] eqn:E0;
      [|by destruct Hw0; left].
    intros Hempty. apply map_to_list_empty_iff in Hempty.
    by rewrite Hempty, lookup_empty in E0. }
  destruct (oldest_Some _ Hne) as ([w a] & Hold & Hin & Hmin).
  apply elem_of_map_to_list in Hin.
  assert (0 < remaining current_time a)%Q as Hpos.
  { apply clean_assignments_lookup in Hin as [_ Hlt]. unfold remaining. lra. }
  exists w, a. split; [done|]. split; [|split; [done|]].
  - unfold get_available_wallet. munfold. rewrite Hnil, Hold.
    fold (remaining current_time a).
    apply Qgtb_gt in Hpos. by rewrite Hpos.
  - intros w' a' Hin'. apply elem_of_map_to_list in Hin'.
    specialize (Hmin (w', a') Hin'). simpl in Hmin. unfold remaining. lra.
Qed.

(** C10: a lease request for a network by a holder first discards every
    lease with [timestamp + 300 <= current_time]. If an address of the
    pool of the network has no remaining lease, or one of the holder, one
    such address is returned and a lease of the holder on it, stamped
    [current_time] and so lasting 300 seconds, is recorded; otherwise no
    address is granted, no lease is recorded, and the wait returned is the
    least remaining time of the remaining leases, which is positive. The
    call never raises: it never selects from an empty list. *)
Theorem wallet_lease (network : string) (h : positive) (current_time : Q)
    (choice : nat) (cache : gmap string Assignment.t) :
  (forall w a,
     clean_assignments current_time cache !! w = Some a <->
     cache !! w = Some a /\ (current_time < Assignment.timestamp a + 300)%Q) /\
  ((exists w, w ∈ WALLETS_get network /\
              available (clean_assignments current_time cache) h w) ->
   exists w,
     get_available_wallet network (Some h) current_time choice cache
     = Ok (Some w, None)
          (<[w := {| Assignment.user_id := Some h; Assignment.network := network;
                     Assignment.timestamp := current_time |}]>
             (clean_assignments current_time cache)) /\
     w ∈ WALLETS_get network /\
     available (clean_assignments current_time cache) h w /\
     (forall t, still_assigned t (lease network h current_time) = true <->
                (t < current_time + 300)%Q)) /\
  (~ (exists w, w ∈ WALLETS_get network /\
                available (clean_assignments current_time cache) h w) ->
   exists wait,
     get_available_wallet network (Some h) current_time choice cache
     = Ok (None, Some wait) (clean_assignments current_time cache) /\
     (0 < wait)%Q /\
     (exists w a, clean_assignments current_time cache !! w = Some a /\
                  wait = remaining current_time a) /\
     (forall w a, clean_assignments current_time cache !! w = Some a ->
                  (wait <= remaining current_time a)%Q)) /\
  (forall e s,
     get_available_wallet network (Some h) current_time choice cache <> Raise e s).
Proof.
  split; [apply clean_assignments_lookup|].
  destruct (List.filter (is_available (clean_assignments current_time cache) (Some h))
              (WALLETS_get network)) as [|x l] eqn:E.
  - destruct (get_available_wallet_wait network h current_time choice cache E)
      as (w & a & Hin & Hrun & Hpos & Hmin).
    split; [|split].
    + intros (w0 & Hw0 & Hav). exfalso.
      assert (w0 ∈ List.filter
                (is_available (clean_assignments current_time cache) (Some h))
                (WALLETS_get network)) as Hin0
        by by apply elem_of_available_wallets.
      rewrite E in Hin0. by apply elem_of_nil in Hin0.
    + intros _. exists (remaining current_time a). split; [done|]. split; [done|].
      split; [by exists w, a|done].
    + intros e s. by rewrite Hrun.
  - destruct (get_available_wallet_grant network h current_time choice cache)
      as (w & Hrun & Hw & Hav); [by rewrite E|].
    split; [|split].
    + intros _. exists w. split; [done|]. split; [done|]. split; [done|].
      intros t. apply still_assigned_true.
    + intros Hno. destruct Hno. by exists w.
    + intros e s. by rewrite Hrun.
Qed.

Lemma wallet_lease_witness :
  (exists w,
     get_available_wallet "Solana" (Some 1%positive) 1000%Q 3 ∅
     = Ok (Some w, None)
          (<[w := lease "Solana" 1 1000%Q]> (clean_assignments 1000%Q ∅)) /\
     w ∈ WALLETS_get "Solana") /\
  (exists wait,
     get_available_wallet "Solana" (Some 1%positive) 1000%Q 3 cache_full
     = Ok (None, Some wait) (clean_assignments 1000%Q cache_full) /\
     (0 < wait)%Q).
Proof.
  split.
  - destruct (wallet_lease "Solana" 1 1000%Q 3 ∅) as (_ & Hgrant & _).
    destruct Hgrant as (w & Hrun & Hw & _).
    { exists "2nGvFch9BGccSe3Xi8Pj7YuMti17dtWBaaeEJJrHoyhh". split.
      - change (WALLETS_get "Solana") with WALLETS_Solana. left.
      - left. by vm_compute. }
    exists w. split; [exact Hrun|exact Hw].
  - destruct (wallet_lease "Solana" 1 1000%Q 3 cache_full) as (_ & _ & Hwait & _).
    destruct Hwait as (wait & Hrun & Hpos & _).
    { intros (w & Hw & Hav).
      assert (w ∈ List.filter
                (is_available (clean_assignments 1000%Q cache_full) (Some 1%positive))
                (WALLETS_get "Solana")) as Hin
        by (apply elem_of_available_wallets; split; [exact Hw|exact Hav]).
      assert (List.filter
                (is_available (clean_assignments 1000%Q cache_full) (Some 1%positive))
                (WALLETS_get "Solana") = []) as Hnil by by vm_compute.
      rewrite Hnil in Hin. exact (proj1 (elem_of_nil w) Hin). }
    exists wait. split; [exact Hrun|exact Hpos].
Defined.
(** ** utils.py: [get_client_ip] *)

Lemma split_first_no_sep sep s : sep ∉ chars (split_first sep s).
Proof.
  induction s as [|c s IH]; simpl; [apply not_elem_of_nil|].
  destruct (Ascii.eqb c sep) eqn:E; simpl; [apply not_elem_of_nil|].
  apply not_elem_of_cons. split; [|exact IH].
  intros ->. by rewrite Ascii.eqb_refl in E.
Qed.

Lemma split_first_app sep a b :
  sep ∉ chars a -> split_first sep (a +:+ String sep b) = a.
Proof.
  induction a as [|c a IH]; simpl; intros Hno.
  - by rewrite Ascii.eqb_refl.
  - apply not_elem_of_cons in Hno as [Hc Ha].
    destruct (Ascii.eqb c sep) eqn:E; [by apply Ascii.eqb_eq in E|].
    f_equal. by apply IH.
Qed.

Lemma lstrip_chars s c : c ∈ chars (lstrip s) -> c ∈ chars s.
Proof.
  induction s as [|a s IH]; simpl; [done|].
  destruct (isspace a); [|done]. intros H. right. by apply IH.
Qed.

Lemma rstrip_chars s c : c ∈ chars (rstrip s) -> c ∈ chars s.
Proof.
  revert c. induction s as [|a s IH]; intros c; simpl; [done|].
  destruct (rstrip s) as [|b t] eqn:E.
  - destruct (isspace a); simpl; [by intros ?%elem_of_nil|].
    intros ->%list_elem_of_singleton. left.
  - change (chars (String a (String b t))) with (a :: chars (String b t)).
    intros [->|H]%elem_of_cons; [left|]. right. by apply IH.
Qed.

Lemma lstrip_head s c : head (chars (lstrip s)) = Some c -> isspace c = false.
Proof.
  induction s as [|a s IH]; simpl; [done|].
  destruct (isspace a) eqn:E; [done|]. simpl. by intros [= <-].
Qed.

Lemma rstrip_head s : head (chars (rstrip s)) = None \/ head (chars (rstrip s)) = head (chars s).
Proof.
  destruct s as [|a s]; simpl; [by left|].
  destruct (rstrip s); [|by right].
  destruct (isspace a); [by left|by right].
Qed.

Lemma rstrip_last s c : last (chars (rstrip s)) = Some c -> isspace c = false.
Proof.
  induction s as [|a s IH]; simpl; [done|].
  destruct (rstrip s) as [|b t] eqn:E.
  - destruct (isspace a) eqn:Ha; simpl; [done|]. by intros [= <-].
  - change (chars (String a (String b t))) with (a :: chars (String b t)).
    change (chars (String b t)) with (b :: chars t) in *.
    simpl. exact IH.
Qed.

Lemma strip_trimmed s :
  (forall c, head (chars (strip s)) = Some c -> isspace c = false) /\
  (forall c, last (chars (strip s)) = Some c -> isspace c = false) /\
  (forall c, c ∈ chars (strip s) -> c ∈ chars s).
Proof.
  unfold strip. split; [|split].
  - intros c H. destruct (rstrip_head (lstrip s)) as [E|E]; [congruence|].
    rewrite E in H. by eapply lstrip_head.
  - apply rstrip_last.
  - intros c H. by apply lstrip_chars, rstrip_chars.
Qed.

(** X1: when the header [X-Forwarded-For] is set and not empty,
    [get_client_ip] returns its first comma-separated entry with the
    blanks around it removed: the result holds no comma, neither starts
    nor ends with a blank, and depends neither on the entries after the
    first comma nor on [REMOTE_ADDR]. When the header is missing or
    empty, it returns [REMOTE_ADDR], and the empty string when that is
    missing too. *)
Theorem get_client_ip_first_forwarded (META : gmap string string) :
  (forall xff,
     META !! "HTTP_X_FORWARDED_FOR" = Some xff -> xff <> "" ->
     get_client_ip META = strip (split_first comma xff) /\
     (comma ∉ chars (get_client_ip META)) /\
     (forall c, head (chars (get_client_ip META)) = Some c -> isspace c = false) /\
     (forall c, last (chars (get_client_ip META)) = Some c -> isspace c = false)) /\
  (forall first rest,
     META !! "HTTP_X_FORWARDED_FOR" = Some (first +:+ String comma rest) ->
     comma ∉ chars first ->
     get_client_ip META = strip first) /\
  (META !! "HTTP_X_FORWARDED_FOR" = None \/ META !! "HTTP_X_FORWARDED_FOR" = Some "" ->
   get_client_ip META = default "" (META !! "REMOTE_ADDR")).
Proof.
  assert (forall xff, META !! "HTTP_X_FORWARDED_FOR" = Some xff -> xff <> "" ->
                      get_client_ip META = strip (split_first comma xff)) as Hset.
  { intros xff H Hne. unfold get_client_ip. rewrite H. by destruct xff. }
  split; [|split].
  - intros xff H Hne. rewrite (Hset xff H Hne).
    destruct (strip_trimmed (split_first comma xff)) as (Hh & Hl & Hc).
    split; [done|]. split; [|done].
    intros Hin. apply Hc in Hin. by apply split_first_no_sep in Hin.
  - intros first rest H Hno. rewrite (Hset _ H).
    + by rewrite split_first_app.
    + by destruct first.
  - intros [H|H]; unfold get_client_ip; by rewrite H.
Qed.

Lemma get_client_ip_first_forwarded_witness :
  get_client_ip META_forwarded = "10.0.0.1".
Proof.
  destruct (get_client_ip_first_forwarded META_forwarded) as (_ & H & _).
  rewrite (H " 10.0.0.1 " " 172.16.0.1").
  - by vm_compute.
  - by vm_compute.
  - apply (bool_decide_unpack _). by vm_compute.
Defined.

(** ** utils.py: [get_random_wallet] and [generate_referral_code] *)

Lemma random_choice_Some {A} choice (seq : list A) x :
  random_choice choice seq = Some x -> x ∈ seq.
Proof. intros H. apply list_elem_of_lookup. eauto. Qed.

(** X2: for every network name and every draw, [get_random_wallet]
    returns an address of the list of that network, and of the list of
    ['USDT BEP20'] when the name is not a key of [WALLETS]; it never
    raises. *)
Theorem get_random_wallet_in_pool (network : string) (choice : nat) :
  (exists wallet,
     get_random_wallet network choice = inr wallet /\
     wallet ∈ WALLETS_get network) /\
  (network ∉ ["USDT BEP20"; "USDT ERC20"; "Solana"; "Ethereum"; "BNB SmartChain"] ->
   WALLETS_get network = WALLETS_USDT_BEP20).
Proof.
  split.
  - destruct (random_choice_elem choice (WALLETS_get network)
                (WALLETS_get_nonempty network)) as (w & Hw & Hin).
    exists w. unfold get_random_wallet. by rewrite Hw.
  - intros Hno. rewrite !not_elem_of_cons in Hno.
    destruct Hno as (H1 & H2 & H3 & H4 & H5 & _). unfold WALLETS_get.
    apply String.eqb_neq in H1, H2, H3, H4, H5.
    by rewrite H1, H2, H3, H4, H5.
Qed.

(** X3: for every sequence of draws, [generate_referral_code] returns a
    code of exactly 8 characters, each one of the 32 characters of its
    alphabet; so a code never holds one of I, O, 0 and 1. *)
Theorem generate_referral_code_alphabet (draw : nat -> nat) :
  exists code,
    generate_referral_code draw = inr code /\
    String.length code = 8%nat /\
    Forall (fun c => c ∈ referral_alphabet /\ c ∉ ambiguous) (chars code).
Proof.
  unfold generate_referral_code.
  destruct (mapM _ _) as [picked|] eqn:E.
  - exists (String.string_of_list_ascii picked). split; [done|].
    apply mapM_Some in E.
    split.
    + pose proof (Forall2_length _ _ _ E) as Hlen. simpl in Hlen.
      rewrite Hlen. clear.
      induction picked as [|c l IH]; simpl; [done|]. by rewrite IH.
    + unfold chars. rewrite String.list_ascii_of_string_of_list_ascii.
      apply Forall_forall. intros c Hc.
      apply list_elem_of_lookup in Hc as [i Hi].
      destruct (Forall2_lookup_r _ _ _ _ _ E Hi) as (j & _ & Hj).
      apply random_choice_Some in Hj.
      fold (chars "ABCDEFGHJKLMNPQRSTUVWXYZ23456789") in Hj.
      fold referral_alphabet in Hj. split; [done|].
      clear Hi. revert c Hj. apply Forall_forall.
      apply (bool_decide_unpack _). by vm_compute.
  - exfalso. apply eq_None_not_Some in E. apply E.
    apply mapM_is_Some, Forall_forall. intros i _.
    destruct (random_choice_elem (draw i)
                (String.list_ascii_of_string "ABCDEFGHJKLMNPQRSTUVWXYZ23456789"))
      as (x & Hx & _); [done|].
    unfold compose. rewrite Hx. by eexists.
Qed.

(** ** utils.py: [add_days] and [is_same_day] *)

Lemma date_add_days a n : date (add_days a n) = date a + n.
Proof.
  unfold date, add_days, timedelta_days.
  replace (a + n * 86400 * 1000000) with (a + n * (1 * 86400 * 1000000)) by lia.
  by rewrite Z.div_add.
Qed.

(** X4: [is_same_day] is false when the first date is missing; a date
    and the date [n] days later ([add_days]) are the same day exactly
    when [n] is 0; and two dates of the same day are less than a day
    apart. *)
Theorem is_same_day_add_days (a b n : Z) :
  is_same_day None b = false /\
  (is_same_day (Some a) (add_days a n) = true <-> n = 0) /\
  (is_same_day (Some a) b = true -> Z.abs (b - a) < timedelta_days 1).
Proof.
  split; [done|]. split.
  - simpl. rewrite date_add_days. rewrite Z.eqb_eq. lia.
  - simpl. rewrite Z.eqb_eq. unfold date.
    assert (0 < timedelta_days 1) as Hpos by done.
    generalize dependent (timedelta_days 1). intros D HD Heq.
    pose proof (Z.div_mod a D ltac:(lia)) as Ha.
    pose proof (Z.div_mod b D ltac:(lia)) as Hb.
    pose proof (Z.mod_pos_bound a D HD).
    pose proof (Z.mod_pos_bound b D HD).
    rewrite Heq in Ha. nia.
Qed.

(** ** utils.py: two requests to the wallet pool *)

Lemma get_available_wallet_result network u t c cache res s :
  get_available_wallet network u t c cache = Ok res s ->
  (exists wait, res = (None, Some wait) /\ s = clean_assignments t cache) \/
  (exists w, res = (Some w, None) /\
             w ∈ WALLETS_get network /\
             is_available (clean_assignments t cache) u w = true /\
             s = <[w := lease_of network u t]> (clean_assignments t cache)).
Proof.
  unfold get_available_wallet. munfold.
  destruct (List.filter _ _) as [|x l] eqn:E.
  - destruct (oldest _) as [[ow a]|]; [|done].
    destruct (Qgtb _ _); [intros [= <- <-]; left; by eexists|].
    by unfold assign_wallet.
  - unfold assign_wallet. destruct (random_choice c (x :: l)) as [w|] eqn:Hw; [|done].
    munfold. intros [= <- <-]. right. exists w.
    apply random_choice_Some in Hw. rewrite <- E in Hw.
    apply list_elem_of_In, filter_In in Hw as [Hin Hav].
    by rewrite <- list_elem_of_In in Hin.
Qed.

Lemma get_available_wallet_granted network h t c cache w cache1 :
  get_available_wallet network (Some h) t c cache = Ok (Some w, None) cache1 ->
  cache1 = <[w := lease network h t]> (clean_assignments t cache).
Proof.
  intros H. apply get_available_wallet_result in H
    as [(wait & [=] & _)|(w' & [= <-] & _ & _ & ->)].
  done.
Qed.

(** X5: once a request has leased an address to a holder, for the next
    300 seconds no request of anyone else is given that address, on
    whatever network, and the lease stays recorded; the holder asking
    again for a network that has the address is served, never made to
    wait; and from 300 seconds on the lease is swept, so that a request
    for a network that has the address is served. *)
Theorem wallet_lease_exclusive (net1 net2 : string) (h : positive)
    (t1 t2 : Q) (c1 c2 : nat) (cache cache1 : gmap string Assignment.t) (w : string) :
  get_available_wallet net1 (Some h) t1 c1 cache = Ok (Some w, None) cache1 ->
  ((t2 < t1 + 300)%Q ->
   (forall u2 res s,
      u2 <> Some h ->
      get_available_wallet net2 u2 t2 c2 cache1 = Ok res s ->
      res.1 <> Some w /\ s !! w = Some (lease net1 h t1)) /\
   (w ∈ WALLETS_get net2 ->
    exists w',
      get_available_wallet net2 (Some h) t2 c2 cache1
      = Ok (Some w', None)
           (<[w' := lease net2 h t2]> (clean_assignments t2 cache1)))) /\
  ((t1 + 300 <= t2)%Q ->
   clean_assignments t2 cache1 !! w = None /\
   (w ∈ WALLETS_get net2 ->
    forall h2, exists w',
      get_available_wallet net2 (Some h2) t2 c2 cache1
      = Ok (Some w', None)
           (<[w' := lease net2 h2 t2]> (clean_assignments t2 cache1)))).
Proof.
  intros H1. apply get_available_wallet_granted in H1. subst cache1.
  set (cache1 := <[w := lease net1 h t1]> (clean_assignments t1 cache)).
  split.
  - intros Hlt.
    assert (clean_assignments t2 cache1 !! w = Some (lease net1 h t1)) as Hw.
    { apply clean_assignments_lookup. split; [apply lookup_insert_eq|done]. }
    split.
    + intros u2 res s Hu2 H2.
      apply get_available_wallet_result in H2
        as [(wait & -> & ->)|(w' & -> & _ & Hav & ->)]; [done|].
      assert (w' <> w) as Hne.
      { intros ->. unfold is_available in Hav. rewrite Hw in Hav.
        destruct u2 as [u|]; [|done]. simpl in Hav.
        apply Pos.eqb_eq in Hav. congruence. }
      split; [simpl; congruence|]. by rewrite lookup_insert_ne.
    + intros Hin.
      destruct (get_available_wallet_grant net2 h t2 c2 cache1) as (w' & Hrun & _).
      * intros Hnil.
        assert (w ∈ List.filter (is_available (clean_assignments t2 cache1) (Some h))
                      (WALLETS_get net2)) as Hw'.
        { apply elem_of_available_wallets. split; [done|]. right.
          by exists (lease net1 h t1). }
        rewrite Hnil in Hw'. by apply elem_of_nil in Hw'.
      * by exists w'.
  - intros Hge.
    assert (clean_assignments t2 cache1 !! w = None) as Hw.
    { destruct (clean_assignments t2 cache1 !! w) as [a|] eqn:E; [|done].
      apply clean_assignments_lookup in E as [E Hlt].
      unfold cache1 in E. rewrite lookup_insert_eq in E. injection E as <-.
      simpl in Hlt. lra. }
    split; [done|]. intros Hin h2.
    destruct (get_available_wallet_grant net2 h2 t2 c2 cache1) as (w' & Hrun & _).
    + intros Hnil.
      assert (w ∈ List.filter (is_available (clean_assignments t2 cache1) (Some h2))
                    (WALLETS_get net2)) as Hw'.
      { apply elem_of_available_wallets. split; [done|]. by left. }
      rewrite Hnil in Hw'. by apply elem_of_nil in Hw'.
    + by exists w'.
Qed.

Lemma wallet_lease_exclusive_witness :
  exists cache1,
    get_available_wallet "Solana" (Some 1%positive) 1000%Q 3 ∅
    = Ok (Some "8QpPjcp6AYuxx7t5B8Zc1vnCnux52r25KUkWsQzSunUA", None) cache1 /\
    clean_assignments 1300%Q cache1
      !! "8QpPjcp6AYuxx7t5B8Zc1vnCnux52r25KUkWsQzSunUA" = None.
Proof.
  exists (store (get_available_wallet "Solana" (Some 1%positive) 1000%Q 3 ∅)).
  assert (get_available_wallet "Solana" (Some 1%positive) 1000%Q 3 ∅
          = Ok (Some "8QpPjcp6AYuxx7t5B8Zc1vnCnux52r25KUkWsQzSunUA", None)
               (store (get_available_wallet "Solana" (Some 1%positive) 1000%Q 3 ∅)))
    as H1 by by vm_compute.
  split; [exact H1|].
  destruct (wallet_lease_exclusive "Solana" "Solana" 1 1000%Q 1300%Q 3 0 _ _ _ H1)
    as [_ Hfree].
  apply Hfree. by vm_compute.
Defined.

(** ** models.py: more on [get_rank] and [update_rank] *)

(** X6: [get_rank] is monotone: of two accounts that both get a rank,
    the one with the larger principal balance gets a band whose
    [min_balance] is not lower, whatever the table of bands. *)
Theorem get_rank_monotone (ranks : list Rank.t) (p1 p2 : Profile.t) (r1 r2 : Rank.t) :
  get_rank ranks p1 = Some r1 ->
  get_rank ranks p2 = Some r2 ->
  (Profile.principal_balance p1 <= Profile.principal_balance p2)%Q ->
  (Rank.min_balance r1 <= Rank.min_balance r2)%Q.
Proof.
  intros H1 H2 Hle.
  apply get_rank_Some in H1 as (_ & _ & [Hlo1 _] & Hmin1).
  apply get_rank_Some in H2 as (_ & Hin2 & [Hlo2 Hhi2] & _).
  destruct (Qlt_le_dec (Rank.min_balance r2) (Rank.min_balance r1)) as [Hlt|]; [|done].
  apply Hmin1; [done|]. split; [lra|].
  destruct (Rank.max_balance r2); [lra|done].
Qed.

Lemma get_rank_monotone_witness :
  (Rank.min_balance band_low <= Rank.min_balance band_high)%Q.
Proof.
  apply (get_rank_monotone scenario_ranks
           (mk_profile None 50%Q 0%Q) (mk_profile None 150%Q 10%Q)).
  - by vm_compute.
  - by vm_compute.
  - by vm_compute.
Defined.

(** X7: for a profile as its row stores it, [update_rank] returns the
    rank [get_rank] computes, stores it in the row and changes nothing
    else of the row and no other row; the stored rank is then the rank
    of the principal balance, and a second [update_rank] leaves the
    store as it is. *)
Theorem update_rank_idempotent (uid : positive) (p : Profile.t) (db : DB) :
  Profile_objects db !! uid = Some p ->
  fk_resolves (Rank_objects db) p ->
  exists db',
    update_rank uid p db
    = Ok (with_rank (Rank_objects db) p, get_rank (Rank_objects db) p) db' /\
    db' = upd_Profile_objects (insert uid (with_rank (Rank_objects db) p)) db /\
    Profile.locked_balance (with_rank (Rank_objects db) p) = Profile.locked_balance p /\
    Profile.withdrawable_balance (with_rank (Rank_objects db) p)
    = Profile.withdrawable_balance p /\
    rank_consistent db' uid /\
    update_rank uid (with_rank (Rank_objects db) p) db'
    = Ok (with_rank (Rank_objects db) p, get_rank (Rank_objects db) p) db'.
Proof.
  intros Hp Hfk. eexists. split; [by apply update_rank_ok|].
  split; [done|]. split; [done|]. split; [done|]. split.
  - exists (with_rank (Rank_objects db) p). simpl. by rewrite lookup_insert_eq.
  - rewrite update_rank_ok with (p := with_rank (Rank_objects db) p).
    + simpl. f_equal. unfold upd_Profile_objects. simpl.
      by rewrite insert_insert_eq.
    + simpl. by rewrite lookup_insert_eq.
    + apply fk_resolves_get_rank.
Qed.

Lemma update_rank_idempotent_witness :
  rank_consistent
    (store (update_rank 1 (mk_profile (Some 1%positive) 99%Q 5%Q)
              (store (complete_pending_trades (timedelta_seconds 40) db_trade)))) 1.
Proof.
  destruct (update_rank_idempotent 1 (mk_profile (Some 1%positive) 99%Q 5%Q)
              (store (complete_pending_trades (timedelta_seconds 40) db_trade)))
    as (db' & Hrun & _ & _ & _ & Hcons & _).
  - by vm_compute.
  - apply (bool_decide_unpack _). by vm_compute.
  - rewrite Hrun. exact Hcons.
Defined.

(** ** views.py: [calculate_daily_profit] *)

(** A credit that is not negative does not lower a balance in whole
    cents. *)
Lemma pay_not_below w a :
  is_cents w -> (0 <= a)%Q -> (w <= quantize (w + a))%Q.
Proof.
  intros Hc Ha. rewrite <- (quantize_cents _ Hc) at 1. apply quantize_mono. lra.
Qed.

Lemma calculate_daily_profit_paid uid db p r :
  Profile_objects db !! uid = Some p ->
  (0 < Profile.locked_balance p)%Q ->
  get_rank (Rank_objects db) p = Some r ->
  (0 < Rank.daily_profit_pct r)%Q ->
  calculate_daily_profit uid db
  = Ok (Some (daily_profit r p))
       (upd_Profile_objects (insert uid (pay_stored (daily_profit r p) p)) db) /\
  (0 < daily_profit r p)%Q.
Proof.
  intros Hp Hl Hr Hpct.
  assert (0 < daily_profit r p)%Q as Hpos.
  { unfold daily_profit. apply Qmult_lt_0_compat; [done|].
    apply Qlt_shift_div_l; [done|lra]. }
  split; [|done].
  unfold calculate_daily_profit. munfold. rewrite Hp.
  apply Qleb_gt in Hl. rewrite Hl. rewrite Hr.
  unfold Rank_daily_profit_percentage. fold (daily_profit r p).
  apply Qleb_gt in Hpos. rewrite Hpos.
  unfold Profile_save_withdrawable_balance. munfold. f_equal.
  fold (pay_stored (daily_profit r p) p).
  rewrite (upd_Profile_objects_alter _ _ _ _ Hp). done.
Qed.


(** X9: [calculate_daily_profit] keeps no record of the day: called
    again at once, on the store its payment left, it pays again whenever
    the account, with the balance the first payment stored, still has a
    rank of positive percentage. Each payment stores the balance plus
    the amount, quantised to two decimals: a balance in whole cents never
    goes down, and when the balance and both amounts are whole numbers of
    cents it has grown by both amounts, hence strictly. *)
Theorem calculate_daily_profit_pays_again (uid : positive) (db : DB)
    (p : Profile.t) (r r' : Rank.t) :
  Profile_objects db !! uid = Some p ->
  (0 < Profile.locked_balance p)%Q ->
  get_rank (Rank_objects db) p = Some r ->
  (0 < Rank.daily_profit_pct r)%Q ->
  get_rank (Rank_objects db) (pay_stored (daily_profit r p) p) = Some r' ->
  (0 < Rank.daily_profit_pct r')%Q ->
  exists db1 db2 p1 p2,
    calculate_daily_profit uid db = Ok (Some (daily_profit r p)) db1 /\
    Profile_objects db1 !! uid = Some p1 /\
    calculate_daily_profit uid db1 = Ok (Some (daily_profit r' p)) db2 /\
    Profile_objects db2 !! uid = Some p2 /\
    (0 < daily_profit r p)%Q /\ (0 < daily_profit r' p)%Q /\
    Profile.locked_balance p2 = Profile.locked_balance p /\
    Profile.withdrawable_balance p1
    = quantize (Profile.withdrawable_balance p + daily_profit r p)%Q /\
    Profile.withdrawable_balance p2
    = quantize (Profile.withdrawable_balance p1 + daily_profit r' p)%Q /\
    (is_cents (Profile.withdrawable_balance p) ->
     (Profile.withdrawable_balance p <= Profile.withdrawable_balance p1
      <= Profile.withdrawable_balance p2)%Q) /\
    (is_cents (Profile.withdrawable_balance p) ->
     is_cents (daily_profit r p) -> is_cents (daily_profit r' p) ->
     (Profile.withdrawable_balance p2
      == Profile.withdrawable_balance p + daily_profit r p + daily_profit r' p)%Q /\
     (Profile.withdrawable_balance p < Profile.withdrawable_balance p1
      < Profile.withdrawable_balance p2)%Q).
Proof.
  intros Hp Hl Hr Hpct Hr' Hpct'.
  destruct (calculate_daily_profit_paid uid db p r Hp Hl Hr Hpct) as [Hrun Hpos].
  set (db1 := upd_Profile_objects (insert uid (pay_stored (daily_profit r p) p)) db) in *.
  destruct (calculate_daily_profit_paid uid db1 (pay_stored (daily_profit r p) p) r')
    as [Hrun' Hpos']; [by apply lookup_insert_eq|done..|].
  change (daily_profit r' (pay_stored (daily_profit r p) p)) with (daily_profit r' p) in *.
  set (w := Profile.withdrawable_balance p) in *.
  set (a := daily_profit r p) in *. set (a' := daily_profit r' p) in *.
  eexists db1, _, (pay_stored a p), _. split; [exact Hrun|].
  split; [apply lookup_insert_eq|]. split; [exact Hrun'|].
  split; [apply lookup_insert_eq|]. split; [done|]. split; [done|].
  split; [done|]. split; [done|]. split; [done|]. simpl. fold w.
  assert (is_cents (quantize (w + a)%Q)) as Hc1 by apply quantize_is_cents.
  split.
  - intros Hc. split; [apply pay_not_below; [done|lra]|].
    apply pay_not_below; [done|lra].
  - intros Hc Ha Ha'.
    assert (quantize (w + a)%Q == w + a)%Q as E1
      by (apply quantize_cents; by apply is_cents_plus).
    assert (quantize (quantize (w + a)%Q + a')%Q == quantize (w + a)%Q + a')%Q as E2
      by (apply quantize_cents; by apply is_cents_plus).
    rewrite E2, E1. split; [lra|]. split; lra.
Qed.

Lemma calculate_daily_profit_pays_again_witness :
  exists a db1 db2 p2,
    calculate_daily_profit 1 db_scenario = Ok (Some a) db1 /\
    calculate_daily_profit 1 db1 = Ok (Some a) db2 /\
    (a == 20)%Q /\
    Profile_objects db2 !! 1%positive = Some p2 /\
    (Profile.withdrawable_balance p2 == 40)%Q.
Proof.
  destruct (calculate_daily_profit_pays_again 1 db_scenario
              (mk_profile (Some 2%positive) 200%Q 0%Q) band_high band_high)
    as (db1 & db2 & p1 & p2 & H1 & _ & H2 & Hp2 & _ & _ & _ & Hw1 & Hw2 & _).
  - by vm_compute.
  - by vm_compute.
  - by vm_compute.
  - by vm_compute.
  - by vm_compute.
  - by vm_compute.
  - exists (daily_profit band_high (mk_profile (Some 2%positive) 200%Q 0%Q)), db1, db2, p2.
    split; [exact H1|]. split; [exact H2|]. split; [by vm_compute|].
    split; [exact Hp2|]. rewrite Hw2, Hw1. by vm_compute.
Defined.
(** ** views.py: [copy_trade_simulate_view] *)

Lemma get_concurrent_copy_trades_opened uid u pair action r_lot now db :
  get_concurrent_copy_trades u now
    (upd_CopyTrade_objects
       (fun rows => rows ++ [opened_trade uid pair action r_lot now db]) db)
  = if Pos.eqb uid u then get_concurrent_copy_trades u now db + 1
    else get_concurrent_copy_trades u now db.
Proof.
  unfold get_concurrent_copy_trades. simpl. rewrite List.filter_app, length_app.
  simpl. unfold in_last_24_hours at 2. simpl.
  destruct (Pos.eqb uid u); simpl.
  - assert ((now - timedelta_hours 24 <=? now) = true) as ->
      by (apply Z.leb_le; unfold timedelta_hours; lia).
    simpl. lia.
  - lia.
Qed.

Lemma copy_trade_simulate_view_ok uid now pair_choice action_choice r_lot r1 r2 db p r :
  Profile_objects db !! uid = Some p ->
  get_rank (Rank_objects db) p = Some r ->
  get_concurrent_copy_trades uid now db < Rank.copy_trades_limit r ->
  exists pair action,
    pair ∈ PAIRS /\ action ∈ ["buy"; "sell"] /\
    copy_trade_simulate_view uid now pair_choice action_choice r_lot r1 r2 db
    = Ok [trades_used; trade_submitted (0.01 + 0.09 * r_lot)%Q]
         (upd_CopyTrade_objects
            (fun rows => rows ++ [opened_trade uid pair action r_lot now db]) db).
Proof.
  intros Hp Hr Hlt.
  destruct (random_choice_elem pair_choice PAIRS) as (pair & Hpair & Hin); [done|].
  destruct (random_choice_elem action_choice ["buy"; "sell"]) as (action & Hact & Hin');
    [done|].
  exists pair, action. split; [done|]. split; [done|].
  unfold copy_trade_simulate_view, get_profile_or_404. munfold. rewrite Hp, Hr.
  unfold Rank_max_copy_trades.
  apply Z.leb_gt in Hlt. rewrite Hlt.
  apply get_rank_Some in Hr as (Hpos & _).
  apply Qleb_gt in Hpos. rewrite Hpos, Hpair, Hact. done.
Qed.

(** X10: [copy_trade_simulate_view] refuses, with a warning and without
    a change to the store, an account for which [get_rank] gives no rank
    and an account that has opened, in the 24 hours before the request,
    at least as many trades as the limit of its rank. The warning of an
    insufficient balance is never given: an account that has a rank has
    a positive principal balance. Without a profile the view answers
    404. *)
Theorem copy_trade_simulate_view_refuses (uid : positive) (now : Z)
    (pair_choice action_choice : nat) (r_lot r1 r2 : Q) (db : DB) :
  (Profile_objects db !! uid = None ->
   copy_trade_simulate_view uid now pair_choice action_choice r_lot r1 r2 db
   = Raise Http404 db) /\
  (forall p,
     Profile_objects db !! uid = Some p -> get_rank (Rank_objects db) p = None ->
     copy_trade_simulate_view uid now pair_choice action_choice r_lot r1 r2 db
     = Ok [no_rank_assigned] db) /\
  (forall p r,
     Profile_objects db !! uid = Some p -> get_rank (Rank_objects db) p = Some r ->
     Rank.copy_trades_limit r <= get_concurrent_copy_trades uid now db ->
     copy_trade_simulate_view uid now pair_choice action_choice r_lot r1 r2 db
     = Ok [limit_reached] db) /\
  (forall queued db',
     copy_trade_simulate_view uid now pair_choice action_choice r_lot r1 r2 db
     = Ok queued db' ->
     insufficient_balance ∉ queued).
Proof.
  split; [|split; [|split]].
  - intros Hp. unfold copy_trade_simulate_view, get_profile_or_404. munfold.
    by rewrite Hp.
  - intros p Hp Hr. unfold copy_trade_simulate_view, get_profile_or_404. munfold.
    by rewrite Hp, Hr.
  - intros p r Hp Hr Hle. unfold copy_trade_simulate_view, get_profile_or_404. munfold.
    rewrite Hp, Hr. unfold Rank_max_copy_trades.
    apply Z.leb_le in Hle. by rewrite Hle.
  - intros queued db' Hrun.
    destruct (Profile_objects db !! uid) as [p|] eqn:Hp.
    + destruct (get_rank (Rank_objects db) p) as [r|] eqn:Hr.
      * destruct (Z_lt_le_dec (get_concurrent_copy_trades uid now db)
                    (Rank.copy_trades_limit r)) as [Hlt|Hle].
        -- destruct (copy_trade_simulate_view_ok uid now pair_choice action_choice
                       r_lot r1 r2 db p r Hp Hr Hlt) as (pair & action & _ & _ & Hok).
           rewrite Hok in Hrun. injection Hrun as <- <-.
           intros Hin. apply elem_of_cons in Hin as [?|Hin]; [done|].
           apply list_elem_of_singleton in Hin. done.
        -- revert Hrun. unfold copy_trade_simulate_view, get_profile_or_404. munfold.
           rewrite Hp, Hr. unfold Rank_max_copy_trades.
           apply Z.leb_le in Hle. rewrite Hle. intros [= <- <-].
           by intros ?%list_elem_of_singleton.
      * revert Hrun. unfold copy_trade_simulate_view, get_profile_or_404. munfold.
        rewrite Hp, Hr. intros [= <- <-]. by intros ?%list_elem_of_singleton.
    + revert Hrun. unfold copy_trade_simulate_view, get_profile_or_404. munfold.
      by rewrite Hp.
Qed.

(** X11: for an account whose rank ([get_rank]) allows more trades than
    it has opened in the 24 hours before the request,
    [copy_trade_simulate_view] adds exactly one row to [CopyTrade]: a
    pending trade of the account, created at the time of the request,
    with profit 0, a pair of [PAIRS], the action buy or sell, and as
    amount the lot [0.01 + 0.09 * r_lot] quantised to two decimals. For a
    draw [r_lot] of [[0, 1)] the lot lies in [[0.01, 0.10)] and the amount
    stored in [[0.01, 0.10]], within half a cent of the lot. No balance
    and no other table changes, the count of the account for the last 24
    hours goes up by one and so stays within the limit, and the counts of
    the other accounts stay. *)
Theorem copy_trade_simulate_view_opens (uid : positive) (now : Z)
    (pair_choice action_choice : nat) (r_lot r1 r2 : Q) (db : DB)
    (p : Profile.t) (r : Rank.t) :
  Profile_objects db !! uid = Some p ->
  get_rank (Rank_objects db) p = Some r ->
  get_concurrent_copy_trades uid now db < Rank.copy_trades_limit r ->
  (0 <= r_lot < 1)%Q ->
  let lot := (0.01 + 0.09 * r_lot)%Q in
  exists pair action db',
    copy_trade_simulate_view uid now pair_choice action_choice r_lot r1 r2 db
    = Ok [trades_used; trade_submitted lot] db' /\
    db' = upd_CopyTrade_objects
            (fun rows => rows ++
               [ {| CopyTrade.id := next_id CopyTrade.id (CopyTrade_objects db);
                    CopyTrade.user := uid; CopyTrade.pair := pair;
                    CopyTrade.action := action;
                    CopyTrade.amount := quantize lot;
                    CopyTrade.profit := quantize 0%Q;
                    CopyTrade.status := CopyTrade.pending;
                    CopyTrade.created_at := now |} ]) db /\
    pair ∈ PAIRS /\ (action = "buy" \/ action = "sell") /\
    (0.01 <= lot < 0.10)%Q /\
    (0.01 <= quantize lot <= 0.10)%Q /\
    (quantize lot - (1 # 200) <= lot <= quantize lot + (1 # 200))%Q /\
    (quantize 0%Q == 0)%Q /\
    Profile_objects db' = Profile_objects db /\
    get_concurrent_copy_trades uid now db' = get_concurrent_copy_trades uid now db + 1 /\
    get_concurrent_copy_trades uid now db' <= Rank.copy_trades_limit r /\
    (forall u, u <> uid ->
               get_concurrent_copy_trades u now db' = get_concurrent_copy_trades u now db).
Proof.
  intros Hp Hr Hlt Hlot lot.
  destruct (copy_trade_simulate_view_ok uid now pair_choice action_choice
              r_lot r1 r2 db p r Hp Hr Hlt) as (pair & action & Hpair & Hact & Hok).
  exists pair, action. eexists. split; [exact Hok|]. split; [done|].
  split; [done|]. split.
  { apply elem_of_cons in Hact as [->|Hact]; [by left|].
    apply list_elem_of_singleton in Hact. by right. }
  assert (0.01 <= lot < 0.10)%Q as Hb by (unfold lot; lra).
  split; [exact Hb|]. split.
  { assert (quantize 0.01 == 0.01)%Q as E1 by reflexivity.
    assert (quantize 0.10 == 0.10)%Q as E2 by reflexivity.
    split.
    - rewrite <- E1. apply quantize_mono. lra.
    - rewrite <- E2. apply quantize_mono. lra. }
  split; [apply quantize_near|]. split; [reflexivity|]. split; [done|].
  fold (opened_trade uid pair action r_lot now db).
  rewrite !get_concurrent_copy_trades_opened. rewrite Pos.eqb_refl.
  split; [done|]. split; [lia|].
  intros u Hu. rewrite get_concurrent_copy_trades_opened.
  destruct (Pos.eqb_spec uid u); [congruence|done].
Qed.

Lemma copy_trade_simulate_view_opens_witness :
  exists db' t,
    copy_trade_simulate_view 1 (timedelta_seconds 3600) 0 1 0.95%Q 0.5%Q 0.5%Q db_two_trades
    = Ok [trades_used; trade_submitted (0.01 + 0.09 * 0.95)%Q] db' /\
    get_concurrent_copy_trades 1 (timedelta_seconds 3600) db' = 3 /\
    last (CopyTrade_objects db') = Some t /\
    (CopyTrade.amount t == 0.10)%Q.
Proof.
  destruct (copy_trade_simulate_view_opens 1 (timedelta_seconds 3600) 0 1
              0.95%Q 0.5%Q 0.5%Q db_two_trades
              (mk_profile (Some 2%positive) 200%Q 0%Q) band_high)
    as (pair & action & db' & Hrun & -> & _ & _ & _ & _ & _ & _ & _ & Hcount & _).
  - by vm_compute.
  - by vm_compute.
  - by vm_compute.
  - split; by vm_compute.
  - eexists _, _. split; [exact Hrun|]. split; [rewrite Hcount; by vm_compute|].
    split; [reflexivity|]. by vm_compute.
Defined.
(** ** views.py: the decision on a deposit *)

Lemma get_row_update_row {A} (pk : A -> positive) i f rows (r : A) :
  (forall x, pk (f x) = pk x) ->
  get_row pk i rows = Some r ->
  get_row pk i (update_row pk i f rows) = Some (f r).
Proof.
  intros Hpk. unfold get_row, update_row.
  induction rows as [|x rows IH]; simpl; [done|].
  destruct (Pos.eqb (pk x) i) eqn:E; simpl.
  - rewrite Hpk, E. by intros [= ->].
  - rewrite E. exact IH.
Qed.

Lemma get_row_None {A} (pk : A -> positive) i f rows :
  (forall x, pk (f x) = pk x) ->
  get_row pk i rows = None ->
  update_row pk i f rows = rows.
Proof.
  intros Hpk. unfold get_row, update_row.
  induction rows as [|x rows IH]; simpl; [done|].
  destruct (Pos.eqb (pk x) i) eqn:E; [done|]. intros H. by rewrite IH.
Qed.

Lemma find_deposit_paystack pk db d :
  get_row Deposit.id pk (Deposit_objects db) = None ->
  get_row LocalDeposit.id pk (LocalDeposit_objects db) = Some d ->
  find_deposit pk db = Ok (paystack d) db.
Proof. intros H1 H2. unfold find_deposit. by rewrite H1, H2. Qed.

Lemma find_deposit_404 pk db :
  get_row Deposit.id pk (Deposit_objects db) = None ->
  get_row LocalDeposit.id pk (LocalDeposit_objects db) = None ->
  find_deposit pk db = Raise Http404 db.
Proof. intros H1 H2. unfold find_deposit. by rewrite H1, H2. Qed.

Lemma status_eqb_pending d :
  Deposit.status_eqb (Deposit.status d) Deposit.pending = true <->
  Deposit.status d = Deposit.pending.
Proof. by destruct (Deposit.status d). Qed.

Lemma local_status_eqb_pending d :
  LocalDeposit.status_eqb (LocalDeposit.status d) LocalDeposit.pending = true <->
  LocalDeposit.status d = LocalDeposit.pending.
Proof. by destruct (LocalDeposit.status d). Qed.

Lemma deposit_pending_or_not d :
  Deposit.status d = Deposit.pending \/ Deposit.status d <> Deposit.pending.
Proof. destruct (Deposit.status d); [by left|by right..]. Qed.

Lemma local_deposit_pending_or_not d :
  LocalDeposit.status d = LocalDeposit.pending \/
  LocalDeposit.status d <> LocalDeposit.pending.
Proof. destruct (LocalDeposit.status d); [by left|by right..]. Qed.

Lemma approve_not_pending pk now db d :
  get_row Deposit.id pk (Deposit_objects db) = Some d ->
  Deposit.status d <> Deposit.pending ->
  admin_deposit_approve_view pk now db = Ok crypto_not_pending db.
Proof.
  intros Hd Hst. unfold admin_deposit_approve_view. munfold.
  rewrite (find_deposit_crypto _ _ _ Hd).
  destruct (Deposit.status_eqb _ _) eqn:E; [by apply status_eqb_pending in E|done].
Qed.

Lemma approve_no_profile pk now db d :
  get_row Deposit.id pk (Deposit_objects db) = Some d ->
  Deposit.status d = Deposit.pending ->
  Profile_objects db !! Deposit.user d = None ->
  admin_deposit_approve_view pk now db = Raise Http404 db.
Proof.
  intros Hd Hst Hp. unfold admin_deposit_approve_view. munfold.
  rewrite (find_deposit_crypto _ _ _ Hd), Hst. simpl.
  unfold get_profile_or_404. by rewrite Hp.
Qed.

Lemma reject_crypto pk now db d :
  get_row Deposit.id pk (Deposit_objects db) = Some d ->
  Deposit.status d = Deposit.pending ->
  admin_deposit_reject_view pk now db
  = Ok (Flash success "Crypto deposit {d.amount} rejected." (Some (Deposit.amount d)))
       (upd_Deposit_objects (update_row Deposit.id pk (rejection now)) db).
Proof.
  intros Hd Hst. unfold admin_deposit_reject_view. munfold.
  rewrite (find_deposit_crypto _ _ _ Hd), Hst. simpl.
  unfold Deposit_save_rejection. munfold. simpl.
  apply get_row_Some in Hd as [_ ->]. done.
Qed.

Lemma reject_not_pending pk now db d :
  get_row Deposit.id pk (Deposit_objects db) = Some d ->
  Deposit.status d <> Deposit.pending ->
  admin_deposit_reject_view pk now db = Ok crypto_not_pending db.
Proof.
  intros Hd Hst. unfold admin_deposit_reject_view. munfold.
  rewrite (find_deposit_crypto _ _ _ Hd).
  destruct (Deposit.status_eqb _ _) eqn:E; [by apply status_eqb_pending in E|done].
Qed.

Lemma reject_paystack pk now db d :
  get_row Deposit.id pk (Deposit_objects db) = None ->
  get_row LocalDeposit.id pk (LocalDeposit_objects db) = Some d ->
  LocalDeposit.status d = LocalDeposit.pending ->
  admin_deposit_reject_view pk now db
  = Ok (Flash success "Paystack deposit {d.amount_usdt} rejected."
          (Some (LocalDeposit.amount_usdt d)))
       (upd_LocalDeposit_objects
          (update_row LocalDeposit.id pk (LocalDeposit.set_status LocalDeposit.failed)) db).
Proof.
  intros Hn Hd Hst. unfold admin_deposit_reject_view. munfold.
  rewrite (find_deposit_paystack _ _ _ Hn Hd), Hst. simpl.
  unfold LocalDeposit_save_status. munfold. simpl.
  apply get_row_Some in Hd as [_ ->]. done.
Qed.

Lemma reject_paystack_not_pending pk now db d :
  get_row Deposit.id pk (Deposit_objects db) = None ->
  get_row LocalDeposit.id pk (LocalDeposit_objects db) = Some d ->
  LocalDeposit.status d <> LocalDeposit.pending ->
  admin_deposit_reject_view pk now db = Ok paystack_not_pending db.
Proof.
  intros Hn Hd Hst. unfold admin_deposit_reject_view. munfold.
  rewrite (find_deposit_paystack _ _ _ Hn Hd).
  destruct (LocalDeposit.status_eqb _ _) eqn:E;
    [by apply local_status_eqb_pending in E|done].
Qed.

(** X12: [admin_deposit_reject_view] looks the id up among the crypto
    deposits first and among the Paystack deposits only when no crypto
    deposit has it, and answers 404 when neither has. A pending crypto
    deposit gets the status rejected and the time of the rejection in
    [approved_at]; a pending Paystack deposit gets the status failed; a
    deposit that is not pending is refused with a warning and nothing is
    written. In every case the profiles (so every balance and rank), the
    referrals and the notifications stay as they are. *)
Theorem admin_deposit_reject_view_cases (pk : positive) (now : Z) (db : DB) :
  (forall d,
     get_row Deposit.id pk (Deposit_objects db) = Some d ->
     (Deposit.status d = Deposit.pending ->
      admin_deposit_reject_view pk now db
      = Ok (Flash success "Crypto deposit {d.amount} rejected." (Some (Deposit.amount d)))
           (upd_Deposit_objects
              (update_row Deposit.id pk
                 (fun row => Deposit.set_approved_at (Some now)
                               (Deposit.set_status Deposit.rejected row))) db)) /\
     (Deposit.status d <> Deposit.pending ->
      admin_deposit_reject_view pk now db = Ok crypto_not_pending db)) /\
  (forall d,
     get_row Deposit.id pk (Deposit_objects db) = None ->
     get_row LocalDeposit.id pk (LocalDeposit_objects db) = Some d ->
     (LocalDeposit.status d = LocalDeposit.pending ->
      admin_deposit_reject_view pk now db
      = Ok (Flash success "Paystack deposit {d.amount_usdt} rejected."
              (Some (LocalDeposit.amount_usdt d)))
           (upd_LocalDeposit_objects
              (update_row LocalDeposit.id pk
                 (LocalDeposit.set_status LocalDeposit.failed)) db)) /\
     (LocalDeposit.status d <> LocalDeposit.pending ->
      admin_deposit_reject_view pk now db = Ok paystack_not_pending db)) /\
  (get_row Deposit.id pk (Deposit_objects db) = None ->
   get_row LocalDeposit.id pk (LocalDeposit_objects db) = None ->
   admin_deposit_reject_view pk now db = Raise Http404 db) /\
  Profile_objects (store (admin_deposit_reject_view pk now db)) = Profile_objects db /\
  Referral_objects (store (admin_deposit_reject_view pk now db)) = Referral_objects db /\
  Notification_objects (store (admin_deposit_reject_view pk now db))
  = Notification_objects db.
Proof.
  split; [|split; [|split]].
  - intros d Hd. split; intros Hst;
      [by apply reject_crypto|by eapply reject_not_pending].
  - intros d Hn Hd. split; intros Hst;
      [by apply reject_paystack|by eapply reject_paystack_not_pending].
  - intros H1 H2. unfold admin_deposit_reject_view. munfold.
    by rewrite find_deposit_404.
  - destruct (get_row Deposit.id pk (Deposit_objects db)) as [d|] eqn:Hd.
    + destruct (deposit_pending_or_not d) as [Hst|Hst].
      * by rewrite (reject_crypto _ now _ _ Hd Hst).
      * by rewrite (reject_not_pending _ now _ _ Hd Hst).
    + destruct (get_row LocalDeposit.id pk (LocalDeposit_objects db)) as [d|] eqn:Hl.
      * destruct (local_deposit_pending_or_not d) as [Hst|Hst].
        -- by rewrite (reject_paystack _ now _ _ Hd Hl Hst).
        -- by rewrite (reject_paystack_not_pending _ now _ _ Hd Hl Hst).
      * unfold admin_deposit_reject_view. munfold. by rewrite find_deposit_404.
Qed.

(** The [Deposit] rows after the approval of a pending crypto deposit. *)
Lemma approve_crypto_deposits pk now db d po :
  fk_ok db ->
  get_row Deposit.id pk (Deposit_objects db) = Some d ->
  Deposit.status d = Deposit.pending ->
  Profile_objects db !! Deposit.user d = Some po ->
  Deposit_objects (store (admin_deposit_approve_view pk now db))
  = Deposit_objects (approval_saved now d db) /\
  LocalDeposit_objects (store (admin_deposit_approve_view pk now db))
  = LocalDeposit_objects db /\
  Profile_objects (store (admin_deposit_approve_view pk now db)) !! Deposit.user d
  = Some (with_rank (Rank_objects db) (credit (Deposit.amount d) po)).
Proof.
  intros Hfk Hd Hst Hpo. rewrite (approve_crypto pk now db d po Hfk Hd Hst Hpo).
  destruct (referral_bonus_ok (approval now d) (approval_saved now d db) Hfk)
    as (db' & Hrb & _ & HD & _ & _ & Hcases).
  rewrite Hrb. simpl. split; [exact HD|]. split; [|by rewrite lookup_insert_eq].
  by destruct Hcases as [[_ ->]|(rid & pr & _ & _ & _ & ->)].
Qed.

Lemma approval_saved_row pk now db d :
  get_row Deposit.id pk (Deposit_objects db) = Some d ->
  exists d', get_row Deposit.id pk (Deposit_objects (approval_saved now d db)) = Some d' /\
             Deposit.status d' = Deposit.approved.
Proof.
  intros Hd. pose proof (get_row_Some _ _ _ _ Hd) as [_ Hid].
  eexists. split; [|shelve]. unfold approval_saved. simpl. rewrite Hid.
  apply get_row_update_row; [done|exact Hd].
  Unshelve. done.
Qed.

(** X13: a deposit is decided once. After the approval of a pending
    crypto deposit, the owner's locked balance has grown by the amount,
    and a further approval or a rejection of the deposit is refused and
    changes nothing: the amount is credited once, and an approval cannot
    be withdrawn. After its rejection, nothing is credited, and a later
    approval or rejection is refused and changes nothing. *)
Theorem deposit_decided_once (pk : positive) (now now' : Z) (db : DB)
    (d : Deposit.t) (po : Profile.t) :
  fk_ok db ->
  get_row Deposit.id pk (Deposit_objects db) = Some d ->
  Deposit.status d = Deposit.pending ->
  Profile_objects db !! Deposit.user d = Some po ->
  let approved := store (admin_deposit_approve_view pk now db) in
  let rejected := store (admin_deposit_reject_view pk now db) in
  (exists po',
     Profile_objects approved !! Deposit.user d = Some po' /\
     Profile.locked_balance po' = (Profile.locked_balance po + Deposit.amount d)%Q) /\
  admin_deposit_approve_view pk now' approved = Ok crypto_not_pending approved /\
  admin_deposit_reject_view pk now' approved = Ok crypto_not_pending approved /\
  Profile_objects rejected = Profile_objects db /\
  admin_deposit_approve_view pk now' rejected = Ok crypto_not_pending rejected /\
  admin_deposit_reject_view pk now' rejected = Ok crypto_not_pending rejected.
Proof.
  intros Hfk Hd Hst Hpo approved rejected.
  destruct (approve_crypto_deposits pk now db d po Hfk Hd Hst Hpo) as (HD & _ & Hp).
  destruct (approval_saved_row pk now db d Hd) as (d' & Hd' & Hst').
  fold approved in HD, Hp. rewrite <- HD in Hd'.
  assert (Deposit.status d' <> Deposit.pending) as Hnp by by rewrite Hst'.
  split; [by eexists|].
  split; [by eapply approve_not_pending|].
  split; [by eapply reject_not_pending|].
  assert (rejected = upd_Deposit_objects (update_row Deposit.id pk (rejection now)) db)
    as Hrej.
  { unfold rejected. by rewrite (reject_crypto pk now db d Hd Hst). }
  assert (get_row Deposit.id pk (Deposit_objects rejected) = Some (rejection now d))
    as Hr.
  { rewrite Hrej. simpl. by apply get_row_update_row. }
  split; [by rewrite Hrej|].
  split; [by eapply approve_not_pending|by eapply reject_not_pending].
Qed.

Lemma deposit_decided_once_witness :
  admin_deposit_approve_view 1 30
    (store (admin_deposit_approve_view 1 20 db_referred))
  = Ok crypto_not_pending (store (admin_deposit_approve_view 1 20 db_referred)) /\
  admin_deposit_approve_view 1 30
    (store (admin_deposit_reject_view 1 20 db_referred))
  = Ok crypto_not_pending (store (admin_deposit_reject_view 1 20 db_referred)).
Proof.
  assert (fk_ok db_referred) as Hfk by (apply (bool_decide_unpack _); by vm_compute).
  destruct (deposit_decided_once 1 20 30 db_referred deposit_referred
              (mk_profile None 0%Q 0%Q) Hfk eq_refl eq_refl eq_refl)
    as (_ & H1 & _ & _ & H2 & _).
  split; [exact H1|exact H2].
Defined.

Lemma approve_paystack pk now db d po :
  fk_ok db ->
  get_row Deposit.id pk (Deposit_objects db) = None ->
  get_row LocalDeposit.id pk (LocalDeposit_objects db) = Some d ->
  LocalDeposit.status d = LocalDeposit.pending ->
  Profile_objects db !! LocalDeposit.user d = Some po ->
  admin_deposit_approve_view pk now db
  = Ok (Flash success "Paystack deposit {d.amount_usdt} approved."
          (Some (LocalDeposit.amount_usdt d)))
       (upd_Profile_objects
          (insert (LocalDeposit.user d)
             (with_rank (Rank_objects db) (credit (LocalDeposit.amount_usdt d) po)))
          (upd_LocalDeposit_objects (update_row LocalDeposit.id pk (payment now)) db)).
Proof.
  intros Hfk Hn Hd Hst Hpo. unfold admin_deposit_approve_view. munfold.
  rewrite (find_deposit_paystack _ _ _ Hn Hd), Hst. simpl.
  unfold get_profile_or_404. rewrite Hpo.
  unfold LocalDeposit_save_paid, Profile_save_locked_balance. munfold. simpl.
  fold (credit (LocalDeposit.amount_usdt d) po).
  rewrite update_rank_ok with (p := credit (LocalDeposit.amount_usdt d) po).
  - simpl. unfold with_rank, upd_Profile_objects. simpl.
    apply get_row_Some in Hd as [_ ->].
    f_equal. f_equal. by rewrite (alter_alt_Some _ _ _ _ Hpo), insert_insert_eq.
  - simpl. rewrite (alter_alt_Some _ _ _ _ Hpo). by rewrite lookup_insert_eq.
  - exact (Hfk _ _ Hpo).
Qed.

(** X14: the approval by hand of a pending Paystack deposit, reached
    only when no crypto deposit has the id, credits [amount_usdt] to the
    owner's locked balance, stores the recomputed rank, marks the row
    paid at the time of the approval and creates no referral. When a
    crypto deposit has the same id, neither the approval nor the
    rejection of that id ever writes to the Paystack deposit. *)
Theorem paystack_deposit_by_hand (pk : positive) (now : Z) (db : DB) :
  fk_ok db ->
  (forall d po,
     get_row Deposit.id pk (Deposit_objects db) = None ->
     get_row LocalDeposit.id pk (LocalDeposit_objects db) = Some d ->
     LocalDeposit.status d = LocalDeposit.pending ->
     Profile_objects db !! LocalDeposit.user d = Some po ->
     exists db' po',
       admin_deposit_approve_view pk now db
       = Ok (Flash success "Paystack deposit {d.amount_usdt} approved."
               (Some (LocalDeposit.amount_usdt d))) db' /\
       Profile_objects db' !! LocalDeposit.user d = Some po' /\
       Profile.locked_balance po'
       = (Profile.locked_balance po + LocalDeposit.amount_usdt d)%Q /\
       Profile.withdrawable_balance po' = Profile.withdrawable_balance po /\
       Profile.rank po' = Rank.id <$> get_rank (Rank_objects db') po' /\
       LocalDeposit_objects db'
       = update_row LocalDeposit.id pk
           (fun row => LocalDeposit.set_paid_at (Some now)
                         (LocalDeposit.set_status LocalDeposit.paid row))
           (LocalDeposit_objects db) /\
       Referral_objects db' = Referral_objects db /\
       Deposit_objects db' = Deposit_objects db) /\
  (forall c,
     get_row Deposit.id pk (Deposit_objects db) = Some c ->
     LocalDeposit_objects (store (admin_deposit_approve_view pk now db))
     = LocalDeposit_objects db /\
     LocalDeposit_objects (store (admin_deposit_reject_view pk now db))
     = LocalDeposit_objects db).
Proof.
  intros Hfk. split.
  - intros d po Hn Hd Hst Hpo. eexists _, _.
    split; [by apply approve_paystack|]. simpl.
    split; [by rewrite lookup_insert_eq|]. done.
  - intros c Hc. split.
    + destruct (deposit_pending_or_not c) as [Hst|Hst].
      * destruct (Profile_objects db !! Deposit.user c) as [po|] eqn:Hpo.
        -- by destruct (approve_crypto_deposits pk now db c po Hfk Hc Hst Hpo)
             as (_ & HL & _).
        -- by rewrite (approve_no_profile pk now db c Hc Hst Hpo).
      * by rewrite (approve_not_pending pk now db c Hc Hst).
    + destruct (deposit_pending_or_not c) as [Hst|Hst].
      * by rewrite (reject_crypto pk now db c Hc Hst).
      * by rewrite (reject_not_pending pk now db c Hc Hst).
Qed.

Lemma paystack_deposit_by_hand_witness :
  (exists f db' po',
     admin_deposit_approve_view 1 20 db_local = Ok f db' /\
     Profile_objects db' !! 1%positive = Some po' /\
     Profile.locked_balance po' = (0 + 40)%Q) /\
  LocalDeposit_objects (store (admin_deposit_approve_view 1 20 db_local_shadowed))
  = [local_deposit_40].
Proof.
  split.
  - assert (fk_ok db_local) as Hfk by (apply (bool_decide_unpack _); by vm_compute).
    destruct (paystack_deposit_by_hand 1 20 db_local Hfk) as [H _].
    destruct (H local_deposit_40 (mk_profile None 0%Q 0%Q) eq_refl eq_refl eq_refl eq_refl)
      as (db' & po' & Hrun & Hpo' & Hl & _).
    eexists _, db', po'. split; [exact Hrun|]. split; [exact Hpo'|exact Hl].
  - assert (fk_ok db_local_shadowed) as Hfk
      by (apply (bool_decide_unpack _); by vm_compute).
    destruct (paystack_deposit_by_hand 1 20 db_local_shadowed Hfk) as [_ H].
    destruct (H deposit_referred eq_refl) as [Ha _]. exact Ha.
Defined.

(** ** views.py: [admin_promo_toggle_view] *)

Lemma toggled_twice s : toggled (toggled s) = s.
Proof. by destruct s. Qed.

Lemma PromoCode_set_status_same c : PromoCode_set_status (PromoCode.status c) c = c.
Proof. by destruct c. Qed.

Lemma admin_promo_toggle_view_run pk db p :
  get_row PromoCode.id pk (PromoCode_objects db) = Some p ->
  admin_promo_toggle_view pk db
  = Ok (Flash success "Promo {p.status}." None, toggled (PromoCode.status p))
       (upd_PromoCode_objects
          (update_row PromoCode.id pk (PromoCode_set_status (toggled (PromoCode.status p))))
          db).
Proof.
  intros Hp. unfold admin_promo_toggle_view. munfold. rewrite Hp.
  unfold PromoCode_save_status. munfold. simpl.
  apply get_row_Some in Hp as [_ ->]. done.
Qed.

Lemma row_unique {A} (pk : A -> positive) rows (a b : A) :
  unique_ids pk rows -> a ∈ rows -> b ∈ rows -> pk a = pk b -> a = b.
Proof.
  unfold unique_ids. intros Hnd Ha Hb Hpk.
  apply list_elem_of_lookup in Ha as [i Hi]. apply list_elem_of_lookup in Hb as [j Hj].
  assert (i = j) as ->.
  { eapply NoDup_lookup; [exact Hnd| |].
    - rewrite list_lookup_fmap, Hi. done.
    - rewrite list_lookup_fmap, Hj. simpl. by rewrite Hpk. }
  congruence.
Qed.

Lemma update_row_id {A} (pk : A -> positive) i f rows :
  (forall r, r ∈ rows -> pk r = i -> f r = r) -> update_row pk i f rows = rows.
Proof.
  intros H. unfold update_row. induction rows as [|x rows IH]; simpl; [done|].
  rewrite IH by (intros r Hr; apply H; by right). f_equal.
  destruct (Pos.eqb_spec (pk x) i) as [E|E]; [|done]. apply H; [left|done].
Qed.

Lemma update_row_twice {A} (pk : A -> positive) i f g rows :
  (forall x, pk (g x) = pk x) ->
  update_row pk i f (update_row pk i g rows) = update_row pk i (fun x => f (g x)) rows.
Proof.
  intros Hpk. unfold update_row. rewrite map_map. apply map_ext. intros x.
  destruct (Pos.eqb (pk x) i) eqn:E; [by rewrite Hpk, E|by rewrite E].
Qed.

Lemma upd_PromoCode_objects_id f db :
  f (PromoCode_objects db) = PromoCode_objects db -> upd_PromoCode_objects f db = db.
Proof. intros H. destruct db. unfold upd_PromoCode_objects. simpl in *. by rewrite H. Qed.

(** X15: [admin_promo_toggle_view] turns an active promo into a
    disabled one and a disabled one into an active one, and changes
    nothing else; toggling twice gives back the store as it was. A code
    that has been disabled cannot be redeemed: [referral_view] answers
    that the code is invalid and writes nothing. An id that is not in the
    table gives a 404. *)
Theorem admin_promo_toggle_view_involution (pk : positive) (db : DB) (p : PromoCode.t) :
  unique_ids PromoCode.id (PromoCode_objects db) ->
  unique_codes (PromoCode_objects db) ->
  get_row PromoCode.id pk (PromoCode_objects db) = Some p ->
  exists db1,
    admin_promo_toggle_view pk db
    = Ok (Flash success "Promo {p.status}." None, toggled (PromoCode.status p)) db1 /\
    get_row PromoCode.id pk (PromoCode_objects db1)
    = Some (PromoCode_set_status (toggled (PromoCode.status p)) p) /\
    (forall r, r ∈ PromoCode_objects db -> PromoCode.id r <> pk ->
               r ∈ PromoCode_objects db1) /\
    Profile_objects db1 = Profile_objects db /\
    admin_promo_toggle_view pk db1
    = Ok (Flash success "Promo {p.status}." None, PromoCode.status p) db /\
    (PromoCode.status p = PromoCode.active ->
     forall uid now r pu,
       Profile_objects db !! uid = Some pu ->
       referral_view uid (PromoCode.code p) now r db1 = Ok invalid_code db1) /\
    (forall pk', get_row PromoCode.id pk' (PromoCode_objects db) = None ->
                 admin_promo_toggle_view pk' db = Raise Http404 db).
Proof.
  intros Hids Hcodes Hp.
  pose proof (get_row_Some _ _ _ _ Hp) as [Hin Hid].
  eexists. split; [by apply admin_promo_toggle_view_run|].
  set (db1 := upd_PromoCode_objects _ db).
  assert (get_row PromoCode.id pk (PromoCode_objects db1)
          = Some (PromoCode_set_status (toggled (PromoCode.status p)) p)) as Hp1.
  { unfold db1. simpl. by apply get_row_update_row. }
  split; [exact Hp1|]. split; [|split; [done|split; [|split]]].
  - intros r Hr Hne. unfold db1. simpl. apply elem_of_update_row. exists r.
    split; [done|]. by destruct (Pos.eqb_spec (PromoCode.id r) pk).
  - rewrite (admin_promo_toggle_view_run pk db1 _ Hp1). simpl.
    rewrite toggled_twice. f_equal. unfold db1.
    destruct db as [? ? ? ? ? ? ? ? rows ? ?]. unfold upd_PromoCode_objects. simpl in *.
    f_equal. rewrite update_row_twice by done.
    apply update_row_id. intros r Hr Hr'.
    assert (r = p) as -> by (eapply row_unique; [exact Hids|done..|congruence]).
    by destruct p as [? ? ? ? ? ? ? []].
  - intros Hact uid now r pu Hpu.
    apply referral_view_invalid with (p := pu); [exact Hpu|].
    apply find_promo_None. intros c Hc [Hcode Hst].
    unfold db1 in Hc. simpl in Hc.
    apply elem_of_update_row in Hc as (c0 & Hc0 & ->).
    destruct (Pos.eqb_spec (PromoCode.id c0) pk) as [E|E].
    + rewrite Hact in Hst. done.
    + assert (c0 = p) as -> by by apply Hcodes. congruence.
  - intros pk' Hnone. unfold admin_promo_toggle_view. munfold. by rewrite Hnone.
Qed.

Lemma admin_promo_toggle_view_involution_witness :
  exists db1,
    admin_promo_toggle_view 1 db_promo
    = Ok (Flash success "Promo {p.status}." None, PromoCode.disabled) db1 /\
    referral_view 1 "WELCOME" 10 0.5%Q db1 = Ok invalid_code db1 /\
    admin_promo_toggle_view 1 db1
    = Ok (Flash success "Promo {p.status}." None, PromoCode.active) db_promo.
Proof.
  destruct (admin_promo_toggle_view_involution 1 db_promo promo_welcome)
    as (db1 & Hrun & _ & _ & _ & Hback & Hno & _).
  - apply (bool_decide_unpack _). by vm_compute.
  - intros a b Ha Hb _. apply list_elem_of_singleton in Ha, Hb. congruence.
  - done.
  - exists db1. split; [exact Hrun|]. split; [|exact Hback].
    by apply (Hno eq_refl 1%positive 10 0.5%Q (mk_profile None 0%Q 0%Q)).
Defined.

(** ** views.py: [daily_reward_view] *)

Lemma date_mono a b : a <= b -> date a <= date b.
Proof. intros H. unfold date. by apply Z.div_le_mono. Qed.

Lemma by_claimed_at_desc_total a b :
  by_claimed_at_desc a b = false -> by_claimed_at_desc b a = true.
Proof. unfold by_claimed_at_desc. lia. Qed.

Lemma by_claimed_at_desc_trans a b c :
  by_claimed_at_desc a b = true -> by_claimed_at_desc b c = true ->
  by_claimed_at_desc a c = true.
Proof. unfold by_claimed_at_desc. lia. Qed.

Lemma elem_of_rewards_of uid db r :
  r ∈ rewards_of uid db <-> r ∈ DailyReward_objects db /\ DailyReward.user r = uid.
Proof.
  unfold rewards_of. rewrite elem_of_order_by, list_elem_of_In, filter_In.
  by rewrite <- list_elem_of_In, Pos.eqb_eq.
Qed.

(** The first of [rewards_of] is a reward of the user claimed last. *)
Lemma last_reward uid db r :
  head (rewards_of uid db) = Some r ->
  r ∈ DailyReward_objects db /\ DailyReward.user r = uid /\
  forall r', r' ∈ DailyReward_objects db -> DailyReward.user r' = uid ->
             DailyReward.claimed_at r' <= DailyReward.claimed_at r.
Proof.
  intros Hh.
  pose proof (order_by_sorted by_claimed_at_desc by_claimed_at_desc_total
                by_claimed_at_desc_trans
                (List.filter (fun x => Pos.eqb (DailyReward.user x) uid)
                   (DailyReward_objects db))) as Hs.
  fold (rewards_of uid db) in Hs.
  destruct (rewards_of uid db) as [|x l] eqn:E; [done|]. injection Hh as ->.
  assert (r ∈ rewards_of uid db) as Hr by (rewrite E; left).
  apply elem_of_rewards_of in Hr as [Hr Hu]. split; [done|]. split; [done|].
  intros r' Hr' Hu'.
  assert (r' ∈ rewards_of uid db) as Hin by by apply elem_of_rewards_of.
  rewrite E in Hin. apply elem_of_cons in Hin as [->|Hin]; [lia|].
  apply StronglySorted_inv in Hs as [_ Hall].
  rewrite Forall_forall in Hall. specialize (Hall r' Hin).
  unfold by_claimed_at_desc in Hall. lia.
Qed.

Lemma daily_reward_view_refused uid now db p r :
  Profile_objects db !! uid = Some p ->
  head (rewards_of uid db) = Some r ->
  date (DailyReward.claimed_at r) = date now ->
  daily_reward_view uid now db = Ok already_claimed db.
Proof.
  intros Hp Hh Hd. unfold daily_reward_view, get_profile_or_404. munfold.
  rewrite Hp. fold (rewards_of uid db). rewrite Hh. simpl.
  by rewrite Hd, Z.eqb_refl.
Qed.

Lemma daily_reward_view_granted uid now db p :
  fk_ok db ->
  Profile_objects db !! uid = Some p ->
  (forall r, head (rewards_of uid db) = Some r ->
             date (DailyReward.claimed_at r) <> date now) ->
  daily_reward_view uid now db = Ok reward_claimed (rewarded uid now p db).
Proof.
  intros Hfk Hp Hd. unfold daily_reward_view, get_profile_or_404. munfold.
  rewrite Hp. fold (rewards_of uid db).
  assert (is_same_day (DailyReward.claimed_at <$> head (rewards_of uid db)) now = false)
    as ->.
  { destruct (head (rewards_of uid db)) as [r|] eqn:E; [|done]. simpl.
    apply Z.eqb_neq. by apply Hd. }
  unfold Profile_save_withdrawable_balance, DailyReward_create. munfold. simpl.
  fold (pay DAILY_REWARD p). fold (reward_at uid now).
  rewrite _update_user_rank_ok with (p := pay DAILY_REWARD p).
  - simpl. unfold rewarded, upd_Profile_objects. simpl. f_equal. f_equal.
    by rewrite (alter_alt_Some _ _ _ _ Hp), insert_insert_eq.
  - simpl. rewrite (alter_alt_Some _ _ _ _ Hp). by rewrite lookup_insert_eq.
  - exact (Hfk _ _ Hp).
Qed.

Lemma rewarded_fk_ok uid now p db : fk_ok db -> fk_ok (rewarded uid now p db).
Proof.
  intros Hfk u q. unfold rewarded. simpl.
  destruct (decide (u = uid)) as [->|Hu].
  - rewrite lookup_insert_eq. intros [= <-]. apply fk_resolves_get_rank.
  - rewrite lookup_insert_ne by done. apply Hfk.
Qed.

(** X16: the daily reward is paid once per calendar day. For an account
    that has not claimed on the day of [t1] (its rewards are of earlier
    days), the claim at [t1] adds exactly [DAILY_REWARD] (0.10) to the
    withdrawable balance, leaves the locked balance, records one
    [DailyReward] of that amount at [t1] and stores the recomputed rank.
    A further claim at a later time [t2] of the same day is refused and
    changes nothing; a claim on a later day is paid again. *)
Theorem daily_reward_once_a_day (uid : positive) (t1 t2 : Z) (db : DB) (p : Profile.t) :
  fk_ok db ->
  Profile_objects db !! uid = Some p ->
  (forall r, r ∈ DailyReward_objects db -> DailyReward.user r = uid ->
             date (DailyReward.claimed_at r) < date t1) ->
  t1 <= t2 ->
  exists db1 p1,
    daily_reward_view uid t1 db = Ok reward_claimed db1 /\
    Profile_objects db1 !! uid = Some p1 /\
    Profile.withdrawable_balance p1 = (Profile.withdrawable_balance p + DAILY_REWARD)%Q /\
    Profile.locked_balance p1 = Profile.locked_balance p /\
    Profile.rank p1 = Rank.id <$> get_rank (Rank_objects db1) p1 /\
    DailyReward_objects db1
    = DailyReward_objects db ++
      [ {| DailyReward.user := uid; DailyReward.amount := DAILY_REWARD;
           DailyReward.claimed_at := t1 |} ] /\
    (date t2 = date t1 -> daily_reward_view uid t2 db1 = Ok already_claimed db1) /\
    (date t1 < date t2 ->
     exists db2 p2,
       daily_reward_view uid t2 db1 = Ok reward_claimed db2 /\
       Profile_objects db2 !! uid = Some p2 /\
       Profile.withdrawable_balance p2
       = (Profile.withdrawable_balance p + DAILY_REWARD + DAILY_REWARD)%Q) /\
    DAILY_REWARD = 0.10%Q.
Proof.
  intros Hfk Hp Hold Hle.
  assert (forall r, r ∈ DailyReward_objects db -> DailyReward.user r = uid ->
                    DailyReward.claimed_at r < t1) as Hbefore.
  { intros r Hr Hu. specialize (Hold r Hr Hu).
    destruct (Z_lt_le_dec (DailyReward.claimed_at r) t1) as [|Hge]; [done|].
    apply date_mono in Hge. lia. }
  exists (rewarded uid t1 p db), (with_rank (Rank_objects db) (pay DAILY_REWARD p)).
  split.
  { apply daily_reward_view_granted; [done..|].
    intros r Hr. apply last_reward in Hr as (Hr & Hu & _).
    specialize (Hold r Hr Hu). lia. }
  assert (Profile_objects (rewarded uid t1 p db) !! uid
          = Some (with_rank (Rank_objects db) (pay DAILY_REWARD p))) as Hp1
    by (simpl; by rewrite lookup_insert_eq).
  split; [exact Hp1|]. split; [done|]. split; [done|]. split; [done|]. split; [done|].
  assert (exists r, head (rewards_of uid (rewarded uid t1 p db)) = Some r /\
                    DailyReward.claimed_at r = t1) as (r1 & Hr1 & Ht1).
  { destruct (head (rewards_of uid (rewarded uid t1 p db))) as [r|] eqn:E.
    - exists r. split; [done|].
      apply last_reward in E as (Hr & Hu & Hmax). simpl in Hr, Hmax.
      apply elem_of_app in Hr as [Hr|Hr].
      + specialize (Hbefore r Hr Hu).
        specialize (Hmax (reward_at uid t1)). simpl in Hmax.
        assert (t1 <= DailyReward.claimed_at r); [|lia].
        apply Hmax; [|done]. apply elem_of_app. right. left.
      + by apply list_elem_of_singleton in Hr as ->.
    - exfalso. apply head_None_nil in E.
      assert (reward_at uid t1 ∈ rewards_of uid (rewarded uid t1 p db)) as Hin.
      { apply elem_of_rewards_of. simpl. split; [|done].
        apply elem_of_app. right. left. }
      rewrite E in Hin. by apply elem_of_nil in Hin. }
  split; [|split; [|done]].
  - intros Hsame. apply daily_reward_view_refused with (p := with_rank (Rank_objects db)
                                                            (pay DAILY_REWARD p)) (r := r1);
      [done..|]. by rewrite Ht1.
  - intros Hlater. eexists _, _. split.
    + apply daily_reward_view_granted; [by apply rewarded_fk_ok|exact Hp1|].
      intros r Hr. rewrite Hr1 in Hr. injection Hr as <-. rewrite Ht1. lia.
    + simpl. split; [by rewrite lookup_insert_eq|done].
Qed.

Lemma daily_reward_once_a_day_witness :
  exists db1,
    daily_reward_view 1 (timedelta_days 3) db_withdrawable = Ok reward_claimed db1 /\
    daily_reward_view 1 (timedelta_days 3 + timedelta_seconds 60) db1
    = Ok already_claimed db1.
Proof.
  destruct (daily_reward_once_a_day 1 (timedelta_days 3)
              (timedelta_days 3 + timedelta_seconds 60) db_withdrawable
              (mk_profile (Some 1%positive) 0%Q 10%Q))
    as (db1 & p1 & Hrun & _ & _ & _ & _ & _ & Hsame & _).
  - apply (bool_decide_unpack _). by vm_compute.
  - done.
  - intros r Hr. by apply elem_of_nil in Hr.
  - by vm_compute.
  - exists db1. split; [exact Hrun|]. apply Hsame. by vm_compute.
Defined.

(** ** views.py: the crypto withdrawal of [finance_view] *)

(** X17: a withdrawal request never overdraws. With an amount above the
    withdrawable balance the view reports an error and writes nothing.
    Otherwise it takes exactly the amount from the withdrawable balance,
    which stays non-negative, leaves the locked balance, stamps
    [last_withdrawal_at], stores the recomputed rank and adds exactly one
    [Withdrawal] row of that amount, waiting for approval. For a user
    without a profile it raises [AttributeError] with nothing written. *)
Theorem withdrawal_never_overdraws (uid : positive) (amt : Decimal)
    (net wallet : string) (now : Z) (db : DB) :
  fk_ok db ->
  (Profile_objects db !! uid = None ->
   finance_view_withdrawal uid amt net wallet now db = Raise AttributeError db) /\
  (forall p,
     Profile_objects db !! uid = Some p ->
     ((Profile.withdrawable_balance p < amt)%Q ->
      finance_view_withdrawal uid amt net wallet now db
      = Ok insufficient_withdrawable db) /\
     ((amt <= Profile.withdrawable_balance p)%Q ->
      exists db' p',
        finance_view_withdrawal uid amt net wallet now db = Ok withdrawal_submitted db' /\
        Profile_objects db' !! uid = Some p' /\
        Profile.withdrawable_balance p' = (Profile.withdrawable_balance p - amt)%Q /\
        (0 <= Profile.withdrawable_balance p')%Q /\
        Profile.locked_balance p' = Profile.locked_balance p /\
        Profile.last_withdrawal_at p' = Some now /\
        Profile.rank p' = Rank.id <$> get_rank (Rank_objects db') p' /\
        (forall u, u <> uid -> Profile_objects db' !! u = Profile_objects db !! u) /\
        Withdrawal_objects db'
        = Withdrawal_objects db ++
          [ {| Withdrawal.id := next_id Withdrawal.id (Withdrawal_objects db);
               Withdrawal.user := uid; Withdrawal.amount := amt;
               Withdrawal.network := net; Withdrawal.wallet_address := wallet;
               Withdrawal.status := "pending_admin_approval" |} ])).
Proof.
  intros Hfk. split.
  - intros Hp. unfold finance_view_withdrawal. munfold. by rewrite Hp.
  - intros p Hp. split.
    + intros Hlt. unfold finance_view_withdrawal. munfold. rewrite Hp.
      apply Qgtb_gt in Hlt. by rewrite Hlt.
    + intros Hle. unfold finance_view_withdrawal. munfold. rewrite Hp.
      pose proof Hle as Hle'. apply Qgtb_le in Hle'. rewrite Hle'.
      unfold Profile_save_withdrawable_balance, Withdrawal_create,
        Profile_save_last_withdrawal_at. munfold. simpl.
      fold (withdrawn amt now p).
      erewrite update_rank_ok with (p := withdrawn amt now p).
      * eexists _, _. split; [reflexivity|]. simpl.
        split; [by rewrite lookup_insert_eq|]. split; [done|]. split; [simpl; lra|].
        split; [done|]. split; [done|]. split; [done|]. split; [|done].
        intros u Hu. rewrite lookup_insert_ne by done.
        by rewrite !lookup_alter_ne.
      * simpl. rewrite (alter_alt_Some _ _ _ _ Hp), alter_insert_eq.
        by rewrite lookup_insert_eq.
      * exact (Hfk _ _ Hp).
Qed.

Lemma withdrawal_never_overdraws_witness :
  finance_view_withdrawal 1 11%Q "Solana" "addr" 5 db_withdrawable
  = Ok insufficient_withdrawable db_withdrawable /\
  exists db' p',
    finance_view_withdrawal 1 4%Q "Solana" "addr" 5 db_withdrawable
    = Ok withdrawal_submitted db' /\
    Profile_objects db' !! 1%positive = Some p' /\
    Profile.withdrawable_balance p' = (10 - 4)%Q.
Proof.
  assert (fk_ok db_withdrawable) as Hfk by (apply (bool_decide_unpack _); by vm_compute).
  destruct (withdrawal_never_overdraws 1 11%Q "Solana" "addr" 5 db_withdrawable Hfk)
    as [_ H11].
  destruct (withdrawal_never_overdraws 1 4%Q "Solana" "addr" 5 db_withdrawable Hfk)
    as [_ H4].
  split.
  - apply (H11 (mk_profile (Some 1%positive) 0%Q 10%Q) eq_refl). by vm_compute.
  - destruct (H4 (mk_profile (Some 1%positive) 0%Q 10%Q) eq_refl) as [_ Hok].
    destruct Hok as (db' & p' & Hrun & Hp' & Hw & _); [by vm_compute|].
    exists db', p'. split; [exact Hrun|]. split; [exact Hp'|exact Hw].
Defined.

(** ** The lock of a deposit: approval, then expiry *)

Lemma filter_update_row_others {A} (pk : A -> positive) i f (P : A -> bool) rows :
  (forall x, x ∈ rows -> pk x <> i /\ P x = false) ->
  List.filter P (update_row pk i f rows) = [].
Proof.
  unfold update_row. induction rows as [|x rows IH]; intros H; simpl; [done|].
  destruct (H x) as [Hne Hx]; [left|].
  destruct (Pos.eqb_spec (pk x) i) as [E|_]; [done|]. rewrite Hx.
  apply IH. intros y Hy. apply H. by right.
Qed.

(** Among rows of unique ids of which only the row [i] may satisfy [P],
    the rows of the updated table that satisfy [P]. *)
Lemma filter_update_row_single {A} (pk : A -> positive) i f (P : A -> bool) rows r :
  unique_ids pk rows ->
  get_row pk i rows = Some r ->
  (forall x, x ∈ rows -> pk x <> i -> P x = false) ->
  List.filter P (update_row pk i f rows) = if P (f r) then [f r] else [].
Proof.
  unfold unique_ids, get_row, update_row.
  induction rows as [|x rows IH]; intros Hnd Hr Hoth; simpl in *; [done|].
  apply NoDup_cons in Hnd as [Hx Hnd].
  destruct (Pos.eqb_spec (pk x) i) as [E|E].
  - injection Hr as ->.
    assert (List.filter P (map (fun r0 => if Pos.eqb (pk r0) i then f r0 else r0) rows)
            = []) as ->.
    { apply (filter_update_row_others pk i f P rows). intros y Hy.
      assert (pk y <> i) as Hne.
      { intros Hy'. apply Hx. rewrite E, <- Hy'.
        apply list_elem_of_fmap. by exists y. }
      split; [done|]. apply Hoth; [by right|done]. }
    by destruct (P (f r)).
  - rewrite (Hoth x) by (done || left). apply IH; [done..|].
    intros y Hy. apply Hoth. by right.
Qed.

Lemma approve_crypto_ranks pk now db d po :
  fk_ok db ->
  get_row Deposit.id pk (Deposit_objects db) = Some d ->
  Deposit.status d = Deposit.pending ->
  Profile_objects db !! Deposit.user d = Some po ->
  Rank_objects (store (admin_deposit_approve_view pk now db)) = Rank_objects db /\
  fk_ok (store (admin_deposit_approve_view pk now db)).
Proof.
  intros Hfk Hd Hst Hpo. rewrite (approve_crypto pk now db d po Hfk Hd Hst Hpo).
  destruct (referral_bonus_ok (approval now d) (approval_saved now d db) Hfk)
    as (db' & Hrb & HR & _ & Hfk' & _).
  rewrite Hrb. simpl. split; [exact HR|].
  intros u q. simpl. destruct (decide (u = Deposit.user d)) as [->|Hu].
  - rewrite lookup_insert_eq. intros [= <-]. rewrite HR. apply fk_resolves_get_rank.
  - rewrite lookup_insert_ne by done. apply Hfk'.
Qed.

Lemma filter_none {A} (P : A -> bool) rows :
  (forall x, x ∈ rows -> P x = false) -> List.filter P rows = [].
Proof.
  induction rows as [|x rows IH]; intros H; simpl; [done|].
  rewrite (H x) by left. apply IH. intros y Hy. apply H. by right.
Qed.

Lemma for_each_singleton {S A} (x : A) (body : A -> M S unit) (s s' : S) :
  body x s = Ok () s' -> for_each [x] body s = Ok () s'.
Proof. intros H. rewrite for_each_cons, H. done. Qed.

Lemma order_by_singleton {A} (leb : A -> A -> bool) (x : A) : order_by leb [x] = [x].
Proof. reflexivity. Qed.

(** X18: the lock of a deposit. The approval, at time [now], of a
    pending crypto deposit without an expiry date credits the amount to
    the owner's locked balance, and the deposit falls due [LOCK_DAYS]
    (30) days later. While no other deposit is due: a pass of
    [process_expired_deposits] before that date changes nothing, and a
    pass at or after that date takes the amount off the locked balance
    again, so that the locked balance is back at its value before the
    approval with the withdrawable balance untouched (the amount is not
    moved to the withdrawable balance), stores the recomputed rank and
    marks the deposit expired. *)
Theorem deposit_lock_round_trip (pk : positive) (now now' : Z) (db : DB)
    (d : Deposit.t) (po : Profile.t) :
  fk_ok db ->
  unique_ids Deposit.id (Deposit_objects db) ->
  get_row Deposit.id pk (Deposit_objects db) = Some d ->
  Deposit.status d = Deposit.pending ->
  Deposit.expires_at d = None ->
  Profile_objects db !! Deposit.user d = Some po ->
  (0 <= Profile.locked_balance po)%Q ->
  no_other_due pk now' (Deposit_objects db) ->
  let db1 := store (admin_deposit_approve_view pk now db) in
  (exists po1,
     Profile_objects db1 !! Deposit.user d = Some po1 /\
     Profile.locked_balance po1 = (Profile.locked_balance po + Deposit.amount d)%Q) /\
  (now' < add_days now LOCK_DAYS -> process_expired_deposits now' db1 = Ok () db1) /\
  (add_days now LOCK_DAYS <= now' ->
   exists db2 po2 d2,
     process_expired_deposits now' db1 = Ok () db2 /\
     Profile_objects db2 !! Deposit.user d = Some po2 /\
     (Profile.locked_balance po2 == Profile.locked_balance po)%Q /\
     Profile.withdrawable_balance po2 = Profile.withdrawable_balance po /\
     Profile.rank po2 = Rank.id <$> get_rank (Rank_objects db2) po2 /\
     get_row Deposit.id pk (Deposit_objects db2) = Some d2 /\
     Deposit.status d2 = Deposit.expired) /\
  LOCK_DAYS = 30.
Proof.
  intros Hfk Hids Hd Hst Hexp Hpo Hnn Hoth db1.
  destruct (approve_crypto_deposits pk now db d po Hfk Hd Hst Hpo) as (HD & _ & Hp1).
  destruct (approve_crypto_ranks pk now db d po Hfk Hd Hst Hpo) as (HR & Hfk1).
  fold db1 in HD, Hp1, HR, Hfk1.
  pose proof (get_row_Some _ _ _ _ Hd) as [Hin Hid].
  assert (expired_deposits now' db1
          = if expired_filter now' (approval now d) then [approval now d] else []) as Hdue.
  { unfold expired_deposits. rewrite HD. unfold approval_saved. simpl. rewrite Hid.
    rewrite (filter_update_row_single Deposit.id pk _ (expired_filter now') _ d Hids Hd Hoth).
    fold (approval now d). by destruct (expired_filter now' (approval now d)). }
  assert (expired_filter now' (approval now d) = (add_days now LOCK_DAYS <=? now')) as Hf.
  { unfold expired_filter, approval. simpl. by rewrite Hexp. }
  rewrite Hf in Hdue.
  split; [by eexists|]. split; [|split; [|done]].
  - intros Hlt. rewrite process_expired_deposits_unfold, Hdue.
    apply Z.leb_gt in Hlt. by rewrite Hlt.
  - intros Hge. rewrite process_expired_deposits_unfold, Hdue.
    apply Z.leb_le in Hge. rewrite Hge.
    destruct (expire_deposit_debit (approval now d) db1
                (with_rank (Rank_objects db) (credit (Deposit.amount d) po)))
      as (db2 & Hrun & HP2 & HD2 & _ & (HR2 & _)).
    + exact Hp1.
    + rewrite HR. apply fk_resolves_get_rank.
    + simpl. lra.
    + exists db2. eexists. eexists.
      split; [by apply for_each_singleton|].
      rewrite HP2. change (Deposit.user (approval now d)) with (Deposit.user d).
      rewrite lookup_insert_eq. split; [done|].
      split; [simpl; ring|]. split; [done|]. split; [by rewrite HR2|].
      rewrite HD2, HD. unfold approval_saved. simpl. rewrite Hid.
      split.
      * apply get_row_update_row; [done|]. by apply get_row_update_row.
      * done.
Qed.

Lemma deposit_lock_round_trip_witness :
  exists db2 po2,
    process_expired_deposits (add_days 20 LOCK_DAYS)
      (store (admin_deposit_approve_view 1 20 db_referred)) = Ok () db2 /\
    Profile_objects db2 !! 1%positive = Some po2 /\
    (Profile.locked_balance po2 == 0)%Q.
Proof.
  assert (fk_ok db_referred) as Hfk by (apply (bool_decide_unpack _); by vm_compute).
  destruct (deposit_lock_round_trip 1 20 (add_days 20 LOCK_DAYS) db_referred
              deposit_referred (mk_profile None 0%Q 0%Q) Hfk)
    as (_ & _ & Hdue & _).
  - apply (bool_decide_unpack _). by vm_compute.
  - done.
  - done.
  - done.
  - done.
  - by vm_compute.
  - intros d Hd Hne. apply list_elem_of_singleton in Hd as ->. done.
  - destruct Hdue as (db2 & po2 & d2 & Hrun & Hp2 & Hl & _); [lia|].
    exists db2, po2. split; [exact Hrun|]. split; [exact Hp2|exact Hl].
Defined.

(** X19: a promo bonus is lent for 30 days. After a successful
    redemption at time [now] by an account whose locked balance is not
    negative, and while no other deposit is due, a pass of
    [process_expired_deposits] at or after [now] + 30 days takes the bonus
    deposit, which holds the bonus quantised to two decimals, off the
    locked balance, which holds the sum of the former balance and of the
    bonus, quantised: the balance left is within a cent of its value
    before the redemption, and is that value when it and the bonus are
    whole numbers of cents. The pass marks the bonus deposit expired and
    stores the recomputed rank; the redemption record stays, so the code
    cannot be redeemed by the account again. *)
Theorem promo_bonus_round_trip (uid : positive) (code : string) (now now' : Z) (r : Q)
    (db : DB) (p : Profile.t) (promo : PromoCode.t) :
  fk_ok db ->
  Profile_objects db !! uid = Some p ->
  find_promo code db = Some promo ->
  promo_expired promo now = false -> promo_exhausted promo = false ->
  redemption_exists uid promo db = false ->
  (0 <= Profile.locked_balance p)%Q ->
  (forall d, d ∈ Deposit_objects db -> expired_filter now' d = false) ->
  now + timedelta_days 30 <= now' ->
  let bonus := promo_bonus promo r in
  exists db1 db2 p2,
    referral_view uid code now r db
    = Ok (Flash success "Promo redeemed. Bonus ${bonus:.2f} credited (expires in 30 days)."
            (Some bonus)) db1 /\
    process_expired_deposits now' db1 = Ok () db2 /\
    Profile_objects db2 !! uid = Some p2 /\
    Profile.locked_balance p2
    = (quantize (Profile.locked_balance p + bonus) - quantize bonus)%Q /\
    (Profile.locked_balance p - (1 # 100) <= Profile.locked_balance p2)%Q /\
    (Profile.locked_balance p2 <= Profile.locked_balance p + (1 # 100))%Q /\
    (is_cents (Profile.locked_balance p) -> is_cents bonus ->
     (Profile.locked_balance p2 == Profile.locked_balance p)%Q) /\
    Profile.withdrawable_balance p2 = Profile.withdrawable_balance p /\
    Profile.rank p2 = Rank.id <$> get_rank (Rank_objects db2) p2 /\
    (exists d2, d2 ∈ Deposit_objects db2 /\
                Deposit.id d2 = next_id Deposit.id (Deposit_objects db) /\
                Deposit.amount d2 = quantize bonus /\
                Deposit.status d2 = Deposit.expired) /\
    PromoRedemption_objects db2
    = PromoRedemption_objects db ++
      [ {| PromoRedemption.user := uid; PromoRedemption.promo_code := PromoCode.id promo;
           PromoRedemption.bonus_amount := quantize bonus |} ] /\
    redemption_exists uid promo db2 = true.
Proof.
  intros Hfk Hp Hf He Hx Hr Hnn Hnone Hlate bonus.
  set (db1 := redeemed uid promo bonus now p db).
  set (dep := promo_deposit uid bonus now db).
  set (p1 := ranked_as (Rank_objects db) (credit bonus p) (credit_stored bonus p)).
  assert (expired_deposits now' db1 = [dep]) as Hdue.
  { unfold expired_deposits, db1, redeemed. simpl. rewrite List.filter_app.
    assert (List.filter (expired_filter now') (Deposit_objects db) = []) as ->.
    { by apply filter_none. }
    simpl. fold dep. unfold expired_filter. simpl.
    assert ((now + timedelta_days 30 <=? now') = true) as -> by by apply Z.leb_le.
    done. }
  destruct (expire_deposit_debit dep db1 p1)
    as (db2 & Hrun & HP2 & HD2 & _ & (HR2 & _ & _ & _ & _ & _ & _ & HPR)).
  - unfold db1, redeemed. simpl. by rewrite lookup_insert_eq.
  - apply fk_resolves_get_rank.
  - simpl. apply quantize_mono. lra.
  - destruct (quantize_near (Profile.locked_balance p + bonus)%Q) as [Hlo1 Hhi1].
    destruct (quantize_near bonus) as [Hlo2 Hhi2].
    exists db1, db2. eexists. split; [by apply referral_view_success|].
    split; [by rewrite process_expired_deposits_unfold, Hdue; apply for_each_singleton|].
    rewrite HP2. change (Deposit.user dep) with uid. rewrite lookup_insert_eq.
    split; [done|]. split; [done|]. simpl.
    split; [lra|]. split; [lra|]. split.
    { intros Hc Hb.
      rewrite (quantize_cents _ Hb), (quantize_cents _ (is_cents_plus _ _ Hc Hb)). lra. }
    split; [done|]. split; [by rewrite HR2|]. split; [|split].
    + exists (Deposit.set_status Deposit.expired dep). split; [|done].
      rewrite HD2. apply elem_of_update_row. exists dep. split.
      * unfold db1, redeemed. simpl. apply elem_of_app. right. left.
      * by rewrite Pos.eqb_refl.
    + by rewrite HPR.
    + apply redemption_exists_true. exists (redemption_of uid promo bonus).
      split; [|done].
      rewrite HPR. unfold db1, redeemed. simpl. apply elem_of_app. right. left.
Qed.

Lemma promo_bonus_round_trip_witness :
  exists db1 db2 p2 f,
    referral_view 1 "WELCOME" 10 0.5%Q db_promo = Ok f db1 /\
    process_expired_deposits (10 + timedelta_days 30) db1 = Ok () db2 /\
    Profile_objects db2 !! 1%positive = Some p2 /\
    (Profile.locked_balance p2 == 0)%Q /\
    redemption_exists 1 promo_welcome db2 = true.
Proof.
  assert (fk_ok db_promo) as Hfk by (apply (bool_decide_unpack _); by vm_compute).
  destruct (promo_bonus_round_trip 1 "WELCOME" 10 (10 + timedelta_days 30) 0.5%Q
              db_promo (mk_profile None 0%Q 0%Q) promo_welcome Hfk)
    as (db1 & db2 & p2 & Hrun & Hreap & Hp2 & Hl & _ & _ & _ & _ & _ & _ & _ & Hred).
  - done.
  - by vm_compute.
  - done.
  - done.
  - done.
  - by vm_compute.
  - intros d Hd. by apply elem_of_nil in Hd.
  - lia.
  - exists db1, db2, p2. eexists. split; [exact Hrun|]. split; [exact Hreap|].
    split; [exact Hp2|]. split; [rewrite Hl; by vm_compute|exact Hred].
Defined.

(** ** admin.py: the action [approve_deposits] *)

Lemma pending_deposit_true d : pending_deposit d = true <-> Deposit.status d = Deposit.pending.
Proof. unfold pending_deposit. destruct (Deposit.status d); simpl; split; congruence. Qed.

Lemma approve_deposit_skip now d db :
  pending_deposit d = false -> approve_deposit now d db = Ok [] db.
Proof. intros H. unfold approve_deposit. fold (pending_deposit d). by rewrite H. Qed.

Lemma approve_deposit_no_profile now d db :
  pending_deposit d = true -> Profile_objects db !! Deposit.user d = None ->
  approve_deposit now d db = Raise DoesNotExist db.
Proof.
  intros H Hp. unfold approve_deposit. fold (pending_deposit d). rewrite H. simpl.
  unfold related_profile. munfold. by rewrite Hp.
Qed.

(** The referral block does not read the row of the owner. *)
Lemma referral_bonus_after_credit d db c :
  fk_ok db ->
  referral_bonus d (upd_Profile_objects (insert (Deposit.user d) c) db)
  = Ok () (upd_Profile_objects (insert (Deposit.user d) c) (store (referral_bonus d db))).
Proof.
  intros Hfk. destruct (Deposit.referrer d) as [rid|] eqn:Href.
  - destruct (decide (rid = Deposit.user d)) as [->|Hne].
    + by rewrite !referral_bonus_none by auto.
    + destruct (Profile_objects db !! rid) as [pr|] eqn:Hpr.
      * rewrite (referral_bonus_credit d db rid pr Href Hne Hpr (Hfk _ _ Hpr)).
        rewrite (referral_bonus_credit d _ rid pr Href Hne);
          [|simpl; by rewrite lookup_insert_ne|exact (Hfk _ _ Hpr)].
        simpl. unfold upd_Profile_objects, upd_Referral_objects. simpl. f_equal. f_equal.
        by apply insert_insert_ne.
      * rewrite (referral_bonus_no_profile d db rid Href Hpr).
        rewrite (referral_bonus_no_profile d _ rid Href); [done|].
        simpl. by rewrite lookup_insert_ne.
  - by rewrite !referral_bonus_none by auto.
Qed.

(** The body of the loop on a pending row whose owner has a profile: the
    store is the one the view leaves, with the notice added. *)
Lemma approve_deposit_pending now d db po :
  fk_ok db ->
  pending_deposit d = true ->
  Profile_objects db !! Deposit.user d = Some po ->
  approve_deposit now d db =
  Ok [approved_safely]
     (notified d
        (upd_Profile_objects
           (insert (Deposit.user d)
              (with_rank (Rank_objects db) (credit (Deposit.amount d) po)))
           (store (referral_bonus (approval now d) (approval_saved now d db))))).
Proof.
  intros Hfk Hst Hpo. unfold approve_deposit. fold (pending_deposit d). rewrite Hst. simpl.
  unfold related_profile. munfold. rewrite Hpo.
  fold (credit (Deposit.amount d) po). fold (approval now d).
  unfold Profile_save_locked_balance, Deposit_save_approval, Notification_create. munfold.
  cbv beta iota.
  rewrite (upd_Profile_objects_alter _ _ _ _ Hpo).
  change (Profile.set_locked_balance (Profile.locked_balance (credit (Deposit.amount d) po)) po)
    with (credit (Deposit.amount d) po).
  assert (fk_ok (approval_saved now d db)) as Hfk' by exact Hfk.
  match goal with
  | |- context [referral_bonus ?x ?s] =>
      change (referral_bonus x s)
        with (referral_bonus (approval now d)
                (upd_Profile_objects
                   (insert (Deposit.user (approval now d)) (credit (Deposit.amount d) po))
                   (approval_saved now d db)))
  end.
  rewrite (referral_bonus_after_credit (approval now d) _ _ Hfk').
  destruct (referral_bonus_ok (approval now d) (approval_saved now d db) Hfk')
    as (db' & Hrb & HR & _).
  rewrite Hrb. cbv beta iota. simpl store.
  change (Deposit.user (approval now d)) with (Deposit.user d).
  rewrite update_rank_ok with (p := credit (Deposit.amount d) po);
    [|simpl; by rewrite lookup_insert_eq|simpl; rewrite HR; exact (Hfk _ _ Hpo)].
  cbv beta iota. unfold notified, approved_safely. f_equal.
  simpl. unfold with_rank, upd_Notification_objects, upd_Profile_objects. simpl.
  rewrite HR. f_equal. by rewrite insert_insert_eq.
Qed.

Lemma is_cents_proper x y : (x == y)%Q -> is_cents x -> is_cents y.
Proof. intros E [z Hz]. exists z. by rewrite <- E. Qed.



(** What one turn of the loop does on a pending row. *)
Lemma approve_deposit_effect now d db :
  fk_ok db -> pending_deposit d = true ->
  is_Some (Profile_objects db !! Deposit.user d) ->
  exists db',
    approve_deposit now d db = Ok [approved_safely] db' /\
    fk_ok db' /\
    Rank_objects db' = Rank_objects db /\
    (forall u, Profile_objects db !! u = None -> Profile_objects db' !! u = None) /\
    (forall u p, Profile_objects db !! u = Some p ->
       exists p', Profile_objects db' !! u = Some p' /\
         Profile.locked_balance p' = credited_once u d (Profile.locked_balance p) /\
         (is_cents (Profile.withdrawable_balance p) ->
          (Profile.withdrawable_balance p' == Profile.withdrawable_balance p)%Q)) /\
    Deposit_objects db' = Deposit_objects (approval_saved now d db) /\
    Notification_objects db' = Notification_objects db ++ [approval_notice d].
Proof.
  intros Hfk Hst [po Hpo]. eexists. split; [by apply approve_deposit_pending|].
  assert (fk_ok (approval_saved now d db)) as Hfk' by exact Hfk.
  destruct (referral_bonus_ok (approval now d) (approval_saved now d db) Hfk')
    as (db' & Hrb & HR & HD & Hfk'' & _ & Hcases).
  rewrite Hrb. simpl store. simpl in HR.
  change (Deposit.user (approval now d)) with (Deposit.user d) in Hcases.
  change (Deposit.referrer (approval now d)) with (Deposit.referrer d) in Hcases.
  change (Deposit.amount (approval now d)) with (Deposit.amount d) in Hcases.
  split; [|split; [exact HR|]].
  { intros u q. simpl. destruct (decide (u = Deposit.user d)) as [->|Hu].
    - rewrite lookup_insert_eq. intros [= <-]. rewrite HR. apply fk_resolves_get_rank.
    - rewrite lookup_insert_ne by done. apply Hfk''. }
  assert (Notification_objects db' = Notification_objects db) as HN.
  { by destruct Hcases as [[_ ->]|(rid & pr & _ & _ & _ & ->)]. }
  split; [|split; [|split; [exact HD|by simpl; rewrite HN]]].
  - intros u Hu. simpl.
    assert (u <> Deposit.user d) as Hne by (intros ->; congruence).
    rewrite lookup_insert_ne by done.
    destruct Hcases as [[_ ->]|(rid & pr & _ & _ & Hpr & ->)]; [done|]. simpl.
    rewrite lookup_insert_ne; [done|]. intros ->. simpl in Hpr. congruence.
  - intros u p Hp. simpl. unfold credited_once.
    destruct (decide (u = Deposit.user d)) as [->|Hu].
    + rewrite lookup_insert_eq. eexists. split; [done|].
      assert (p = po) as -> by congruence. rewrite Pos.eqb_refl. by split.
    + rewrite lookup_insert_ne by done.
      destruct (Pos.eqb_spec (Deposit.user d) u) as [E|_]; [congruence|].
      destruct Hcases as [[Hc ->]|(rid & pr & Href & Hne & Hpr & ->)].
      * exists p. split; [done|]. split; [|done].
        destruct Hc as [Hc|[Hc|(rid & Hc & Hnone)]]; simpl in *; rewrite Hc; [done| |].
        -- destruct (Pos.eqb_spec (Deposit.user d) u); [congruence|done].
        -- destruct (Pos.eqb_spec rid u) as [->|_]; [congruence|done].
      * simpl. simpl in Hpr. rewrite Href.
        destruct (decide (u = rid)) as [->|Hur].
        -- rewrite lookup_insert_eq, Pos.eqb_refl. eexists. split; [done|].
           assert (p = pr) as -> by congruence. split; [done|].
           intros Hc. simpl. by apply quantize_cents.
        -- rewrite lookup_insert_ne by done.
           destruct (Pos.eqb_spec rid u) as [E|_]; [congruence|].
           exists p. by split.
Qed.

Lemma approve_loop_cons now d rows db :
  approve_loop now (d :: rows) db =
  match approve_deposit now d db with
  | Ok queued s' =>
      match approve_loop now rows s' with
      | Ok queued' s'' => Ok (queued ++ queued') s''
      | Raise e s'' => Raise e s''
      end
  | Raise e s' => Raise e s'
  end.
Proof.
  simpl. munfold. destruct (approve_deposit now d db); [|done].
  by destruct (approve_loop now rows s).
Qed.

Lemma approved_among_nil now r : approved_among now [] r r.
Proof.
  unfold approved_among. split; [done|]. split; [done|]. split; [done|].
  split; [|done]. intros Hin. by apply elem_of_nil in Hin.
Qed.

Lemma approved_among_cons now i ids r r1 r2 :
  approved_among now [i] r r1 -> approved_among now ids r1 r2 ->
  approved_among now (i :: ids) r r2.
Proof.
  intros (E1 & U1 & A1 & Y1 & N1) (E2 & U2 & A2 & Y2 & N2).
  unfold approved_among. rewrite E1 in *.
  split; [congruence|]. split; [congruence|]. split; [congruence|].
  destruct (decide (Deposit.id r = i)) as [Hi|Hi].
  - split; [intros _|intros H; contradict H; subst; left].
    destruct (Y1 ltac:(subst; left)) as (S1 & T1 & X1).
    destruct (decide (Deposit.id r ∈ ids)) as [Hin|Hin]; [by apply Y2|].
    by rewrite (N2 Hin).
  - assert (r1 = r) as -> by (apply N1; by rewrite list_elem_of_singleton).
    split.
    + intros H. apply elem_of_cons in H as [H'|H']; [done|]. by apply Y2.
    + intros H. apply N2. intros H'. apply H. by right.
Qed.

Lemma Forall2_compose {A} (R1 R2 R3 : A -> A -> Prop) l1 : forall l2 l3,
  (forall x y z, R1 x y -> R2 y z -> R3 x z) ->
  Forall2 R1 l1 l2 -> Forall2 R2 l2 l3 -> Forall2 R3 l1 l3.
Proof.
  induction l1 as [|x l1 IH]; intros l2 l3 H H1 H2.
  - inversion H1; subst. inversion H2; subst. constructor.
  - inversion H1; subst. inversion H2; subst. constructor; eauto.
Qed.

Lemma Forall2_refl_on {A} (R : A -> A -> Prop) l :
  (forall x, R x x) -> Forall2 R l l.
Proof. intros H. induction l; constructor; auto. Qed.

(** The rows of the table as the approval of [d] leaves them. *)
Lemma approval_saved_rows now d db :
  Forall2 (approved_among now [Deposit.id d])
    (Deposit_objects db) (Deposit_objects (approval_saved now d db)).
Proof.
  unfold approval_saved. simpl. unfold update_row.
  induction (Deposit_objects db) as [|r rows IH]; simpl; constructor; [|exact IH].
  destruct (Pos.eqb_spec (Deposit.id r) (Deposit.id d)) as [E|E].
  - unfold approved_among. simpl. split; [done|]. split; [done|]. split; [done|]. split.
    + intros _. split; [done|]. split; [done|]. by destruct (Deposit.expires_at d).
    + intros Hin. contradict Hin. rewrite E. left.
  - unfold approved_among. split; [done|]. split; [done|]. split; [done|]. split; [|done].
    intros Hin. by apply list_elem_of_singleton in Hin.
Qed.

Lemma owners_have_profiles_cons d rows db :
  owners_have_profiles (d :: rows) db ->
  (pending_deposit d = true -> is_Some (Profile_objects db !! Deposit.user d)) /\
  owners_have_profiles rows db.
Proof.
  intros H. split; [apply H; left|]. intros x Hx. apply H. by right.
Qed.

(** The loop on a selection whose pending rows all have an owner with a
    profile. *)
Lemma approve_loop_ok now rows : forall db,
  fk_ok db -> owners_have_profiles rows db ->
  exists db',
    approve_loop now rows db
    = Ok (replicate (length (List.filter pending_deposit rows)) approved_safely) db' /\
    fk_ok db' /\
    Rank_objects db' = Rank_objects db /\
    (forall u, Profile_objects db !! u = None -> Profile_objects db' !! u = None) /\
    (forall u p, Profile_objects db !! u = Some p ->
       exists p', Profile_objects db' !! u = Some p' /\
         Profile.locked_balance p' = credited_to u rows (Profile.locked_balance p) /\
         (is_cents (Profile.withdrawable_balance p) ->
          (Profile.withdrawable_balance p' == Profile.withdrawable_balance p)%Q)) /\
    Forall2 (approved_among now (pending_ids rows))
      (Deposit_objects db) (Deposit_objects db') /\
    Notification_objects db'
    = Notification_objects db ++ (approval_notice <$> List.filter pending_deposit rows).
Proof.
  induction rows as [|d rows IH]; intros db Hfk Hown.
  - exists db. simpl. repeat split; try done.
    + intros u p Hp. exists p. by split.
    + apply Forall2_refl_on, approved_among_nil.
    + by rewrite app_nil_r.
  - apply owners_have_profiles_cons in Hown as [Hd Hown].
    rewrite approve_loop_cons. unfold pending_ids. simpl.
    destruct (pending_deposit d) eqn:Hst.
    + destruct (approve_deposit_effect now d db Hfk Hst (Hd eq_refl))
        as (db1 & Hrun & Hfk1 & HR1 & Hnone1 & Hsome1 & HD1 & HN1).
      rewrite Hrun.
      destruct (IH db1 Hfk1) as (db' & Hloop & Hfk' & HR' & Hnone' & Hsome' & HD' & HN').
      { intros x Hx Hpx. destruct (Hown x Hx Hpx) as [p Hp].
        destruct (Hsome1 _ _ Hp) as (p1 & Hp1 & _). by eexists. }
      exists db'. rewrite Hloop. simpl. split; [done|]. split; [done|].
      split; [congruence|]. split; [auto|]. split; [|split].
      * intros u p Hp. destruct (Hsome1 _ _ Hp) as (p1 & Hp1 & Hl1 & Hw1).
        destruct (Hsome' _ _ Hp1) as (p' & Hp' & Hl' & Hw').
        exists p'. split; [done|]. split; [by rewrite Hl', Hl1|].
        intros Hc. specialize (Hw1 Hc).
        rewrite (Hw' (is_cents_proper _ _ (Qeq_sym _ _ Hw1) Hc)). exact Hw1.
      * apply (Forall2_compose (approved_among now [Deposit.id d])
                 (approved_among now (pending_ids rows)) _ _
                 (Deposit_objects db1)).
        -- intros x y z. apply approved_among_cons.
        -- rewrite HD1. apply approval_saved_rows.
        -- exact HD'.
      * rewrite HN', HN1. by rewrite <- app_assoc.
    + rewrite (approve_deposit_skip now d db Hst).
      destruct (IH db Hfk Hown) as (db' & Hloop & Hrest).
      exists db'. by rewrite Hloop.
Qed.

(** The loop on rows none of which is pending. *)
Lemma approve_loop_none now rows db :
  (forall x, x ∈ rows -> pending_deposit x = false) ->
  approve_loop now rows db = Ok [] db.
Proof.
  induction rows as [|d rows IH]; intros H; [done|].
  rewrite approve_loop_cons, (approve_deposit_skip now d db) by (apply H; left).
  rewrite IH; [done|]. intros x Hx. apply H. by right.
Qed.

Lemma approve_deposits_unfold queryset now db :
  approve_deposits queryset now db =
  match approve_loop now (queryset db) db with
  | Ok a s' => Ok a s'
  | Raise e _ => Raise e db
  end.
Proof. unfold approve_deposits, atomic. by munfold. Qed.

Lemma elem_of_selected ids db x :
  x ∈ selected ids db <-> x ∈ Deposit_objects db /\ Deposit.id x ∈ ids.
Proof.
  unfold selected. rewrite list_elem_of_In, List.filter_In, <- list_elem_of_In.
  by rewrite bool_decide_eq_true.
Qed.

Lemma elem_of_pending_ids x rows :
  x ∈ rows -> pending_deposit x = true -> Deposit.id x ∈ pending_ids rows.
Proof.
  intros Hx Hp. unfold pending_ids. apply list_elem_of_fmap. exists x. split; [done|].
  rewrite list_elem_of_In, List.filter_In, <- list_elem_of_In. done.
Qed.

(** X20: the admin action and the view approve alike. For a pending
    crypto deposit that is the only row of the selection, the action
    [approve_deposits] leaves the store the view
    [admin_deposit_approve_view] leaves (same credit of the owner, same
    rank, same approval row, same referral bonus), with one notification
    for the owner added. When the owner has no profile they differ: the
    view answers 404, the action raises [DoesNotExist]; neither writes. *)
Theorem approve_deposits_as_view (queryset : DB -> list Deposit.t) (pk : positive)
    (now : Z) (db : DB) (d : Deposit.t) :
  fk_ok db ->
  get_row Deposit.id pk (Deposit_objects db) = Some d ->
  Deposit.status d = Deposit.pending ->
  queryset db = [d] ->
  (forall po, Profile_objects db !! Deposit.user d = Some po ->
     approve_deposits queryset now db
     = Ok [approved_safely] (notified d (store (admin_deposit_approve_view pk now db))) /\
     Notification_objects (store (admin_deposit_approve_view pk now db))
     = Notification_objects db) /\
  (Profile_objects db !! Deposit.user d = None ->
     approve_deposits queryset now db = Raise DoesNotExist db /\
     admin_deposit_approve_view pk now db = Raise Http404 db).
Proof.
  intros Hfk Hd Hst Hq.
  assert (pending_deposit d = true) as Hp by exact (proj2 (pending_deposit_true d) Hst).
  split.
  - intros po Hpo. rewrite approve_deposits_unfold, Hq, approve_loop_cons.
    rewrite (approve_deposit_pending now d db po Hfk Hp Hpo). simpl.
    rewrite (approve_crypto pk now db d po Hfk Hd Hst Hpo). simpl. split; [done|].
    assert (fk_ok (approval_saved now d db)) as Hfk' by exact Hfk.
    destruct (referral_bonus_ok (approval now d) (approval_saved now d db) Hfk')
      as (db' & Hrb & _ & _ & _ & _ & Hcases).
    rewrite Hrb. simpl.
    by destruct Hcases as [[_ ->]|(rid & pr & _ & _ & _ & ->)].
  - intros Hnone. split; [|exact (approve_no_profile pk now db d Hd Hst Hnone)].
    rewrite approve_deposits_unfold, Hq, approve_loop_cons.
    by rewrite (approve_deposit_no_profile now d db Hp Hnone).
Qed.

Lemma approve_deposits_as_view_witness :
  approve_deposits (selected [1%positive]) 20 db_referred
  = Ok [approved_safely]
       (notified deposit_referred (store (admin_deposit_approve_view 1 20 db_referred))).
Proof.
  assert (fk_ok db_referred) as Hfk by (apply (bool_decide_unpack _); by vm_compute).
  destruct (approve_deposits_as_view (selected [1%positive]) 1 20 db_referred
              deposit_referred Hfk) as [H _]; [done..|].
  by apply (H (mk_profile None 0%Q 0%Q)).
Defined.

(** X21: the action is all or nothing. When a pending row of the
    selection has an owner without a profile, [approve_deposits] raises
    [DoesNotExist] and leaves the store as it was, although its loop had
    by then approved the pending rows before that one (whose owners have
    profiles): the block [transaction.atomic] undoes them. *)
Theorem approve_deposits_all_or_nothing (queryset : DB -> list Deposit.t) (now : Z)
    (db : DB) (pre post : list Deposit.t) (d : Deposit.t) :
  fk_ok db ->
  queryset db = pre ++ d :: post ->
  owners_have_profiles pre db ->
  pending_deposit d = true ->
  Profile_objects db !! Deposit.user d = None ->
  approve_deposits queryset now db = Raise DoesNotExist db /\
  exists db1,
    approve_loop now (queryset db) db = Raise DoesNotExist db1 /\
    Forall2 (approved_among now (pending_ids pre)) (Deposit_objects db) (Deposit_objects db1) /\
    Notification_objects db1
    = Notification_objects db ++ (approval_notice <$> List.filter pending_deposit pre).
Proof.
  intros Hfk Hq Hown Hp Hnone.
  assert (forall rows db0 msgs db1,
            approve_loop now rows db0 = Ok msgs db1 ->
            approve_loop now (rows ++ d :: post) db0
            = match approve_loop now (d :: post) db1 with
              | Ok msgs' s => Ok (msgs ++ msgs') s
              | Raise e s => Raise e s
              end) as Happ.
  { induction rows as [|x rows IH]; intros db0 msgs db1 Hrun.
    - simpl in Hrun. munfold. injection Hrun as <- <-. simpl app.
      by destruct (approve_loop now (d :: post) db0).
    - simpl app. rewrite approve_loop_cons in *.
      destruct (approve_deposit now x db0) as [q s|]; [|done].
      destruct (approve_loop now rows s) as [q' s'|] eqn:E; [|done].
      injection Hrun as <- <-. rewrite (IH s q' s' E).
      destruct (approve_loop now (d :: post) s'); [|done]. by rewrite app_assoc. }
  destruct (approve_loop_ok now pre db Hfk Hown)
    as (db1 & Hloop & _ & _ & Hnone1 & _ & HD & HN).
  assert (approve_loop now (queryset db) db = Raise DoesNotExist db1) as Hrun.
  { rewrite Hq, (Happ _ _ _ _ Hloop), approve_loop_cons.
    by rewrite (approve_deposit_no_profile now d db1 Hp (Hnone1 _ Hnone)). }
  split; [by rewrite approve_deposits_unfold, Hrun|]. by exists db1.
Qed.

Lemma approve_deposits_all_or_nothing_witness :
  approve_deposits (selected [1; 2]%positive) 20 db_orphan = Raise DoesNotExist db_orphan /\
  exists db1,
    approve_loop 20 (selected [1; 2]%positive db_orphan) db_orphan
    = Raise DoesNotExist db1 /\
    Notification_objects db1 = [approval_notice deposit_referred].
Proof.
  assert (fk_ok db_orphan) as Hfk by (apply (bool_decide_unpack _); by vm_compute).
  destruct (approve_deposits_all_or_nothing (selected [1; 2]%positive) 20 db_orphan
              [deposit_referred] [] deposit_orphan Hfk)
    as (Hrun & db1 & Hloop & _ & HN).
  - done.
  - intros x Hx _. apply list_elem_of_singleton in Hx as ->. by eexists.
  - done.
  - done.
  - split; [exact Hrun|]. exists db1. split; [exact Hloop|exact HN].
Defined.



(** X23: the action can be repeated safely. After a run of
    [approve_deposits] on the rows of given ids (every pending one having
    an owner with a profile), a second run on the rows of the same ids,
    at any later time, finds none of them pending: it queues no message
    and changes nothing, so no deposit is credited twice. *)
Theorem approve_deposits_idempotent (ids : list positive) (now now' : Z) (db : DB) :
  fk_ok db ->
  owners_have_profiles (selected ids db) db ->
  exists msgs db',
    approve_deposits (selected ids) now db = Ok msgs db' /\
    approve_deposits (selected ids) now' db' = Ok [] db'.
Proof.
  intros Hfk Hown.
  destruct (approve_loop_ok now (selected ids db) db Hfk Hown)
    as (db' & Hloop & _ & _ & _ & _ & HD & _).
  eexists. exists db'. rewrite approve_deposits_unfold, Hloop. split; [done|].
  rewrite approve_deposits_unfold, approve_loop_none; [done|].
  intros x Hx. apply elem_of_selected in Hx as [Hx Hid].
  apply list_elem_of_lookup in Hx as [i Hi].
  destruct (Forall2_lookup_r _ _ _ _ _ HD Hi) as (r & Hr & (E & _ & _ & Y & N)).
  assert (r ∈ Deposit_objects db) as Hin by (apply list_elem_of_lookup; by exists i).
  assert (Deposit.status x = Deposit.approved -> pending_deposit x = false) as Happ.
  { intros Hs. unfold pending_deposit. by rewrite Hs. }
  destruct (decide (Deposit.id r ∈ pending_ids (selected ids db))) as [Hp|Hp].
  - apply Happ. by apply Y.
  - rewrite (N Hp). destruct (pending_deposit r) eqn:Hpr; [|done].
    contradict Hp. apply elem_of_pending_ids; [|done].
    apply elem_of_selected. split; [done|]. by rewrite <- E.
Qed.

Lemma approve_deposits_idempotent_witness :
  exists msgs db',
    approve_deposits (selected [1%positive]) 20 db_referred = Ok msgs db' /\
    approve_deposits (selected [1%positive]) 30 db' = Ok [] db'.
Proof.
  assert (fk_ok db_referred) as Hfk by (apply (bool_decide_unpack _); by vm_compute).
  apply (approve_deposits_idempotent [1%positive] 20 30 db_referred Hfk).
  intros x Hx _. apply list_elem_of_singleton in Hx as ->. by eexists.
Defined.
(** ** The administrator's decision on a withdrawal *)

Lemma site_eta s :
  {| ledger := ledger s; Withdrawal_processed_at := Withdrawal_processed_at s |} = s.
Proof. by destruct s. Qed.

Lemma admin_withdrawal_404 pk now s :
  get_row Withdrawal.id pk (Withdrawal_objects (ledger s)) = None ->
  admin_withdrawal_approve_view pk now s = Raise Http404 s /\
  admin_withdrawal_reject_view pk now s = Raise Http404 s.
Proof.
  intros H. unfold admin_withdrawal_approve_view, admin_withdrawal_reject_view,
    in_ledger, get_withdrawal_or_404. munfold. rewrite H. by rewrite site_eta.
Qed.

Lemma admin_withdrawal_refused pk now s w :
  get_row Withdrawal.id pk (Withdrawal_objects (ledger s)) = Some w ->
  status_in_pending (Withdrawal.status w) = false ->
  admin_withdrawal_approve_view pk now s = Ok not_pending_withdrawal s /\
  admin_withdrawal_reject_view pk now s = Ok not_pending_withdrawal s.
Proof.
  intros H Hst. unfold admin_withdrawal_approve_view, admin_withdrawal_reject_view,
    in_ledger, get_withdrawal_or_404. munfold. rewrite H, Hst. simpl.
  by rewrite site_eta.
Qed.

Lemma admin_withdrawal_approve_run pk now s w :
  get_row Withdrawal.id pk (Withdrawal_objects (ledger s)) = Some w ->
  status_in_pending (Withdrawal.status w) = true ->
  admin_withdrawal_approve_view pk now s
  = Ok (withdrawal_approved (Withdrawal.amount w)) (decided "approved" pk now s).
Proof.
  intros H Hst. destruct (get_row_Some _ _ _ _ H) as [_ Hid].
  unfold admin_withdrawal_approve_view, in_ledger, get_withdrawal_or_404. munfold.
  rewrite H, Hst. simpl. unfold Withdrawal_save_processed. simpl. by rewrite Hid.
Qed.

Lemma admin_withdrawal_reject_run pk now s w p :
  get_row Withdrawal.id pk (Withdrawal_objects (ledger s)) = Some w ->
  status_in_pending (Withdrawal.status w) = true ->
  Profile_objects (ledger s) !! Withdrawal.user w = Some p ->
  admin_withdrawal_reject_view pk now s
  = Ok (withdrawal_rejected (Withdrawal.amount w))
       (decided "rejected" pk now (refund_saved (Withdrawal.user w) (Withdrawal.amount w) p s)).
Proof.
  intros H Hst Hp. destruct (get_row_Some _ _ _ _ H) as [_ Hid].
  unfold admin_withdrawal_reject_view, in_ledger, get_withdrawal_or_404,
    get_profile_or_404. munfold.
  rewrite H, Hst. simpl. rewrite Hp. simpl.
  unfold Profile_save_withdrawable_balance, Withdrawal_save_processed. munfold. simpl.
  rewrite (upd_Profile_objects_alter _ _ _ _ Hp). by rewrite Hid.
Qed.

Lemma admin_withdrawal_reject_no_profile pk now s w :
  get_row Withdrawal.id pk (Withdrawal_objects (ledger s)) = Some w ->
  status_in_pending (Withdrawal.status w) = true ->
  Profile_objects (ledger s) !! Withdrawal.user w = None ->
  admin_withdrawal_reject_view pk now s = Raise Http404 s.
Proof.
  intros H Hst Hp.
  unfold admin_withdrawal_reject_view, in_ledger, get_withdrawal_or_404,
    get_profile_or_404. munfold.
  rewrite H, Hst. simpl. rewrite Hp. simpl. by rewrite site_eta.
Qed.

(** Once decided, the row is no longer pending. *)
Lemma decided_row status pk now s w :
  get_row Withdrawal.id pk (Withdrawal_objects (ledger s)) = Some w ->
  get_row Withdrawal.id pk (Withdrawal_objects (ledger (decided status pk now s)))
  = Some (Withdrawal_set_status status w).
Proof. intros H. simpl. by apply get_row_update_row. Qed.

Lemma next_id_gt {A} (pk : A -> positive) rows r :
  r ∈ rows -> (pk r < next_id pk rows)%positive.
Proof.
  unfold next_id. induction rows as [|x rows IH]; intros H.
  - by apply elem_of_nil in H.
  - simpl. apply elem_of_cons in H as [->|H]; [lia|]. specialize (IH H). lia.
Qed.

(** The row created under the next id is the one found under that id. *)
Lemma get_row_created {A} (pk : A -> positive) rows (r : A) :
  pk r = next_id pk rows ->
  get_row pk (next_id pk rows) (rows ++ [r]) = Some r.
Proof.
  intros Hr. unfold get_row.
  assert (forall l, (forall x, x ∈ l -> pk x <> next_id pk rows) ->
                    List.find (fun x => Pos.eqb (pk x) (next_id pk rows)) (l ++ [r]) = Some r)
    as Hfind.
  { induction l as [|x l IH]; intros Hl; simpl.
    - by rewrite Hr, Pos.eqb_refl.
    - destruct (Pos.eqb_spec (pk x) (next_id pk rows)) as [E|_].
      + destruct (Hl x); [left|done].
      + apply IH. intros y Hy. apply Hl. by right. }
  apply Hfind. intros x Hx. pose proof (next_id_gt pk rows x Hx). lia.
Qed.

(** The store a granted withdrawal request leaves. *)
Lemma finance_view_withdrawal_run uid amt net wallet now db p :
  fk_ok db ->
  Profile_objects db !! uid = Some p ->
  (amt <= Profile.withdrawable_balance p)%Q ->
  finance_view_withdrawal uid amt net wallet now db
  = Ok withdrawal_submitted
       (upd_Profile_objects
          (insert uid (with_rank (Rank_objects db) (withdrawn amt now p)))
          (upd_Withdrawal_objects (fun rows => rows ++ [requested uid amt net wallet db])
             db)).
Proof.
  intros Hfk Hp Hle. unfold finance_view_withdrawal. munfold. rewrite Hp.
  apply Qgtb_le in Hle. rewrite Hle.
  unfold Profile_save_withdrawable_balance, Withdrawal_create,
    Profile_save_last_withdrawal_at. munfold. simpl.
  fold (withdrawn amt now p). fold (requested uid amt net wallet db).
  erewrite update_rank_ok with (p := withdrawn amt now p).
  - simpl. unfold withdrawal_submitted, with_rank, upd_Profile_objects. simpl.
    f_equal. f_equal.
    rewrite (alter_alt_Some _ _ _ _ Hp), alter_insert_eq.
    by rewrite insert_insert_eq.
  - simpl. rewrite (alter_alt_Some _ _ _ _ Hp), alter_insert_eq.
    by rewrite lookup_insert_eq.
  - exact (Hfk _ _ Hp).
Qed.

(** X24: a withdrawal is decided once. For a withdrawal that waits
    (status pending or pending_admin_approval) and whose owner has a
    profile: the approval marks it approved at [now] and moves no money
    (the amount left the balance when the request was made); the
    rejection marks it rejected at [now] and gives the amount back to the
    owner's withdrawable balance, other balances and accounts untouched.
    After either decision every further approval or rejection of that
    withdrawal is refused with a warning and changes nothing: an approved
    withdrawal cannot be refunded, and none is refunded twice. *)
Theorem withdrawal_decided_once (pk : positive) (now now' : Z) (s : Site)
    (w : Withdrawal.t) (p : Profile.t) :
  get_row Withdrawal.id pk (Withdrawal_objects (ledger s)) = Some w ->
  status_in_pending (Withdrawal.status w) = true ->
  Profile_objects (ledger s) !! Withdrawal.user w = Some p ->
  (exists sa wa,
     admin_withdrawal_approve_view pk now s
     = Ok (withdrawal_approved (Withdrawal.amount w)) sa /\
     Profile_objects (ledger sa) = Profile_objects (ledger s) /\
     get_row Withdrawal.id pk (Withdrawal_objects (ledger sa)) = Some wa /\
     Withdrawal.status wa = "approved" /\
     Withdrawal_processed_at sa !! pk = Some now /\
     admin_withdrawal_reject_view pk now' sa = Ok not_pending_withdrawal sa /\
     admin_withdrawal_approve_view pk now' sa = Ok not_pending_withdrawal sa) /\
  (exists sr wr pr,
     admin_withdrawal_reject_view pk now s
     = Ok (withdrawal_rejected (Withdrawal.amount w)) sr /\
     Profile_objects (ledger sr) !! Withdrawal.user w = Some pr /\
     Profile.withdrawable_balance pr
     = (Profile.withdrawable_balance p + Withdrawal.amount w)%Q /\
     Profile.locked_balance pr = Profile.locked_balance p /\
     Profile.rank pr = Profile.rank p /\
     (forall u, u <> Withdrawal.user w ->
                Profile_objects (ledger sr) !! u = Profile_objects (ledger s) !! u) /\
     get_row Withdrawal.id pk (Withdrawal_objects (ledger sr)) = Some wr /\
     Withdrawal.status wr = "rejected" /\
     Withdrawal_processed_at sr !! pk = Some now /\
     admin_withdrawal_reject_view pk now' sr = Ok not_pending_withdrawal sr /\
     admin_withdrawal_approve_view pk now' sr = Ok not_pending_withdrawal sr).
Proof.
  intros Hw Hst Hp. split.
  - exists (decided "approved" pk now s), (Withdrawal_set_status "approved" w).
    split; [by apply admin_withdrawal_approve_run|]. split; [done|].
    pose proof (decided_row "approved" pk now s w Hw) as Hrow.
    split; [exact Hrow|]. split; [done|].
    split; [simpl; by rewrite lookup_insert_eq|].
    destruct (admin_withdrawal_refused pk now' _ _ Hrow eq_refl) as [Ha Hr]. by split.
  - set (s1 := refund_saved (Withdrawal.user w) (Withdrawal.amount w) p s).
    exists (decided "rejected" pk now s1), (Withdrawal_set_status "rejected" w),
      (refunded (Withdrawal.amount w) p).
    split; [by apply admin_withdrawal_reject_run|].
    split; [simpl; by rewrite lookup_insert_eq|]. split; [done|]. split; [done|].
    split; [done|]. split; [intros u Hu; simpl; by rewrite lookup_insert_ne|].
    assert (get_row Withdrawal.id pk (Withdrawal_objects (ledger s1)) = Some w) as Hw1
      by exact Hw.
    pose proof (decided_row "rejected" pk now s1 w Hw1) as Hrow.
    split; [exact Hrow|]. split; [done|].
    split; [simpl; by rewrite lookup_insert_eq|].
    destruct (admin_withdrawal_refused pk now' _ _ Hrow eq_refl) as [Ha Hr]. by split.
Qed.

Lemma withdrawal_decided_once_witness :
  exists sr pr,
    admin_withdrawal_reject_view 1 30
      (store (in_ledger (finance_view_withdrawal 1 4%Q "Solana" "addr" 5)
                (site_of db_withdrawable)))
    = Ok (withdrawal_rejected 4%Q) sr /\
    Profile_objects (ledger sr) !! 1%positive = Some pr /\
    (Profile.withdrawable_balance pr == 10)%Q /\
    admin_withdrawal_reject_view 1 40 sr = Ok not_pending_withdrawal sr.
Proof.
  set (s := store (in_ledger (finance_view_withdrawal 1 4%Q "Solana" "addr" 5)
                     (site_of db_withdrawable))).
  destruct (withdrawal_decided_once 1 30 40 s
              (requested 1 4%Q "Solana" "addr" db_withdrawable)
              (with_rank scenario_ranks (withdrawn 4%Q 5 (mk_profile (Some 1%positive) 0%Q 10%Q))))
    as [_ (sr & wr & pr & Hrun & Hpr & Hw & _ & _ & _ & _ & _ & _ & Hagain & _)].
  - by vm_compute.
  - done.
  - by vm_compute.
  - exists sr, pr. split; [exact Hrun|]. split; [exact Hpr|].
    split; [rewrite Hw; by vm_compute|exact Hagain].
Defined.

(** X25: a rejected withdrawal gives the money back, not the rank. A
    granted withdrawal request followed by its rejection leaves the
    owner's withdrawable balance at its value before the request, the
    locked balance untouched, the row rejected. The request recomputed
    the rank on the reduced balance; the rejection refunds without
    recomputing it, so the stored rank is the rank of the balance without
    the amount, which can be lower than the rank of the restored
    balance. *)
Theorem withdrawal_refund_round_trip (uid : positive) (amt : Decimal)
    (net wallet : string) (now now' : Z) (s : Site) (p : Profile.t) :
  fk_ok (ledger s) ->
  Profile_objects (ledger s) !! uid = Some p ->
  (amt <= Profile.withdrawable_balance p)%Q ->
  let pk := next_id Withdrawal.id (Withdrawal_objects (ledger s)) in
  let p2 := refunded amt (with_rank (Rank_objects (ledger s)) (withdrawn amt now p)) in
  exists s1 s2 w2,
    in_ledger (finance_view_withdrawal uid amt net wallet now) s
    = Ok withdrawal_submitted s1 /\
    admin_withdrawal_reject_view pk now' s1 = Ok (withdrawal_rejected amt) s2 /\
    Rank_objects (ledger s2) = Rank_objects (ledger s) /\
    Profile_objects (ledger s2) !! uid = Some p2 /\
    (Profile.withdrawable_balance p2 == Profile.withdrawable_balance p)%Q /\
    Profile.locked_balance p2 = Profile.locked_balance p /\
    Profile.rank p2
    = Rank.id <$> get_rank (Rank_objects (ledger s)) (withdrawn amt now p) /\
    get_row Withdrawal.id pk (Withdrawal_objects (ledger s2)) = Some w2 /\
    Withdrawal.status w2 = "rejected" /\
    Withdrawal.amount w2 = amt /\
    Withdrawal_processed_at s2 !! pk = Some now'.
Proof.
  intros Hfk Hp Hle pk p2.
  set (w := requested uid amt net wallet (ledger s)).
  set (p1 := with_rank (Rank_objects (ledger s)) (withdrawn amt now p)).
  set (db1 := upd_Profile_objects (insert uid p1)
                (upd_Withdrawal_objects (fun rows => rows ++ [w]) (ledger s))).
  set (s1 := {| ledger := db1; Withdrawal_processed_at := Withdrawal_processed_at s |}).
  assert (get_row Withdrawal.id pk (Withdrawal_objects (ledger s1)) = Some w) as Hw.
  { simpl. by apply get_row_created. }
  assert (Profile_objects (ledger s1) !! Withdrawal.user w = Some p1) as Hp1.
  { simpl. by rewrite lookup_insert_eq. }
  exists s1. eexists. exists (Withdrawal_set_status "rejected" w).
  split.
  { unfold in_ledger.
    by rewrite (finance_view_withdrawal_run uid amt net wallet now (ledger s) p Hfk Hp Hle). }
  split; [exact (admin_withdrawal_reject_run pk now' s1 w p1 Hw eq_refl Hp1)|].
  split; [done|]. split; [simpl; by rewrite lookup_insert_eq|].
  split; [simpl; lra|]. split; [done|]. split; [done|].
  split.
  { apply (decided_row "rejected" pk now' (refund_saved uid amt p1 s1) w). exact Hw. }
  split; [done|]. split; [done|]. simpl. by rewrite lookup_insert_eq.
Qed.

Lemma withdrawal_refund_round_trip_witness :
  exists s1 s2 p2,
    in_ledger (finance_view_withdrawal 1 10%Q "Solana" "addr" 5) (site_of db_withdrawable)
    = Ok withdrawal_submitted s1 /\
    admin_withdrawal_reject_view 1 30 s1 = Ok (withdrawal_rejected 10%Q) s2 /\
    Profile_objects (ledger s2) !! 1%positive = Some p2 /\
    (Profile.withdrawable_balance p2 == 10)%Q /\
    Profile.rank p2 = None /\
    Rank.id <$> get_rank (Rank_objects (ledger s2)) p2 = Some 1%positive.
Proof.
  assert (fk_ok db_withdrawable) as Hfk by (apply (bool_decide_unpack _); by vm_compute).
  destruct (withdrawal_refund_round_trip 1 10%Q "Solana" "addr" 5 30
              (site_of db_withdrawable) (mk_profile (Some 1%positive) 0%Q 10%Q) Hfk)
    as (s1 & s2 & w2 & Hreq & Hrej & HR & Hp2 & _).
  - done.
  - by vm_compute.
  - eexists s1, s2, _. split; [exact Hreq|]. split; [exact Hrej|].
    split; [exact Hp2|]. split; [by vm_compute|]. split; [by vm_compute|].
    rewrite HR. by vm_compute.
Defined.
(** ** The flags of an account *)

Lemma truthy_true s : truthy s = true <-> s <> "".
Proof.
  unfold truthy. destruct (String.eqb_spec s ""); simpl; split; congruence.
Qed.

Lemma Q_last_login_ip_true prep ip u :
  Q_last_login_ip prep ip u = true <->
  exists v, CustomUser.last_login_ip u = Some v /\ prep ip = Some v.
Proof.
  unfold Q_last_login_ip.
  destruct (CustomUser.last_login_ip u) as [a|], (prep ip) as [b|]; split;
    try (intros (v & ? & ?)); try congruence.
  - intros H. apply String.eqb_eq in H as ->. by exists b.
  - apply String.eqb_eq. congruence.
Qed.

Lemma sharesb_true prep ip phone u :
  sharesb prep ip phone u = true <-> shares prep ip phone u.
Proof.
  unfold sharesb, shares, Q_phone.
  rewrite orb_true_iff, !andb_true_iff, !truthy_true, Q_last_login_ip_true.
  by rewrite String.eqb_eq.
Qed.

Lemma build_q_spec prep ip phone :
  match build_q prep ip phone with
  | Some q => forall u, q u = sharesb prep ip phone u
  | None => forall u, sharesb prep ip phone u = false
  end.
Proof.
  unfold build_q, sharesb. destruct (truthy ip), (truthy phone); simpl; intros u;
    try done; by rewrite ?orb_false_r.
Qed.

Lemma filter_filter_andb {A} (f g : A -> bool) l :
  List.filter f (List.filter g l) = List.filter (fun x => g x && f x) l.
Proof.
  induction l as [|x l IH]; simpl; [done|].
  destruct (g x); simpl; [|done]. destruct (f x); by rewrite IH.
Qed.

Lemma others_nil_without_q prep ip phone uid users :
  (forall u, sharesb prep ip phone u = false) -> others prep ip phone uid users = [].
Proof.
  intros H. unfold others. induction users as [|u users IH]; simpl; [done|].
  by rewrite H.
Qed.

(** The run of [login_view] for an account that is not banned. *)
Lemma login_view_run prep META user users :
  CustomUser.is_banned user = false ->
  login_view prep META user users =
  let ip := get_client_ip META in
  let users1 := recorded prep ip (CustomUser.id user) users in
  Ok logged_in
     (if Nat.leb 2 (length (others prep ip (CustomUser.phone user) (CustomUser.id user) users1))
      then flag_sharing prep ip (CustomUser.phone user) <$> users1
      else users1).
Proof.
  intros Hban. unfold login_view. rewrite Hban. munfold. cbv zeta.
  fold (recorded prep (get_client_ip META) (CustomUser.id user) users).
  set (ip := get_client_ip META). set (users1 := recorded prep ip (CustomUser.id user) users).
  unfold _check_multi_account, _flag_multi_accounts. munfold.
  pose proof (build_q_spec prep ip (CustomUser.phone user)) as Hq.
  destruct (build_q prep ip (CustomUser.phone user)) as [q|].
  - cbv beta iota.
    assert (List.filter (fun u => negb (Pos.eqb (CustomUser.id u) (CustomUser.id user)))
              (List.filter exclude_admin (List.filter q users1))
            = others prep ip (CustomUser.phone user) (CustomUser.id user) users1) as ->.
    { rewrite !filter_filter_andb. unfold others. apply List.filter_ext.
      intros u. rewrite Hq. by rewrite andb_assoc. }
    destruct (Nat.leb 2 _); cbv beta iota; [|done].
    unfold logged_in. f_equal. apply map_ext. intros u. unfold flag_sharing. by rewrite Hq.
  - cbv beta iota. by rewrite (others_nil_without_q _ _ _ _ _ Hq).
Qed.

Lemma exclude_admin_true u : exclude_admin u = true <-> CustomUser.role u <> "admin".
Proof.
  unfold exclude_admin. destruct (String.eqb_spec (CustomUser.role u) "admin"); simpl;
    split; congruence.
Qed.

Lemma flag_sharing_cases prep ip phone n u :
  (2 <= n)%nat -> flagged_by_login prep ip phone n u (flag_sharing prep ip phone u).
Proof.
  intros Hn. unfold flag_sharing, flagged_by_login.
  destruct (sharesb prep ip phone u) eqn:Hs; [|by left].
  destruct (exclude_admin u) eqn:He; [|by left]. right.
  apply sharesb_true in Hs. apply exclude_admin_true in He. done.
Qed.

Lemma Forall2_map_diag {A} (R : A -> A -> Prop) (g : A -> A) l :
  (forall x, R x (g x)) -> Forall2 R l (g <$> l).
Proof. intros H. induction l; simpl; constructor; auto. Qed.

(** X26: a login flags accounts from the third one on. The login of an
    account that is not banned succeeds and records the address of the
    request. Flags change only when at least two other accounts, not of
    role admin, share that address or the phone number of the account:
    with fewer, nothing but the address is written; with two or more,
    every account not of role admin that shares, the one that logs in
    included, ends flagged. No flag is ever cleared and no account of role
    admin is flagged. *)
Theorem login_view_flags (prep : string -> option string) (META : gmap string string)
    (user : CustomUser.t) (users : Users) :
  CustomUser.is_banned user = false ->
  let ip := get_client_ip META in
  let phone := CustomUser.phone user in
  let users1 := recorded prep ip (CustomUser.id user) users in
  let n := length (others prep ip phone (CustomUser.id user) users1) in
  exists users',
    login_view prep META user users = Ok logged_in users' /\
    ((n < 2)%nat -> users' = users1) /\
    Forall2 (flagged_by_login prep ip phone n) users1 users' /\
    ((2 <= n)%nat ->
     forall u', u' ∈ users' -> shares prep ip phone u' -> CustomUser.role u' <> "admin" ->
                CustomUser.is_flagged u' = true).
Proof.
  intros Hban ip phone users1 n. rewrite (login_view_run prep META user users Hban).
  cbv zeta. fold ip. fold phone. fold users1. fold n.
  destruct (Nat.leb_spec 2 n) as [Hn|Hn].
  - eexists. split; [done|]. split; [lia|]. split.
    + apply Forall2_map_diag. intros u. by apply flag_sharing_cases.
    + intros _ u' Hu' Hs Hr. apply list_elem_of_fmap in Hu' as (u & -> & _).
      unfold flag_sharing in *.
      destruct (sharesb prep ip phone u && exclude_admin u) eqn:E; [done|].
      apply sharesb_true in Hs. apply exclude_admin_true in Hr. by rewrite Hs, Hr in E.
  - exists users1. split; [done|]. split; [done|]. split; [|lia].
    apply Forall2_refl_on. intros u. by left.
Qed.

Lemma login_view_flags_witness :
  exists users',
    login_view prep_plain META_one_address (mk_user 3 false "user" None "")
      users_one_address = Ok logged_in users' /\
    CustomUser.is_flagged <$> users' = [true; true; true; false].
Proof.
  destruct (login_view_flags prep_plain META_one_address (mk_user 3 false "user" None "")
              users_one_address eq_refl) as (users' & Hrun & _).
  assert (login_view prep_plain META_one_address (mk_user 3 false "user" None "")
            users_one_address
          = Ok logged_in
               (flag_sharing prep_plain "10.0.0.1" ""
                  <$> recorded prep_plain "10.0.0.1" 3 users_one_address)) as Hl
    by (vm_compute; reflexivity).
  rewrite Hl in Hrun. injection Hrun as <-.
  eexists. split; [exact Hl|]. vm_compute. reflexivity.
Defined.

Lemma admin_user_ban_view_run pk users u :
  get_row CustomUser.id pk users = Some u ->
  CustomUser.is_staff u = false ->
  admin_user_ban_view pk users
  = Ok user_banned
       (update_row CustomUser.id pk
          (fun row => CustomUser.set_is_flagged true (CustomUser.set_is_banned true row))
          users).
Proof.
  intros H Hs. destruct (get_row_Some _ _ _ _ H) as [_ Hid].
  unfold admin_user_ban_view, get_user_or_404. munfold. rewrite H, Hs. simpl.
  by rewrite Hid.
Qed.

Lemma admin_user_unban_view_run pk users u :
  get_row CustomUser.id pk users = Some u ->
  admin_user_unban_view pk users
  = Ok user_unbanned (update_row CustomUser.id pk (CustomUser.set_is_banned false) users).
Proof.
  intros H. destruct (get_row_Some _ _ _ _ H) as [_ Hid].
  unfold admin_user_unban_view, get_user_or_404. munfold. rewrite H. simpl.
  by rewrite Hid.
Qed.

(** X27: a ban leaves its mark. An account of the staff can be neither
    banned nor flagged by the views: they answer with an error and write
    nothing. Any other account is banned and flagged by
    [admin_user_ban_view], and its login is then refused with nothing
    written; [admin_user_unban_view] lifts the ban only: the account
    stays flagged, also when it was not flagged before the ban, every
    other column being as before. *)
Theorem ban_unban_leaves_flag (prep : string -> option string)
    (META : gmap string string) (pk : positive) (users : Users) (u : CustomUser.t) :
  get_row CustomUser.id pk users = Some u ->
  (CustomUser.is_staff u = true ->
   admin_user_ban_view pk users = Ok cannot_ban_admin users /\
   admin_user_flag_view pk users = Ok cannot_flag_admin users) /\
  (CustomUser.is_staff u = false ->
   exists users1 users2 u1,
     admin_user_ban_view pk users = Ok user_banned users1 /\
     get_row CustomUser.id pk users1 = Some u1 /\
     CustomUser.is_banned u1 = true /\ CustomUser.is_flagged u1 = true /\
     login_view prep META u1 users1 = Ok account_banned users1 /\
     admin_user_unban_view pk users1 = Ok user_unbanned users2 /\
     get_row CustomUser.id pk users2
     = Some (CustomUser.set_is_flagged true (CustomUser.set_is_banned false u))).
Proof.
  intros H. split.
  - intros Hs. unfold admin_user_ban_view, admin_user_flag_view, get_user_or_404. munfold.
    by rewrite H, Hs.
  - intros Hs.
    set (ban := fun row => CustomUser.set_is_flagged true (CustomUser.set_is_banned true row)).
    assert (get_row CustomUser.id pk (update_row CustomUser.id pk ban users) = Some (ban u))
      as H1 by (by apply get_row_update_row).
    exists (update_row CustomUser.id pk ban users). eexists. exists (ban u).
    split; [exact (admin_user_ban_view_run pk users u H Hs)|]. split; [exact H1|].
    split; [done|]. split; [done|]. split; [done|].
    split; [exact (admin_user_unban_view_run pk _ (ban u) H1)|].
    by apply (get_row_update_row CustomUser.id pk (CustomUser.set_is_banned false) _ (ban u)).
Qed.

Lemma ban_unban_leaves_flag_witness :
  exists users1 users2 u2,
    admin_user_ban_view 1 users_one_address = Ok user_banned users1 /\
    admin_user_unban_view 1 users1 = Ok user_unbanned users2 /\
    get_row CustomUser.id 1 users2 = Some u2 /\
    CustomUser.is_banned u2 = false /\ CustomUser.is_flagged u2 = true.
Proof.
  destruct (ban_unban_leaves_flag prep_plain META_one_address 1 users_one_address
              (mk_user 1 false "user" (Some "10.0.0.1") "") eq_refl)
    as [_ Hban].
  destruct (Hban eq_refl) as (users1 & users2 & u1 & Hb & _ & _ & _ & _ & Hu & H2).
  exists users1, users2. eexists. split; [exact Hb|]. split; [exact Hu|].
  split; [exact H2|]. done.
Defined.
